(** * Birbank Business connector: token cache, account reconciliation and
      statement-line ingestion

    A shallow embedding of [models/account_online_link.py].  The three Odoo
    models of the file ([account.journal], [account.online.link] and
    [account.online.account]) act on one database; here that database is
    the record [world], and every method is a function in a state and
    exception monad over it.

    Conventions of the embedding:
    - an Odoo [Char]/[Date]/[Datetime] field is an [option]; [None] is the
      ORM's [False];
    - datetimes are seconds and dates are days, both in [Z];
    - a method's [self] (or a record it is given) is the row as read when
      the caller took the handle; no field the callee reads from it is
      written in between, and writes go to the row with that id;
    - [_logger.info] calls are not modelled, but for an argument that can
      raise (the [len] of line 406); [_logger.error], [_logger.warning]
      and [_logger.exception] are;
    - [provider] is a required selection whose only value is ['birbank'],
      so the [super()] fall-backs guarded by [provider != 'birbank'] are
      not modelled;
    - strings are byte strings in UTF-8, Python's [float] is an IEEE
      binary64 number ([spec_float]), and a decoded JSON number is an
      [int] or a [float] as [json.loads] makes it;
    - what the code reads from a decoded body stays the raw value until it
      is written to a column: the identifiers in the entries of
      [_fetch_odoo_fin_accounts] and [_fetch_odoo_fin_transactions] are
      JSON values, those of the rows are the texts of the [Char] columns;
    - an exception leaves the writes made before it in place (the ORM's
      rollback of a request that ends in an exception is the host's). *)

From Stdlib Require Import ZArith Ascii SpecFloat.
From stdpp Require Import base option list strings gmap pretty.

Set Warnings "-register-all,-clear-no-such-hyp".

Open Scope Z_scope.

(** ** Python values that cross the HTTP boundary *)

(** Python's [float]: zero, infinity, nan, or a finite double with its
    sign, mantissa and exponent. *)
Definition float : Type := spec_float.

(** [float(n)] of an [int]: the nearest double, ties to even; infinity
    stands for a value beyond the range, where Python raises. *)
Definition float_of_Z (n : Z) : float := binary_normalize 53 1024 n 0 false.

(** The decoded body of a response, as [resp.json()] gives it. *)
Inductive json : Type :=
  | JNull
  | JBool (b : bool)
  | JInt (n : Z)
  | JFloat (f : float)
  | JStr (s : string)
  | JArr (items : list json)
  | JObj (members : list (string * json)).

(** [type(v).__name__] *)
Definition type_name (j : json) : string :=
  match j with
  | JNull => "NoneType"
  | JBool _ => "bool"
  | JInt _ => "int"
  | JFloat _ => "float"
  | JStr _ => "str"
  | JArr _ => "list"
  | JObj _ => "dict"
  end.

(** Exceptions.  All of them are subclasses of [Exception].  A
    [RequestException] carries the status and the text of its response
    when it has one; [HostError] stands for whatever else the ORM raises. *)
Inductive exn : Type :=
  | UserError (msg : string)
  | RequestException (resp : option (Z * string)) (msg : string)
  | AttributeError (msg : string)
  | IndexError (msg : string)
  | ValueError (msg : string)
  | TypeError (msg : string)
  | OverflowError (msg : string)
  | HostError (msg : string).

Definition is_UserError (e : exn) : bool :=
  match e with UserError _ => true | _ => false end.

(** [str(e)] *)
Definition str_exn (e : exn) : string :=
  match e with
  | UserError m | RequestException _ m | AttributeError m | IndexError m
  | ValueError m | TypeError m | OverflowError m | HostError m => m
  end.

(** What [requests] hands back for one request: no response, a response
    with an error status, a response whose body decodes ([Body (Some j)]),
    one with an empty body ([Body None]), and one whose body is no JSON,
    with the text of the [JSONDecodeError]. *)
Inductive response : Type :=
  | ConnectionFailed (msg : string)
  | HttpError (status : Z) (msg : string) (text : string)
  | Body (decoded : option json)
  | NotJson (msg : string).

Inductive http_method := GET | POST.

Record request := {
  req_method : http_method;
  req_url : string;
  req_bearer : option string;
  req_json : list (string * option string);
  req_params : list (string * string);
  req_timeout : Z
}.

Inductive log_level := ERROR | WARNING.

Inductive log_record : Type :=
  | Log (level : log_level) (msg : string)
  | Traceback (e : exn).

(** ** Truthiness and [safe_str] *)

Definition truthy (j : json) : bool :=
  match j with
  | JNull => false
  | JBool b => b
  | JInt n => negb (n =? 0)
  | JFloat f => match f with S754_zero _ => false | _ => true end
  | JStr s => negb (String.eqb s "")
  | JArr l => match l with [] => false | _ => true end
  | JObj l => match l with [] => false | _ => true end
  end.

(** Truthiness of a [Char] field: [False] and the empty string are falsy. *)
Definition truthy_char (c : option string) : bool :=
  match c with
  | Some s => negb (String.eqb s "")
  | None => false
  end.

(** Truthiness of a record set of at most one record. *)
Definition has_record {A} (r : option A) : bool :=
  match r with
  | Some _ => true
  | None => false
  end.

(** Truthiness of an id or an optional id: [None] and [0] are falsy. *)
Definition truthy_id (i : option Z) : bool :=
  match i with
  | Some z => negb (z =? 0)
  | None => false
  end.

(** [safe_str(val)] on a [Char] value. *)
Definition safe_str (val : option string) : string :=
  if truthy_char val then default "" val else "".

(** [safe_str(e)] on an exception: exception objects are truthy. *)
Definition safe_str_exn (e : exn) : string := str_exn e.

(** ** Dictionaries *)

(** A decoded JSON object keeps the last of two members with one key. *)
Fixpoint assoc_last (k : string) (kvs : list (string * json)) : option json :=
  match kvs with
  | [] => None
  | (k', v) :: rest =>
      match assoc_last k rest with
      | Some v' => Some v'
      | None => if String.eqb k k' then Some v else None
      end
  end.

(** [d.get(k, dflt)]; on a value that is not a dict the attribute lookup
    fails. *)
Definition dict_get (k : string) (dflt : json) (d : json) : exn + json :=
  match d with
  | JObj kvs => inr (default dflt (assoc_last k kvs))
  | _ => inl (AttributeError ("'" +:+ type_name d
                              +:+ "' object has no attribute 'get'"))
  end.

(** [x in s] for a set of strings: no value of another type equals a
    string, and a list or a dict cannot be hashed. *)
Definition py_in (x : json) (keys : string → bool) : exn + bool :=
  match x with
  | JStr s => inr (keys s)
  | JArr _ | JObj _ =>
      inl (TypeError ("unhashable type: '" +:+ type_name x +:+ "'"))
  | _ => inr false
  end.

(** [d[x] if x in d else None] for a dict whose keys are strings. *)
Definition py_lookup {A} (x : json) (lookup : string → option A) : exn + option A :=
  match x with
  | JStr s => inr (lookup s)
  | JArr _ | JObj _ =>
      inl (TypeError ("unhashable type: '" +:+ type_name x +:+ "'"))
  | _ => inr None
  end.

(** ** Strings *)

(** [s.split(c)] for a one-character separator. *)
Fixpoint split_on (c : ascii) (s : string) : list string :=
  match s with
  | EmptyString => [EmptyString]
  | String a rest =>
      if Ascii.eqb a c then EmptyString :: split_on c rest
      else match split_on c rest with
           | [] => [String a EmptyString]
           | h :: t => String a h :: t
           end
  end.

(** The characters of a string: a character is a byte that is not a
    continuation byte (10xxxxxx), with the continuation bytes after it. *)
Definition is_continuation (a : ascii) : bool :=
  let n := nat_of_ascii a in (128 <=? n)%nat && (n <? 192)%nat.

Fixpoint chars (s : string) : list string :=
  match s with
  | EmptyString => []
  | String a rest =>
      match chars rest with
      | String b c :: cs =>
          if is_continuation b then String a (String b c) :: cs
          else String a EmptyString :: String b c :: cs
      | cs => String a EmptyString :: cs
      end
  end.

(** [s[:n]]: the first [n] characters. *)
Definition take_chars (n : nat) (s : string) : string :=
  String.concat "" (List.firstn n (chars s)).

(** ** The database *)

Inductive birbank_env_t := env_test | env_live.

Inductive link_state := draft | disconnected | connected | error.

(** [account.online.link]: the connection. *)
Record Link := {
  link_id : Z;
  birbank_env : birbank_env_t;
  birbank_username : option string;
  birbank_password : option string;
  birbank_initial_sync_date : option Z;
  state : link_state;
  last_success_date : option Z;
  last_error_message : option string;
  birbank_jwt_token : option string;
  birbank_token_expiry : option Z
}.

(** [account.online.account]: one bank account reported by the provider. *)
Record OnlineAccount := {
  acc_id : Z;
  acc_name : option string;
  online_identifier : option string;
  account_number : option string;
  balance : float;
  currency_code : option string;
  account_online_link_id : Z;
  journal_id : option Z
}.

(** [account.journal], with the fields the connector reads and writes. *)
Record Journal := {
  j_id : Z;
  j_type : string;
  bank_acc_number : option string;
  account_online_account_id : option Z
}.

(** [account.bank.statement.line] *)
Record StatementLine := {
  sl_date : Z;
  sl_amount : float;
  sl_payment_ref : option string;
  sl_online_transaction_identifier : option string;
  sl_journal_id : Z;
  sl_partner_name : option string
}.

(** One entry of the list [_fetch_odoo_fin_transactions] returns: a dict
    of values taken from the decoded body as they are. *)
Record Transaction := {
  online_transaction_identifier : json;
  tx_date : Z;
  tx_payment_ref : json;
  tx_amount : float;
  tx_partner_name : json
}.

(** One entry of the list [_fetch_odoo_fin_accounts] returns. *)
Record AccountData := {
  ad_online_identifier : json;
  ad_name : string;
  ad_balance : float;
  ad_currency_code : json
}.

(** The database, the requests sent so far, the error log and the number
    of times the clock was read. *)
Record world := {
  link : Link;
  accounts : list OnlineAccount;
  journals : list Journal;
  statement_lines : list StatementLine;
  requests : list request;
  logs : list log_record;
  ticks : nat
}.

(** What the code takes from outside this repository: the bank, the clock,
    Python's conversions and the host's schema and constraints. *)
Record Externals := {
  (** the bank's answer to a request, given the requests sent before it *)
  remote : list request → request → response;
  (** the wall clock, in seconds, at the n-th reading *)
  clock : nat → Z;
  (** [str(v)] of a float, a list or a dict, which is never empty: its
      first character and the rest *)
  py_repr : json → ascii * string;
  (** [float(s)] on a string: the float, or the text of the [ValueError] *)
  parse_float : string → string + float;
  (** [datetime.strptime(s, '%b %d, %Y').date()]; [None] is a [ValueError] *)
  strptime_b_d_Y : string → option Z;
  (** [d.strftime('%d-%m-%Y')] *)
  strftime_d_m_Y : Z → string;
  (** [hasattr(online_account, 'journal_id')] *)
  has_journal_id : bool;
  (** the host's checks on [StatementLine.create]: the exception it raises
      on these values given the stored lines, if any *)
  create_guard : list StatementLine → list StatementLine → option exn
}.

(** ** The monad: state and exceptions *)

Inductive result (A : Type) : Type :=
  | Ok (a : A)
  | Raise (e : exn).
Arguments Ok {A} a.
Arguments Raise {A} e.

Definition M (A : Type) : Type := world → result A * world.

Definition ret {A} (a : A) : M A := λ w, (Ok a, w).

Definition bind {A B} (m : M A) (k : A → M B) : M B :=
  λ w, match m w with
       | (Ok a, w') => k a w'
       | (Raise e, w') => (Raise e, w')
       end.

Definition raise {A} (e : exn) : M A := λ w, (Raise e, w).

(** [try: body except Exception as e: handler(e)] *)
Definition try_except {A} (body : M A) (handler : exn → M A) : M A :=
  λ w, match body w with
       | (Ok a, w') => (Ok a, w')
       | (Raise e, w') => handler e w'
       end.

Definition lift {A} (r : exn + A) : M A :=
  match r with
  | inl e => raise e
  | inr a => ret a
  end.

Declare Scope m_scope.
Delimit Scope m_scope with M.
Notation "x <- c1 ;; c2" := (bind c1 (λ x, c2))
  (at level 100, c1 at next level, right associativity) : m_scope.
Notation "c1 ;;; c2" := (bind c1 (λ _, c2))
  (at level 100, right associativity) : m_scope.
Open Scope m_scope.

Definition get_world : M world := λ w, (Ok w, w).
Definition modify (f : world → world) : M unit := λ w, (Ok tt, f w).

Definition log (level : log_level) (msg : string) : M unit :=
  modify (λ w, {| link := link w; accounts := accounts w; journals := journals w;
                  statement_lines := statement_lines w; requests := requests w;
                  logs := logs w ++ [Log level msg]; ticks := ticks w |}).

Definition log_traceback (e : exn) : M unit :=
  modify (λ w, {| link := link w; accounts := accounts w; journals := journals w;
                  statement_lines := statement_lines w; requests := requests w;
                  logs := logs w ++ [Traceback e]; ticks := ticks w |}).

(** ** The ORM operations the connector uses *)

Definition set_link (l : Link) (w : world) : world :=
  {| link := l; accounts := accounts w; journals := journals w;
     statement_lines := statement_lines w; requests := requests w;
     logs := logs w; ticks := ticks w |}.

Definition set_accounts (a : list OnlineAccount) (w : world) : world :=
  {| link := link w; accounts := a; journals := journals w;
     statement_lines := statement_lines w; requests := requests w;
     logs := logs w; ticks := ticks w |}.

Definition set_journals (j : list Journal) (w : world) : world :=
  {| link := link w; accounts := accounts w; journals := j;
     statement_lines := statement_lines w; requests := requests w;
     logs := logs w; ticks := ticks w |}.

Definition set_statement_lines (s : list StatementLine) (w : world) : world :=
  {| link := link w; accounts := accounts w; journals := journals w;
     statement_lines := s; requests := requests w;
     logs := logs w; ticks := ticks w |}.

(** [self.write(vals)] on the link *)
Definition link_write (f : Link → Link) : M unit :=
  modify (λ w, set_link (f (link w)) w).

Definition get_link : M Link := λ w, (Ok (link w), w).

Definition with_state (s : link_state) (l : Link) : Link :=
  {| link_id := link_id l; birbank_env := birbank_env l;
     birbank_username := birbank_username l; birbank_password := birbank_password l;
     birbank_initial_sync_date := birbank_initial_sync_date l;
     state := s;
     last_success_date := last_success_date l;
     last_error_message := last_error_message l;
     birbank_jwt_token := birbank_jwt_token l;
     birbank_token_expiry := birbank_token_expiry l |}.

Definition with_last_success_date (d : option Z) (l : Link) : Link :=
  {| link_id := link_id l; birbank_env := birbank_env l;
     birbank_username := birbank_username l; birbank_password := birbank_password l;
     birbank_initial_sync_date := birbank_initial_sync_date l;
     state := state l;
     last_success_date := d;
     last_error_message := last_error_message l;
     birbank_jwt_token := birbank_jwt_token l;
     birbank_token_expiry := birbank_token_expiry l |}.

Definition with_last_error_message (m : option string) (l : Link) : Link :=
  {| link_id := link_id l; birbank_env := birbank_env l;
     birbank_username := birbank_username l; birbank_password := birbank_password l;
     birbank_initial_sync_date := birbank_initial_sync_date l;
     state := state l;
     last_success_date := last_success_date l;
     last_error_message := m;
     birbank_jwt_token := birbank_jwt_token l;
     birbank_token_expiry := birbank_token_expiry l |}.

Definition with_token (t : option string) (expiry : option Z) (l : Link) : Link :=
  {| link_id := link_id l; birbank_env := birbank_env l;
     birbank_username := birbank_username l; birbank_password := birbank_password l;
     birbank_initial_sync_date := birbank_initial_sync_date l;
     state := state l;
     last_success_date := last_success_date l;
     last_error_message := last_error_message l;
     birbank_jwt_token := t;
     birbank_token_expiry := expiry |}.

(** Reading a field of an account record: the row with that id. *)
Definition browse_account (id : Z) : M OnlineAccount :=
  λ w, match List.find (λ a, acc_id a =? id) (accounts w) with
       | Some a => (Ok a, w)
       | None => (Raise (HostError "Record does not exist or has been deleted."), w)
       end.

(** [record.write(vals)] on an account *)
Definition account_write (id : Z) (f : OnlineAccount → OnlineAccount) : M unit :=
  modify (λ w, set_accounts
                 (List.map (λ a, if acc_id a =? id then f a else a) (accounts w)) w).

Definition fresh_account_id (l : list OnlineAccount) : Z :=
  1 + List.fold_right (λ a m, Z.max (acc_id a) m) 0 l.

(** [self.env['account.online.account'].create(vals)]: the new row gets an
    id above all present ones. *)
Definition account_create (vals : Z → OnlineAccount) : M Z :=
  λ w, let id := fresh_account_id (accounts w) in
       (Ok id, set_accounts (accounts w ++ [vals id]) w).

(** [self.account_online_account_ids]: the accounts whose link is [self]. *)
Definition account_online_account_ids : M (list OnlineAccount) :=
  λ w, (Ok (List.filter (λ a, account_online_link_id a =? link_id (link w))
                        (accounts w)), w).

(** [self.env['account.journal'].search(domain, limit=1)] *)
Definition journal_search (domain : Journal → bool) : M (option Journal) :=
  λ w, (Ok (List.find domain (journals w)), w).

Definition journal_write (id : Z) (f : Journal → Journal) : M unit :=
  modify (λ w, set_journals
                 (List.map (λ j, if j_id j =? id then f j else j) (journals w)) w).

Definition with_journal_id (j : option Z) (a : OnlineAccount) : OnlineAccount :=
  {| acc_id := acc_id a; acc_name := acc_name a;
     online_identifier := online_identifier a;
     account_number := account_number a; balance := balance a;
     currency_code := currency_code a;
     account_online_link_id := account_online_link_id a;
     journal_id := j |}.

Definition with_account_online_account_id (a : option Z) (j : Journal) : Journal :=
  {| j_id := j_id j; j_type := j_type j; bank_acc_number := bank_acc_number j;
     account_online_account_id := a |}.

(** [('bank_account_id.acc_number', '=', number)] with [('type', '=', 'bank')] *)
Definition bank_journal_with_number (number : option string) (j : Journal) : bool :=
  String.eqb (j_type j) "bank" && bool_decide (bank_acc_number j = number).

(** [('account_online_account_id', '=', id)] *)
Definition journal_of_account (id : Z) (j : Journal) : bool :=
  bool_decide (account_online_account_id j = Some id).

(** [fields.Datetime.now()] and [fields.Date.today()] read the clock. *)
Definition tick (w : world) : world :=
  {| link := link w; accounts := accounts w; journals := journals w;
     statement_lines := statement_lines w; requests := requests w;
     logs := logs w; ticks := S (ticks w) |}.

Definition seconds_per_day : Z := 86400.
Definition minutes (n : Z) : Z := 60 * n.

(** [f"{value}"] and ["%s" % value] of a [Char] field *)
Definition fmt_char (c : option string) : string := default "False" c.

(** ** The connector *)

Section Connector.

Variable E : Externals.

Definition Datetime_now : M Z := λ w, (Ok (clock E (ticks w)), tick w).

Definition Date_today : M Z :=
  λ w, (Ok (clock E (ticks w) `div` seconds_per_day), tick w).

(** *** Conversions at the HTTP boundary *)

(** [f"{v}"] and [str(v)] of a decoded value. *)
Definition fmt (j : json) : string :=
  match j with
  | JStr s => s
  | JNull => "None"
  | JBool true => "True"
  | JBool false => "False"
  | JInt n => pretty n
  | _ => String (fst (py_repr E j)) (snd (py_repr E j))
  end.

(** The value a [Char] column holds after a value of a decoded body was
    written to it: a string as it is, a truthy value of another kind by
    its text, and [False] for a falsy one, which keeps the truthiness. *)
Definition char_of_json (j : json) : option string :=
  match j with
  | JStr s => Some s
  | _ => if truthy j then Some (fmt j) else None
  end.

(** [float(v)] *)
Definition py_float (j : json) : exn + float :=
  match j with
  | JInt n =>
      match float_of_Z n with
      | S754_infinity _ => inl (OverflowError "int too large to convert to float")
      | f => inr f
      end
  | JFloat f => inr f
  | JBool b => inr (float_of_Z (if b then 1 else 0))
  | JStr s => match parse_float E s with
              | inr f => inr f
              | inl msg => inl (ValueError msg)
              end
  | _ => inl (TypeError ("float() argument must be a string or a real number, not '"
                         +:+ type_name j +:+ "'"))
  end.

(** [datetime.strptime(v, '%b %d, %Y').date()] *)
Definition strptime (j : json) : exn + Z :=
  match j with
  | JStr s => match strptime_b_d_Y E s with
              | Some d => inr d
              | None => inl (ValueError "time data does not match format")
              end
  | _ => inl (TypeError ("strptime() argument 1 must be str, not "
                         +:+ type_name j))
  end.

(** [len(v)], for an info log: only its failure matters here. *)
Definition py_len (j : json) : exn + unit :=
  match j with
  | JArr _ | JObj _ | JStr _ => inr tt
  | _ => inl (TypeError ("object of type '" +:+ type_name j +:+ "' has no len()"))
  end.

(** [for x in v] *)
Definition py_iter (j : json) : exn + list json :=
  match j with
  | JArr l => inr l
  | JObj kvs => inr (List.map (λ kv, JStr (fst kv)) kvs)
  | JStr s => inr (List.map JStr (chars s))
  | _ => inl (TypeError ("'" +:+ type_name j +:+ "' object is not iterable"))
  end.

(** *** API helpers *)

(** [requests.get] / [session.post]: the request goes out, and a failure
    of the transport is an exception without a response. *)
Definition send (req : request) : M response :=
  λ w, let r := remote E (requests w) req in
       let w' := {| link := link w; accounts := accounts w; journals := journals w;
                    statement_lines := statement_lines w;
                    requests := requests w ++ [req];
                    logs := logs w; ticks := ticks w |} in
       match r with
       | ConnectionFailed msg => (Raise (RequestException None msg), w')
       | _ => (Ok r, w')
       end.

(** [resp.raise_for_status()] *)
Definition raise_for_status (r : response) : M unit :=
  match r with
  | HttpError status msg text => raise (RequestException (Some (status, text)) msg)
  | _ => ret tt
  end.

(** [resp.json()]: the [JSONDecodeError] of [requests] is a
    [RequestException] without a response. *)
Definition resp_json (r : response) : M json :=
  match r with
  | Body (Some j) => ret j
  | NotJson msg => raise (RequestException None msg)
  | _ => raise (RequestException None "Expecting value: line 1 column 1 (char 0)")
  end.

Definition _parse_error (e : exn) : M string :=
  match e with
  | RequestException (Some (status, text)) _ =>
      log ERROR ("Birbank API Error Status: " +:+ pretty status) ;;;
      log ERROR ("Birbank API Error Body: " +:+ text) ;;;
      ret ("Bank Error (" +:+ pretty status +:+ ")")
  | _ => ret (safe_str_exn e)
  end.

Definition _get_birbank_base_url : M string :=
  self <- get_link ;;
  ret (match birbank_env self with
       | env_live => "https://my.birbank.business/api/b2b"
       | env_test => "https://pre-my.birbank.business/api/b2b"
       end).

Definition login_request (url : string) (self : Link) : request :=
  {| req_method := POST; req_url := url; req_bearer := None;
     req_json := [("username", birbank_username self);
                  ("password", birbank_password self)];
     req_params := []; req_timeout := 30 |}.

(** The test of line 314: a cached token is trusted when it is not empty
    and its expiry is later than [now] plus five minutes. *)
Definition token_is_fresh (self : Link) (now : Z) : bool :=
  truthy_char (birbank_jwt_token self)
  && match birbank_token_expiry self with
     | Some expiry => bool_decide (now + minutes 5 < expiry)
     | None => false
     end.

(** The token is used in the [Authorization] header and stored in a [Char]
    column, both of which take its text; it is carried as that text. *)
Definition _get_birbank_token (force_refresh : bool) : M string :=
  now <- Datetime_now ;;
  self <- get_link ;;
  if negb force_refresh && token_is_fresh self now
  then ret (default "" (birbank_jwt_token self))
  else
    base <- _get_birbank_base_url ;;
    let url := base +:+ "/login" in
    try_except
      (resp <- send (login_request url self) ;;
       raise_for_status resp ;;;
       data <- resp_json resp ;;
       rd <- lift (dict_get "responseData" (JObj []) data) ;;
       token <- lift (dict_get "jwttoken" JNull rd) ;;
       if negb (truthy token)
       then raise (UserError "No token returned.")
       else
         link_write (with_token (Some (fmt token)) (Some (now + minutes 50))) ;;;
         ret (fmt token))
      (λ e, msg <- _parse_error e ;;
            raise (UserError ("Auth Error: " +:+ msg))).

Fixpoint mapM {A B} (f : A → M B) (l : list A) : M (list B) :=
  match l with
  | [] => ret []
  | x :: rest =>
      y <- f x ;;
      ys <- mapM f rest ;;
      ret (y :: ys)
  end.

(** *** API overrides *)

Definition accounts_request (url token : string) : request :=
  {| req_method := GET; req_url := url; req_bearer := Some token;
     req_json := []; req_params := []; req_timeout := 30 |}.

(** One element of the comprehension of [_fetch_odoo_fin_accounts]. *)
Definition account_data_of (acc : json) : M AccountData :=
  iban <- lift (dict_get "ibanAcNo" JNull acc) ;;
  desc <- lift (dict_get "acDesc" JNull acc) ;;
  ccy <- lift (dict_get "ccy" JNull acc) ;;
  amt <- lift (dict_get "currAmt" (JInt 0) acc) ;;
  bal <- lift (py_float amt) ;;
  ret {| ad_online_identifier := iban;
         ad_name := fmt desc +:+ " (" +:+ fmt iban +:+ ") - " +:+ fmt ccy;
         ad_balance := bal;
         ad_currency_code := ccy |}.

Definition _fetch_odoo_fin_accounts : M (list AccountData) :=
  token <- _get_birbank_token false ;;
  base <- _get_birbank_base_url ;;
  let url := base +:+ "/accounts" in
  try_except
    (resp <- send (accounts_request url token) ;;
     raise_for_status resp ;;;
     data <- resp_json resp ;;
     rd <- lift (dict_get "responseData" (JObj []) data) ;;
     accounts_data <- lift (dict_get "accountsList" (JArr []) rd) ;;
     items <- lift (py_iter accounts_data) ;;
     mapM account_data_of items)
    (λ e, log ERROR "Failed to fetch Birbank accounts" ;;;
          log_traceback e ;;;
          msg <- _parse_error e ;;
          raise (UserError ("Fetch Error: " +:+ msg))).

Definition statement_request (url token acc_num from_date to_date : string) : request :=
  {| req_method := GET; req_url := url; req_bearer := Some token;
     req_json := [];
     req_params := [("accountNumber", acc_num); ("fromDate", from_date);
                    ("toDate", to_date)];
     req_timeout := 45 |}.

(** [d.strftime('%d-%m-%Y')] on a [Date] field: [False] has no [strftime]. *)
Definition strftime (d : option Z) : exn + string :=
  match d with
  | Some day => inr (strftime_d_m_Y E day)
  | None => inl (AttributeError "'bool' object has no attribute 'strftime'")
  end.

(** [name.split('(')[1].split(')')[0]] *)
Definition number_in_parentheses (name : option string) : exn + string :=
  match name with
  | None => inl (AttributeError "'bool' object has no attribute 'split'")
  | Some s =>
      match split_on "(" s with
      | _ :: second :: _ =>
          match split_on ")" second with
          | first :: _ => inr first
          | [] => inl (IndexError "list index out of range")
          end
      | _ => inl (IndexError "list index out of range")
      end
  end.

(** The account number sent to the bank (lines 382-387). *)
Definition statement_account_number (a : OnlineAccount) : exn + option string :=
  if truthy_char (online_identifier a) then inr (online_identifier a)
  else match number_in_parentheses (acc_name a) with
       | inr s => inr (Some s)
       | inl (IndexError _) | inl (AttributeError _) => inr (account_number a)
       | inl e => inl e
       end.

(** The body of the loop over [statement_list]. *)
Definition transaction_of (st : json) : M Transaction :=
  raw_date <- lift (dict_get "trnDt" JNull st) ;;
  txn_date <- match strptime raw_date with
              | inr d => ret d
              | inl (ValueError _) | inl (TypeError _) => Date_today
              | inl e => raise e
              end ;;
  ref <- lift (dict_get "trnRefNo" JNull st) ;;
  purpose <- lift (dict_get "purpose" JNull st) ;;
  lcy <- lift (dict_get "lcyAmount" (JInt 0) st) ;;
  amount <- lift (py_float lcy) ;;
  contr <- lift (dict_get "contrAccount" JNull st) ;;
  ret {| online_transaction_identifier := ref;
         tx_date := txn_date;
         tx_payment_ref := if truthy purpose then purpose else ref;
         tx_amount := amount;
         tx_partner_name := contr |}.

(** The [try] block of [_fetch_odoo_fin_transactions] (lines 376-424). *)
Definition fetch_transactions_try
    (online_account : OnlineAccount) (date_from date_to : option Z) : M (list Transaction) :=
  token <- _get_birbank_token false ;;
  base <- _get_birbank_base_url ;;
  let url := base +:+ "/v2/statement/account" in
  self <- get_link ;;
  let effective_date_from :=
    match date_from with Some d => Some d | None => birbank_initial_sync_date self end in
  effective_date_to <-
    match date_to with Some d => ret (Some d) | None => (d <- Date_today ;; ret (Some d)) end ;;
  acc_num <- lift (statement_account_number online_account) ;;
  if negb (truthy_char acc_num)
  then
    log WARNING ("Birbank: Skipping account " +:+ pretty (acc_id online_account)
                 +:+ " - No Account Number found.") ;;;
    ret []
  else
    from_date <- lift (strftime effective_date_from) ;;
    to_date <- lift (strftime effective_date_to) ;;
    resp <- send (statement_request url token (default "" acc_num) from_date to_date) ;;
    raise_for_status resp ;;;
    data <- resp_json resp ;;
    data_block <- lift (dict_get "responseData" (JObj []) data) ;;
    operations <- lift (dict_get "operations" (JObj []) data_block) ;;
    statement_list <- lift (dict_get "statementList" (JArr []) operations) ;;
    lift (py_len statement_list) ;;;
    items <- lift (py_iter statement_list) ;;
    mapM transaction_of items.

(** Its [except] clause (lines 426-429). *)
Definition fetch_transactions_except
    (online_account : OnlineAccount) (e : exn) : M (list Transaction) :=
  error_msg <- _parse_error e ;;
  log ERROR ("Birbank Sync Error for " +:+ safe_str (acc_name online_account)
             +:+ ": " +:+ error_msg) ;;;
  ret [].

Definition _fetch_odoo_fin_transactions
    (online_account : OnlineAccount) (date_from date_to : option Z) : M (list Transaction) :=
  try_except
    (fetch_transactions_try online_account date_from date_to)
    (fetch_transactions_except online_account).

(** *** The account model *)

(** [_compute_linked_journal] for one record; the value is the journal the
    computed field [linked_journal_id] gets. *)
Definition _compute_linked_journal (record : OnlineAccount) : M (option Journal) :=
  journal <- journal_search (journal_of_account (acc_id record)) ;;
  journal <- (if negb (has_record journal) && truthy_char (account_number record)
              then journal_search (bank_journal_with_number (account_number record))
              else ret journal) ;;
  match journal with
  | Some j =>
      (if has_journal_id E && negb (has_record (journal_id record))
       then try_except
              (account_write (acc_id record) (with_journal_id (Some (j_id j))))
              (λ _, ret tt)
       else ret tt) ;;;
      ret journal
  | None => ret journal
  end.

Definition _retrieve_transactions
    (self : OnlineAccount) (date_scraped : option Z) : M (list Transaction) :=
  l <- get_link ;;
  let date_from :=
    match date_scraped with Some d => Some d | None => birbank_initial_sync_date l end in
  date_to <- Date_today ;;
  try_except
    (_fetch_odoo_fin_transactions self date_from (Some date_to))
    (λ e, log ERROR ("[BIRBANK] Retrieval Failed for " +:+ fmt_char (acc_name self)
                     +:+ ": " +:+ safe_str_exn e) ;;;
          ret []).

(** Step 1 of [_custom_create_lines]: the id of the journal the lines go
    to (lines 472-484). *)
Definition resolve_journal (self : OnlineAccount) : M Z :=
  linked <- _compute_linked_journal self ;;
  let journal := j_id <$> linked in
  let journal :=
    if negb (has_record journal) && has_journal_id E
    then journal_id self
    else journal in
  journal <- (if negb (has_record journal)
              then found <- journal_search (journal_of_account (acc_id self)) ;;
                   ret (j_id <$> found)
              else ret journal) ;;
  match journal with
  | Some j => ret j
  | None => raise (UserError ("No Journal linked to account " +:+ fmt_char (acc_name self)
                              +:+ ". Cannot save transactions."))
  end.

(** [incoming_ids]: the truthy identifiers of the batch, in order. *)
Definition incoming_ids (transactions : list Transaction) : list json :=
  List.filter truthy (List.map online_transaction_identifier transactions).

(** [StatementLine.search([('journal_id', '=', journal),
    ('online_transaction_identifier', 'in', ids)])]: the host compares the
    column with the text of each value. *)
Definition search_lines (journal : Z) (ids : list json) : M (list StatementLine) :=
  λ w, (Ok (List.filter
              (λ l, (sl_journal_id l =? journal)
                    && match sl_online_transaction_identifier l with
                       | Some i => bool_decide (Some i ∈ List.map char_of_json ids)
                       | None => false
                       end)
              (statement_lines w)), w).

(** [set(lines.mapped('online_transaction_identifier'))] *)
Definition mapped_ids (lines : list StatementLine) : gset string :=
  list_to_set (omap sl_online_transaction_identifier lines).

(** The row [create] stores for the [vals] of lines 509-518. *)
Definition line_vals (journal : Z) (tx : Transaction) : StatementLine :=
  {| sl_date := tx_date tx;
     sl_amount := tx_amount tx;
     sl_payment_ref := char_of_json (tx_payment_ref tx);
     sl_online_transaction_identifier :=
       char_of_json (online_transaction_identifier tx);
     sl_journal_id := journal;
     sl_partner_name :=
       if truthy (tx_partner_name tx) then char_of_json (tx_partner_name tx)
       else None |}.

(** The test of line 505: [ref_id and ref_id in existing_ids]. *)
Definition is_duplicate (existing_ids : gset string) (tx : Transaction) : exn + bool :=
  if truthy (online_transaction_identifier tx)
  then py_in (online_transaction_identifier tx) (λ i, bool_decide (i ∈ existing_ids))
  else inr false.

(** The loop of lines 500-520. *)
Fixpoint to_create (journal : Z) (existing_ids : gset string)
    (transactions : list Transaction) : exn + list StatementLine :=
  match transactions with
  | [] => inr []
  | tx :: rest =>
      match is_duplicate existing_ids tx with
      | inl e => inl e
      | inr dup =>
          match to_create journal existing_ids rest with
          | inl e => inl e
          | inr vals_list =>
              inr (if dup then vals_list else line_vals journal tx :: vals_list)
          end
      end
  end.

(** [StatementLine.create(vals_list)] *)
Definition StatementLine_create (vals_list : list StatementLine) : M (list StatementLine) :=
  w <- get_world ;;
  match create_guard E (statement_lines w) vals_list with
  | Some e => raise e
  | None =>
      modify (set_statement_lines (statement_lines w ++ vals_list)) ;;;
      ret vals_list
  end.

Definition _custom_create_lines
    (self : OnlineAccount) (transactions : list Transaction) : M (list StatementLine) :=
  journal <- resolve_journal self ;;
  let incoming := incoming_ids transactions in
  existing_ids <- match incoming with
                  | [] => ret ∅
                  | _ => existing_lines <- search_lines journal incoming ;;
                         ret (mapped_ids existing_lines)
                  end ;;
  vals_list <- lift (to_create journal existing_ids transactions) ;;
  match vals_list with
  | [] => ret []
  | _ => StatementLine_create vals_list
  end.

(** *** Actions of the link *)

(** The [params] of an [ir.actions.client] notification. *)
Record notification := {
  title : string;
  message : string;
  ntype : string;
  sticky : option bool;
  reload : bool
}.

(** The body of the loop of [action_fetch_transactions] (lines 148-171);
    the value is [total_new_lines] after the account. *)
Definition sync_account (target_account_id : option Z) (total_new_lines : nat)
    (online_account : OnlineAccount) : M nat :=
  transactions <- _retrieve_transactions online_account None ;;
  match transactions with
  | [] => ret total_new_lines
  | _ =>
      try_except
        (new_lines <- _custom_create_lines online_account transactions ;;
         ret (total_new_lines + length new_lines)%nat)
        (λ inner_e,
           log ERROR ("[BIRBANK] Database Write Failed: " +:+ safe_str_exn inner_e) ;;;
           log_traceback inner_e ;;;
           if truthy_id target_account_id
           then raise (UserError ("Database Write Error on "
                                  +:+ fmt_char (acc_name online_account)
                                  +:+ ": " +:+ safe_str_exn inner_e))
           else ret total_new_lines)
  end.

Fixpoint sync_accounts (target_account_id : option Z) (total_new_lines : nat)
    (accounts_to_process : list OnlineAccount) : M nat :=
  match accounts_to_process with
  | [] => ret total_new_lines
  | online_account :: rest =>
      total <- sync_account target_account_id total_new_lines online_account ;;
      sync_accounts target_account_id total rest
  end.

Definition sync_successful (total_new_lines : nat) : notification :=
  {| title := "Sync Successful";
     message := "Process Complete. Added " +:+ pretty total_new_lines
                +:+ " new transactions.";
     ntype := "success";
     sticky := Some false;
     reload := true |}.

Definition sync_failed (err_msg : string) : notification :=
  {| title := "Sync Failed";
     message := "System Error: " +:+ err_msg;
     ntype := "danger";
     sticky := None;
     reload := false |}.

(** The [except] clause of [action_fetch_transactions] (lines 193-208). *)
Definition sync_crashed (e : exn) : M notification :=
  let err_msg := safe_str_exn e in
  log_traceback e ;;;
  link_write (λ l, with_state error (with_last_error_message (Some err_msg) l)) ;;;
  if is_UserError e then raise e else ret (sync_failed err_msg).

Definition action_fetch_transactions (target_account_id : option Z) : M notification :=
  try_except
    (self <- get_link ;;
     (match state self with
      | connected => ret tt
      | _ => link_write (with_state connected)
      end) ;;;
     all <- account_online_account_ids ;;
     let accounts_to_process :=
       match target_account_id with
       | Some target =>
           if truthy_id target_account_id
           then List.filter (λ a, acc_id a =? target) all
           else all
       | None => all
       end in
     total_new_lines <- sync_accounts target_account_id 0 accounts_to_process ;;
     all <- account_online_account_ids ;;
     (if negb (truthy_id target_account_id) || (length all =? 1)%nat
      then now <- Datetime_now ;;
           link_write (λ l, with_state connected
                              (with_last_error_message None
                                 (with_last_success_date (Some now) l)))
      else ret tt) ;;;
     ret (sync_successful total_new_lines))
    sync_crashed.

(** [existing_accounts]: the dict comprehension of lines 218-222; a later
    account with the same identifier replaces an earlier one. *)
Definition file_account (m : gmap string Z) (acc : OnlineAccount) : gmap string Z :=
  match online_identifier acc with
  | Some i => if truthy_char (Some i) then <[i := acc_id acc]> m else m
  | None => m
  end.

Definition existing_accounts_of (accs : list OnlineAccount) : gmap string Z :=
  foldl file_account ∅ accs.

(** The row after [write(vals)], and the row [create(vals)] makes, for the
    [vals] of lines 231-238: the columns take the texts of the values. *)
Definition write_vals (acc_data : AccountData) (link : Z) (a : OnlineAccount)
    : OnlineAccount :=
  {| acc_id := acc_id a;
     acc_name := Some (ad_name acc_data);
     online_identifier := char_of_json (ad_online_identifier acc_data);
     account_number := char_of_json (ad_online_identifier acc_data);
     balance := ad_balance acc_data;
     currency_code := char_of_json (ad_currency_code acc_data);
     account_online_link_id := link;
     journal_id := journal_id a |}.

Definition create_vals (acc_data : AccountData) (link : Z) (id : Z) : OnlineAccount :=
  {| acc_id := id;
     acc_name := Some (ad_name acc_data);
     online_identifier := char_of_json (ad_online_identifier acc_data);
     account_number := char_of_json (ad_online_identifier acc_data);
     balance := ad_balance acc_data;
     currency_code := char_of_json (ad_currency_code acc_data);
     account_online_link_id := link;
     journal_id := None |}.

(** The auto-link logic of lines 246-255: an account without linked
    journal gets the first bank journal with its number, if there is one;
    the host compares the number with the text of the identifier. *)
Definition auto_link (online_acc : Z) (identifier : json) : M unit :=
  record <- browse_account online_acc ;;
  linked <- _compute_linked_journal record ;;
  if has_record linked then ret tt
  else
    journal <- journal_search (bank_journal_with_number (char_of_json identifier)) ;;
    match journal with
    | Some j =>
        journal_write (j_id j) (with_account_online_account_id (Some online_acc)) ;;;
        if has_journal_id E
        then account_write online_acc (with_journal_id (Some (j_id j)))
        else ret tt
    | None => ret tt
    end.

(** The body of the loop of [action_initialize_connection] (lines 224-255). *)
Definition upsert_account (existing_accounts : gmap string Z)
    (acc_data : AccountData) : M unit :=
  let identifier := ad_online_identifier acc_data in
  if negb (truthy identifier) then ret tt
  else
    self <- get_link ;;
    existing <- lift (py_lookup identifier (λ i, existing_accounts !! i)) ;;
    online_acc <-
      match existing with
      | Some id =>
          account_write id (write_vals acc_data (link_id self)) ;;;
          ret id
      | None =>
          account_create (create_vals acc_data (link_id self))
      end ;;
    auto_link online_acc identifier.

Fixpoint upsert_accounts (existing_accounts : gmap string Z)
    (accounts_list : list AccountData) : M unit :=
  match accounts_list with
  | [] => ret tt
  | acc_data :: rest =>
      upsert_account existing_accounts acc_data ;;;
      upsert_accounts existing_accounts rest
  end.

Definition connection_successful : notification :=
  {| title := "Connection Successful";
     message := "Accounts fetched and linked.";
     ntype := "success";
     sticky := Some false;
     reload := false |}.

Definition action_initialize_connection : M notification :=
  try_except
    (_get_birbank_token true ;;;
     accounts_list <- _fetch_odoo_fin_accounts ;;
     mine <- account_online_account_ids ;;
     let existing_accounts := existing_accounts_of mine in
     upsert_accounts existing_accounts accounts_list ;;;
     now <- Datetime_now ;;
     link_write (λ l, with_last_error_message None
                        (with_last_success_date (Some now)
                           (with_state connected l))) ;;;
     ret connection_successful)
    (λ e, let err_msg := safe_str_exn e in
          log_traceback e ;;;
          link_write (with_last_error_message (Some err_msg)) ;;;
          raise (UserError ("Connection Failed: " +:+ err_msg))).

Definition action_reset_connection : M unit :=
  link_write (with_state disconnected).

(** *** The remaining methods *)

(** [_get_headers(token)]: the fixed headers, and the bearer token when
    there is one. *)
Definition _get_headers (token : option string) : list (string * string) :=
  [("User-Agent",
    "Mozilla/5.0 (Windows NT 10.0; Win64; x64) AppleWebKit/537.36 (KHTML, like Gecko) Chrome/121.0.0.0 Safari/537.36");
   ("Content-Type", "application/json");
   ("Accept", "application/json");
   ("Accept-Language", "en-US,en;q=0.9");
   ("Connection", "keep-alive")]
  ++ (if truthy_char token
      then [("Authorization", "Bearer " +:+ default "" token)]
      else []).

(** The headers a request goes out with. *)
Definition request_headers (req : request) : list (string * string) :=
  _get_headers (req_bearer req).

(** [_compute_date_locked] *)
Definition _compute_date_locked (w : world) : bool :=
  match state (link w) with
  | connected => true
  | _ => false
  end.

(** [('account_online_account_id.account_online_link_id', '=', link.id)]:
    the journal points to an account row whose link is this one. *)
Definition journal_of_link (w : world) (j : Journal) : bool :=
  match account_online_account_id j with
  | Some a =>
      match List.find (λ row, acc_id row =? a) (accounts w) with
      | Some row => account_online_link_id row =? link_id (link w)
      | None => false
      end
  | None => false
  end.

(** [_compute_journal_count] *)
Definition _compute_journal_count (w : world) : nat :=
  length (List.filter (journal_of_link w) (journals w)).

(** [action_view_journals]: the ids in the domain of the window action. *)
Definition action_view_journals (w : world) : list Z :=
  List.map j_id (List.filter (journal_of_link w) (journals w)).

(** [AccountJournal.manual_sync] on a journal.  The [super()] method and
    the same action on another link record are the host's; they are
    arguments here. *)
Definition manual_sync {A} (super_manual_sync : M A)
    (elsewhere : Z → Z → M A) (inject : notification → A)
    (journal : Journal) : M A :=
  match account_online_account_id journal with
  | None => super_manual_sync
  | Some id =>
      online_acc <- browse_account id ;;
      self <- get_link ;;
      if account_online_link_id online_acc =? link_id self
      then n <- action_fetch_transactions (Some (acc_id online_acc)) ;;
           ret (inject n)
      else elsewhere (account_online_link_id online_acc) (acc_id online_acc)
  end.

(** The values [action_create_journal] creates the journal with
    (lines 553-566); [currency] is what the search for the currency of
    that name found. *)
Record JournalVals := {
  jv_name : string;
  jv_type : string;
  jv_code : string;
  jv_account_online_account_id : Z;
  jv_currency_id : option Z;
  jv_bank_acc_number : option string
}.

Definition journal_vals (find_currency : string → option Z)
    (self : OnlineAccount) : JournalVals :=
  {| jv_name := if truthy_char (acc_name self)
                then default "" (acc_name self) else "Birbank Journal";
     jv_type := "bank";
     jv_code := take_chars 3
                  (if truthy_char (currency_code self)
                   then default "" (currency_code self) else "BNK");
     jv_account_online_account_id := acc_id self;
     jv_currency_id :=
       if truthy_char (currency_code self)
       then find_currency (default "" (currency_code self))
       else None;
     jv_bank_acc_number :=
       if truthy_char (account_number self) then account_number self else None |}.

Definition fresh_journal_id (l : list Journal) : Z :=
  1 + List.fold_right (λ j m, Z.max (j_id j) m) 0 l.

(** [self.env['account.journal'].create(journal_vals)]: the new row gets
    an id above all present ones, and the bank account of the journal is
    the one of that number. *)
Definition journal_create (vals : JournalVals) : M Z :=
  λ w, let id := fresh_journal_id (journals w) in
       (Ok id,
        set_journals
          (journals w
           ++ [{| j_id := id; j_type := jv_type vals;
                  bank_acc_number := jv_bank_acc_number vals;
                  account_online_account_id :=
                    Some (jv_account_online_account_id vals) |}]) w).

Definition journal_created : notification :=
  {| title := "Success";
     message := "Journal created and linked successfully!";
     ntype := "success";
     sticky := Some false;
     reload := false |}.

(** [action_create_journal]; [None] is its bare [return].  The write of the
    computed field [linked_journal_id] stores nothing: the field is
    computed again when it is read. *)
Definition action_create_journal (find_currency : string → option Z)
    (self : OnlineAccount) : M (option notification) :=
  linked <- _compute_linked_journal self ;;
  if has_record linked then ret None
  else
    new_journal <- journal_create (journal_vals find_currency self) ;;
    (if has_journal_id E
     then account_write (acc_id self) (with_journal_id (Some new_journal))
     else ret tt) ;;;
    ret (Some journal_created).

End Connector.

(** * Vocabulary of the properties *)

(** The login request a refresh sends. *)
Definition login_request_of (w : world) : request :=
  login_request
    (match birbank_env (link w) with
     | env_live => "https://my.birbank.business/api/b2b"
     | env_test => "https://pre-my.birbank.business/api/b2b"
     end +:+ "/login") (link w).

(** The statement request [_fetch_odoo_fin_transactions] sends for an
    account number and a window. *)
Definition statement_request_of (E : Externals) (l : Link) (token acc_num : string)
    (from_date to_date : Z) : request :=
  statement_request
    (match birbank_env l with
     | env_live => "https://my.birbank.business/api/b2b"
     | env_test => "https://pre-my.birbank.business/api/b2b"
     end +:+ "/v2/statement/account")
    token acc_num (strftime_d_m_Y E from_date) (strftime_d_m_Y E to_date).

(** The external transaction identifiers persisted in a journal.  An
    identifier is a non-empty value of the column: [False] and the empty
    string are what a line without identifier holds. *)
Definition persisted_ids (journal : Z) (w : world) : gset string :=
  list_to_set
    (omap (λ l, if (sl_journal_id l =? journal)
                   && truthy_char (sl_online_transaction_identifier l)
                then sl_online_transaction_identifier l else None)
          (statement_lines w)).






Definition tx_unhashable (tx : Transaction) : bool :=
  match online_transaction_identifier tx with
  | JArr (_ :: _) | JObj (_ :: _) => true
  | _ => false
  end.

(** The [TypeError] of the first transaction of a batch whose identifier
    cannot be hashed. *)
Definition unhashable (transactions : list Transaction) : option exn :=
  match List.find tx_unhashable transactions with
  | Some tx => Some (TypeError ("unhashable type: '"
                                +:+ type_name (online_transaction_identifier tx)
                                +:+ "'"))
  | None => None
  end.


(** The identifiers a batch carries, as the column stores them: the texts
    of those of its transactions, the empty one apart. *)
Definition batch_ids (E : Externals) (transactions : list Transaction) : gset string :=
  list_to_set (omap (λ tx, char_of_json E (online_transaction_identifier tx))
                    transactions) ∖ {[""]}.

(** The journal [_compute_linked_journal] finds, as a function of the
    journal table. *)
Definition linked_journal (js : list Journal) (record : OnlineAccount) : option Journal :=
  match List.find (journal_of_account (acc_id record)) js with
  | Some j => Some j
  | None =>
      if truthy_char (account_number record)
      then List.find (bank_journal_with_number (account_number record)) js
      else None
  end.

(** The journal [resolve_journal] ends with, as a function of the journal
    table; [None] is its [UserError]. *)
Definition journal_for (E : Externals) (js : list Journal) (self : OnlineAccount)
    : option Z :=
  let journal := j_id <$> linked_journal js self in
  let journal :=
    if negb (has_record journal) && has_journal_id E then journal_id self else journal in
  if negb (has_record journal)
  then j_id <$> List.find (journal_of_account (acc_id self)) js
  else journal.

(** A world that differs from another in its account rows only. *)
Definition same_but_accounts (w w' : world) : Prop :=
  w' = set_accounts (accounts w') w.

(** The transaction carries an identifier, a string, that a line of the
    journal already holds: what the test of line 505 takes for a
    duplicate. *)
Definition already_persisted (journal : Z) (w : world) (tx : Transaction) : bool :=
  match online_transaction_identifier tx with
  | JStr i => negb (String.eqb i "") && bool_decide (i ∈ persisted_ids journal w)
  | _ => false
  end.

(** A world with more records in its log. *)
Definition logged (records : list log_record) (w : world) : world :=
  {| link := link w; accounts := accounts w; journals := journals w;
     statement_lines := statement_lines w; requests := requests w;
     logs := logs w ++ records; ticks := ticks w |}.

(** Two worlds with the same tables and the same link, the cached token
    apart: what talking to the bank may change is the token, the request
    log, the error log and the clock. *)
Definition tables_unchanged (w w' : world) : Prop :=
  accounts w' = accounts w
  ∧ journals w' = journals w
  ∧ statement_lines w' = statement_lines w
  ∧ with_token None None (link w') = with_token None None (link w).

(** A computation whose runs, failed ones included, all stay within a
    relation between the state before and the state after. *)
Definition keeps {A} (P : relation world) (m : M A) : Prop :=
  ∀ w r w', m w = (r, w') → P w w'.

(** A computation that never raises. *)
Definition never_raises {A} (m : M A) : Prop :=
  ∀ w, ∃ a w', m w = (Ok a, w').

(** The accounts of the link: what [self.account_online_account_ids]
    reads. *)
Definition linked_accounts (w : world) : list OnlineAccount :=
  List.filter (λ a, account_online_link_id a =? link_id (link w)) (accounts w).

(** The state after lines 134-135 of [action_fetch_transactions]. *)
Definition connect (w : world) : world :=
  match state (link w) with
  | connected => w
  | _ => set_link (with_state connected (link w)) w
  end.

(** The state after the write of lines 175-179. *)
Definition mark_success (E : Externals) (w : world) : world :=
  set_link (with_state connected
              (with_last_error_message None
                 (with_last_success_date (Some (clock E (ticks w))) (link w))))
           (tick w).

(** The state after the [except] clause of lines 193-196. *)
Definition mark_error (e : exn) (w : world) : world :=
  set_link (with_state error (with_last_error_message (Some (str_exn e)) (link w)))
           (logged [Traceback e] w).

(** What the inner [except] clause (lines 165-168) logs. *)
Definition write_failed (e : exn) : list log_record :=
  [Log ERROR ("[BIRBANK] Database Write Failed: " +:+ str_exn e); Traceback e].

(** The message of the [UserError] of line 171. *)
Definition write_error_message (a : OnlineAccount) (e : exn) : string :=
  "Database Write Error on " +:+ fmt_char (acc_name a) +:+ ": " +:+ str_exn e.

(** A row and its later version: the same id and the same identifier. *)
Definition same_row (a a' : OnlineAccount) : Prop :=
  acc_id a' = acc_id a ∧ online_identifier a' = online_identifier a.

(** No account row was created, and the link is as it was. *)
Definition rows_kept (w w' : world) : Prop :=
  Forall2 same_row (accounts w) (accounts w') ∧ link w' = link w.




(** A row and its later version: the same but for its journal. *)
Definition same_but_journal (a a' : OnlineAccount) : Prop :=
  with_journal_id None a' = with_journal_id None a.

(** No account row was created or changed, the journal of a row apart. *)
Definition rows_relinked (w w' : world) : Prop :=
  Forall2 same_but_journal (accounts w) (accounts w') ∧ link w' = link w.

(** A turn of the initialization loop that creates a row: the identifier
    of the fetched account is truthy and the dict does not hold it.  One
    that writes to the row [id]: the dict files [id] under the
    identifier. *)
Definition creates_row (ex : gmap string Z) (d : AccountData) : bool :=
  truthy (ad_online_identifier d)
  && match py_lookup (ad_online_identifier d) (λ i, ex !! i) with
     | inr None => true
     | _ => false
     end.

Definition writes_to (ex : gmap string Z) (id : Z) (d : AccountData) : bool :=
  truthy (ad_online_identifier d)
  && match py_lookup (ad_online_identifier d) (λ i, ex !! i) with
     | inr (Some id') => id' =? id
     | _ => false
     end.

(** A row and its version after the turns for [l]: the same id and
    identifier, and the same row, the journal apart, when no turn wrote
    to it. *)
Definition kept_row (ex : gmap string Z) (l : list AccountData)
    (a a' : OnlineAccount) : Prop :=
  same_row a a'
  ∧ ((∀ d, d ∈ l → writes_to ex (acc_id a) d = false) → same_but_journal a a').

(** The row a turn created for the fetched account [d]: it holds the
    values of [d], and the dict files nothing under its id. *)
Definition created_row (E : Externals) (ex : gmap string Z) (lk : Z)
    (d : AccountData) (c : OnlineAccount) : Prop :=
  same_but_journal (create_vals E d lk (acc_id c)) c
  ∧ ∀ i, ex !! i ≠ Some (acc_id c).

(** The table after the turns for [l]: the rows it had, each in its
    place, followed by one created row for each turn that creates. *)
Definition grown (E : Externals) (ex : gmap string Z) (l : list AccountData)
    (w w' : world) : Prop :=
  ∃ updated created,
    accounts w' = updated ++ created
    ∧ Forall2 (kept_row ex l) (accounts w) updated
    ∧ Forall2 (created_row E ex (link_id (link w)))
        (List.filter (creates_row ex) l) created
    ∧ link_id (link w') = link_id (link w).

Definition has_this_identifier (i : string) (a : OnlineAccount) : bool :=
  bool_decide (online_identifier a = Some i).

(** The request [_fetch_odoo_fin_accounts] sends. *)
Definition accounts_request_of (l : Link) (token : string) : request :=
  accounts_request
    (match birbank_env l with
     | env_live => "https://my.birbank.business/api/b2b"
     | env_test => "https://pre-my.birbank.business/api/b2b"
     end +:+ "/accounts") token.

(** A world after one more request went out. *)
Definition sent (req : request) (w : world) : world :=
  {| link := link w; accounts := accounts w; journals := journals w;
     statement_lines := statement_lines w; requests := requests w ++ [req];
     logs := logs w; ticks := ticks w |}.

(** An element of [accountsList] and the entry made of it: an object whose
    [currAmt], 0 when absent, converts to a float. *)
Definition account_entry (E : Externals) (item : json) (d : AccountData) : Prop :=
  ∃ kvs bal,
    item = JObj kvs
    ∧ py_float E (default (JInt 0) (assoc_last "currAmt" kvs)) = inr bal
    ∧ d = {| ad_online_identifier := default JNull (assoc_last "ibanAcNo" kvs);
             ad_name := fmt E (default JNull (assoc_last "acDesc" kvs))
                        +:+ " (" +:+ fmt E (default JNull (assoc_last "ibanAcNo" kvs))
                        +:+ ") - " +:+ fmt E (default JNull (assoc_last "ccy" kvs));
             ad_balance := bal;
             ad_currency_code := default JNull (assoc_last "ccy" kvs) |}.

(** An element no entry can be made of: not an object, or an object whose
    [key], [dflt] when absent, does not convert to a float. *)
Definition bad_amount (E : Externals) (key : string) (item : json) : Prop :=
  (∀ kvs, item ≠ JObj kvs)
  ∨ ∃ kvs e, item = JObj kvs
             ∧ py_float E (default (JInt 0) (assoc_last key kvs)) = inl e.

(** [c in s] *)
Fixpoint occurs (c : ascii) (s : string) : bool :=
  match s with
  | EmptyString => false
  | String a rest => Ascii.eqb a c || occurs c rest
  end.

(** An element of [statementList] and the transaction made of it: an
    object whose [lcyAmount], 0 when absent, converts to a float.  The date
    is the one [trnDt] parses to, and the date of a reading of the clock,
    not before reading [lo], when it does not parse. *)
Definition transaction_entry (E : Externals) (lo : nat) (item : json)
    (tx : Transaction) : Prop :=
  ∃ kvs amount,
    item = JObj kvs
    ∧ py_float E (default (JInt 0) (assoc_last "lcyAmount" kvs)) = inr amount
    ∧ online_transaction_identifier tx = default JNull (assoc_last "trnRefNo" kvs)
    ∧ tx_payment_ref tx
      = (if truthy (default JNull (assoc_last "purpose" kvs))
         then default JNull (assoc_last "purpose" kvs)
         else default JNull (assoc_last "trnRefNo" kvs))
    ∧ tx_amount tx = amount
    ∧ tx_partner_name tx = default JNull (assoc_last "contrAccount" kvs)
    ∧ match strptime E (default JNull (assoc_last "trnDt" kvs)) with
      | inr d => tx_date tx = d
      | inl _ => ∃ n, (lo ≤ n)%nat ∧ tx_date tx = clock E n `div` seconds_per_day
      end.

(** Only the clock was read between the two states. *)
Definition clock_read (w w' : world) : Prop :=
  link w' = link w ∧ accounts w' = accounts w ∧ journals w' = journals w
  ∧ statement_lines w' = statement_lines w ∧ requests w' = requests w
  ∧ logs w' = logs w ∧ (ticks w ≤ ticks w')%nat.

(** No request went out between the two states. *)
Definition quiet (w w' : world) : Prop := requests w' = requests w.

(** What a sync does to the tables: statement lines are appended, the
    journal of an account row may be filled in and the token of the link
    refreshed. *)
Definition lines_appended (w w' : world) : Prop :=
  journals w' = journals w
  ∧ (∃ added, statement_lines w' = statement_lines w ++ added)
  ∧ Forall2 same_but_journal (accounts w) (accounts w')
  ∧ with_token None None (link w') = with_token None None (link w).

(** The state [_compute_linked_journal] leaves when it found the journal
    [j] for [record]: where the host has the field, an empty [journal_id]
    of the row is filled in. *)
Definition backfilled (E : Externals) (record : OnlineAccount) (j : Z) (w : world)
    : world :=
  if has_journal_id E && negb (has_record (journal_id record))
  then set_accounts
         (List.map (λ a, if acc_id a =? acc_id record
                         then with_journal_id (Some j) a else a) (accounts w)) w
  else w.

(** The message of the [UserError] of line 484. *)
Definition no_journal_message (self : OnlineAccount) : string :=
  "No Journal linked to account " +:+ fmt_char (acc_name self)
  +:+ ". Cannot save transactions.".

(** What the initialization leaves alone until it marks the link: the
    statement lines, the status and the last success of the link, and the
    requests already sent. *)
Definition unmarked (w w' : world) : Prop :=
  statement_lines w' = statement_lines w
  ∧ requests w `prefix_of` requests w'
  ∧ state (link w') = state (link w)
  ∧ last_success_date (link w') = last_success_date (link w).

(** * A concrete bank, for the examples *)

Module Scenario.

Definition login_body : json :=
  JObj [("responseData", JObj [("jwttoken", JStr "abc")])].

Definition statement_body (acc_num : string) : json :=
  JObj [("responseData",
         JObj [("operations",
                JObj [("statementList",
                       JArr [JObj [("trnRefNo", JStr ("REF-" +:+ acc_num));
                                   ("trnDt", JStr "Jan 05, 2024");
                                   ("purpose", JStr "Payment");
                                   ("lcyAmount", JInt 25);
                                   ("contrAccount", JStr "ACME")]])])])].

Definition accounts_body : json :=
  JObj [("responseData",
         JObj [("accountsList",
                JArr [JObj [("ibanAcNo", JStr "AZ01");
                            ("acDesc", JStr "Main");
                            ("currAmt", JInt 100);
                            ("ccy", JStr "AZN")];
                      JObj [("ibanAcNo", JStr "AZ09");
                            ("acDesc", JStr "Savings");
                            ("currAmt", JInt 7);
                            ("ccy", JStr "USD")];
                      JObj [("acDesc", JStr "Nameless");
                            ("currAmt", JInt 0);
                            ("ccy", JStr "EUR")]])])].

(** The bank answers a login with a token, an account listing with three
    accounts (one without IBAN) and a statement request with one
    operation named after the account. *)
Definition bank (history : list request) (req : request) : response :=
  match req_method req with
  | POST => Body (Some login_body)
  | GET =>
      match req_params req with
      | ("accountNumber", n) :: _ => Body (Some (statement_body n))
      | _ => Body (Some accounts_body)
      end
  end.

Definition E0 : Externals :=
  {| remote := bank;
     clock := λ n, 1700000000 + Z.of_nat n;
     py_repr := λ _, ("<"%char, "value>");
     parse_float := λ _, inl "could not convert string to float";
     strptime_b_d_Y := λ s, if String.eqb s "Jan 05, 2024" then Some 19727 else None;
     strftime_d_m_Y := λ d, pretty d;
     has_journal_id := false;
     create_guard := λ _ _, None |}.

(** A bank that lets the user in and then answers 503. *)
Definition E_503 : Externals :=
  {| remote := λ _ req, match req_method req with
                        | POST => Body (Some login_body)
                        | GET => HttpError 503 "503 Server Error" "Service Unavailable"
                        end;
     clock := clock E0; py_repr := py_repr E0; parse_float := parse_float E0;
     strptime_b_d_Y := strptime_b_d_Y E0; strftime_d_m_Y := strftime_d_m_Y E0;
     has_journal_id := false; create_guard := create_guard E0 |}.

(** A bank like the one of [E0] that answers the login with [login]. *)
Definition login_answering (login : response) : Externals :=
  {| remote := λ history req, match req_method req with
                              | POST => login
                              | GET => bank history req
                              end;
     clock := clock E0; py_repr := py_repr E0; parse_float := parse_float E0;
     strptime_b_d_Y := strptime_b_d_Y E0; strftime_d_m_Y := strftime_d_m_Y E0;
     has_journal_id := false; create_guard := create_guard E0 |}.

(** Banks that refuse the login, answer it with a page that is no JSON,
    and answer it with an empty token. *)
Definition E_401 : Externals :=
  login_answering (HttpError 401 "401 Client Error" "Unauthorized").

Definition E_html : Externals :=
  login_answering (NotJson "Expecting value: line 1 column 1 (char 0)").

Definition E_no_token : Externals :=
  login_answering (Body (Some (JObj [("responseData", JObj [("jwttoken", JStr "")])]))).

(** A bank that cannot be reached. *)
Definition E_down : Externals :=
  {| remote := λ _ _, ConnectionFailed "Connection refused";
     clock := clock E0; py_repr := py_repr E0; parse_float := parse_float E0;
     strptime_b_d_Y := strptime_b_d_Y E0; strftime_d_m_Y := strftime_d_m_Y E0;
     has_journal_id := false; create_guard := create_guard E0 |}.

Definition link0 : Link :=
  {| link_id := 1; birbank_env := env_live;
     birbank_username := Some "user"; birbank_password := Some "secret";
     birbank_initial_sync_date := Some 19700;
     state := draft; last_success_date := None; last_error_message := None;
     birbank_jwt_token := None; birbank_token_expiry := None |}.

Definition account (id : Z) (iban : string) : OnlineAccount :=
  {| acc_id := id; acc_name := Some ("Main (" +:+ iban +:+ ") - AZN");
     online_identifier := Some iban; account_number := Some iban;
     balance := float_of_Z 0; currency_code := Some "AZN";
     account_online_link_id := 1; journal_id := None |}.

Definition bank_journal (id : Z) (iban : string) (acc : Z) : Journal :=
  {| j_id := id; j_type := "bank"; bank_acc_number := Some iban;
     account_online_account_id := Some acc |}.

(** Three accounts under the link; the second one has no journal. *)
Definition w0 : world :=
  {| link := link0;
     accounts := [account 1 "AZ01"; account 2 "AZ02"; account 3 "AZ03"];
     journals := [bank_journal 10 "AZ01" 1; bank_journal 30 "AZ03" 3];
     statement_lines := [];
     requests := []; logs := []; ticks := 0 |}.

(** The link with a token cached until [expiry]. *)
Definition with_cached (tok : string) (expiry : Z) (w : world) : world :=
  set_link (with_token (Some tok) (Some expiry) (link w)) w.

Definition tx (ref : json) (memo : string) : Transaction :=
  {| online_transaction_identifier := ref; tx_date := 19727;
     tx_payment_ref := JStr memo; tx_amount := float_of_Z 5;
     tx_partner_name := JNull |}.

Definition a1 : OnlineAccount := account 1 "AZ01".
Definition a2 : OnlineAccount := account 2 "AZ02".
Definition a3 : OnlineAccount := account 3 "AZ03".

(** A batch with the identifier T1 twice, a transaction without
    identifier and one with an empty identifier. *)
Definition batch0 : list Transaction :=
  [tx (JStr "T1") "first"; tx JNull "cash"; tx (JStr "") "fee"; tx (JStr "T1") "again"].








(** The stages of a sync without target from [w0]: the batches
    retrieved for the three accounts, the lines created for the first and
    the third, and the states in between. *)
Definition value {A} (r : result A * world) (dflt : A) : A :=
  match fst r with
  | Ok a => a
  | Raise _ => dflt
  end.

Definition no_journal_a2 : exn :=
  UserError "No Journal linked to account Main (AZ02) - AZN. Cannot save transactions.".

Definition sync_t1 := value (_retrieve_transactions E0 a1 None (connect w0)) [].
Definition sync_w1 := snd (_retrieve_transactions E0 a1 None (connect w0)).
Definition sync_l1 := value (_custom_create_lines E0 a1 sync_t1 sync_w1) [].
Definition sync_w2 := snd (_custom_create_lines E0 a1 sync_t1 sync_w1).
Definition sync_t2 := value (_retrieve_transactions E0 a2 None sync_w2) [].
Definition sync_w3 := snd (_retrieve_transactions E0 a2 None sync_w2).
Definition sync_w4 := snd (_custom_create_lines E0 a2 sync_t2 sync_w3).
Definition sync_t3 :=
  value (_retrieve_transactions E0 a3 None (logged (write_failed no_journal_a2) sync_w4)) [].
Definition sync_w5 :=
  snd (_retrieve_transactions E0 a3 None (logged (write_failed no_journal_a2) sync_w4)).
Definition sync_l3 := value (_custom_create_lines E0 a3 sync_t3 sync_w5) [].
Definition sync_w6 := snd (_custom_create_lines E0 a3 sync_t3 sync_w5).

(** A bank like the one of [E0], with other answers to the account
    listing and to the statement request. *)
Definition answering (listing statement : response) : Externals :=
  {| remote := λ _ req,
       match req_method req with
       | POST => Body (Some login_body)
       | GET =>
           match req_params req with
           | ("accountNumber", _) :: _ => statement
           | _ => listing
           end
       end;
     clock := clock E0; py_repr := py_repr E0; parse_float := parse_float E0;
     strptime_b_d_Y := strptime_b_d_Y E0; strftime_d_m_Y := strftime_d_m_Y E0;
     has_journal_id := false; create_guard := create_guard E0 |}.

(** The state of [w0] after the login. *)
Definition w0_logged_in : world := snd (_get_birbank_token E0 false w0).

Definition good_item : json :=
  JObj [("ibanAcNo", JStr "AZ01"); ("acDesc", JStr "Main"); ("ccy", JStr "AZN")].

Definition listing_of (items : list json) : response :=
  Body (Some (JObj [("responseData", JObj [("accountsList", JArr items)])])).

Definition statement_of (items : list json) : response :=
  Body (Some (JObj [("responseData",
                     JObj [("operations", JObj [("statementList", JArr items)])])])).

(** An account without identifier, name in parentheses or number, and one
    that kept only its name. *)
Definition unnumbered : OnlineAccount :=
  {| acc_id := 4; acc_name := Some "Cash";
     online_identifier := None; account_number := None;
     balance := float_of_Z 0; currency_code := None;
     account_online_link_id := 1; journal_id := None |}.

Definition renamed : OnlineAccount :=
  {| acc_id := 5; acc_name := Some "Main (AZ01) - AZN";
     online_identifier := None; account_number := None;
     balance := float_of_Z 0; currency_code := None;
     account_online_link_id := 1; journal_id := None |}.

Definition good_operation : json :=
  JObj [("trnRefNo", JStr "R1"); ("lcyAmount", JInt 5)].

(** Entries whose amount is an integer no float can hold. *)
Definition huge_amount_item : json :=
  JObj [("ibanAcNo", JStr "AZ03"); ("currAmt", JInt (10 ^ 400))].

Definition huge_operation : json :=
  JObj [("trnRefNo", JStr "R3"); ("lcyAmount", JInt (10 ^ 400))].



(** An account the link does not know yet. *)
Definition fetched_az09 : AccountData :=
  {| ad_online_identifier := JStr "AZ09"; ad_name := "Savings (AZ09) - USD";
     ad_balance := float_of_Z 7; ad_currency_code := JStr "USD" |}.

(** [w0] with the initial sync date of the link emptied. *)
Definition w0_undated : world :=
  set_link
    {| link_id := 1; birbank_env := env_live;
       birbank_username := Some "user"; birbank_password := Some "secret";
       birbank_initial_sync_date := None;
       state := draft; last_success_date := None; last_error_message := None;
       birbank_jwt_token := None; birbank_token_expiry := None |} w0.

End Scenario.

(** * Properties *)

(** ** Proof tools *)

Ltac munfold :=
  unfold bind, ret, raise, try_except, lift, modify, get_world, get_link,
    link_write, log, log_traceback in *.

Section Token.

Variable E : Externals.

Lemma token_is_fresh_true (self : Link) (now : Z) :
  token_is_fresh self now = true ↔
  ∃ tok expiry, birbank_jwt_token self = Some tok ∧ tok ≠ ""
                ∧ birbank_token_expiry self = Some expiry
                ∧ now + 5 * 60 < expiry.
Proof.
  unfold token_is_fresh, truthy_char, minutes. split.
  - destruct (birbank_jwt_token self) as [tok|]; [|done].
    destruct (birbank_token_expiry self) as [expiry|];
      [|rewrite andb_false_r; done].
    rewrite andb_true_iff, negb_true_iff, bool_decide_eq_true.
    intros [Hne Hlt]. exists tok, expiry. repeat split; [|lia].
    intros ->. discriminate.
  - intros (tok & expiry & -> & Hne & -> & Hlt).
    rewrite andb_true_iff, negb_true_iff, bool_decide_eq_true. split; [|lia].
    apply String.eqb_neq. done.
Qed.

Lemma get_token_cached (w : world) :
  token_is_fresh (link w) (clock E (ticks w)) = true →
  _get_birbank_token E false w
  = (Ok (default "" (birbank_jwt_token (link w))), tick w).
Proof.
  intros Hfresh. unfold _get_birbank_token, Datetime_now. munfold. simpl.
  rewrite Hfresh. reflexivity.
Qed.

(** A refresh sends exactly one request, the login, and touches nothing
    but the link's token fields, the request log and the error log. *)
Lemma get_token_login (force : bool) (w : world) :
  negb force && token_is_fresh (link w) (clock E (ticks w)) = false →
  ∃ r w', _get_birbank_token E force w = (r, w')
          ∧ requests w' = requests w ++ [login_request_of w]
          ∧ accounts w' = accounts w
          ∧ journals w' = journals w
          ∧ statement_lines w' = statement_lines w
          ∧ link_id (link w') = link_id (link w).
Proof.
  intros Hmiss. unfold _get_birbank_token, Datetime_now. munfold. simpl.
  rewrite Hmiss. unfold _get_birbank_base_url, send. munfold. simpl.
  fold (login_request_of w).
  destruct (remote E (requests w) (login_request_of w))
    as [msg|status msg text|[data|]|jmsg]; simpl; eauto 10.
  destruct (dict_get "responseData" (JObj []) data) as [e|rd]; simpl;
    [destruct e as [| [[]|] | | | | | |]; simpl; eauto 10|].
  destruct (dict_get "jwttoken" JNull rd) as [e|tok]; simpl;
    [destruct e as [| [[]|] | | | | | |]; simpl; eauto 10|].
  destruct (truthy tok); simpl; eauto 10.
Qed.

End Token.

(** ** The token getter *)

Section TokenClaims.

Variable E : Externals.

(** C3.  Without [force_refresh], a cached token that is not empty and
    whose expiry is strictly later than now plus five minutes is returned
    as it is: no request is sent and the link is not written.  In every
    other case exactly one request, the login, is sent.  A token expiring
    in 5 minutes and 1 second is reused; one expiring in 4 minutes and 59
    seconds is refreshed. *)
Theorem token_getter_reuses_fresh_token (w : world) :
  let now := clock E (ticks w) in
  (∀ tok expiry,
     birbank_jwt_token (link w) = Some tok → tok ≠ "" →
     birbank_token_expiry (link w) = Some expiry →
     now + 5 * 60 < expiry →
     ∃ w', _get_birbank_token E false w = (Ok tok, w')
           ∧ requests w' = requests w ∧ link w' = link w)
  ∧ (¬ (∃ tok expiry,
          birbank_jwt_token (link w) = Some tok ∧ tok ≠ ""
          ∧ birbank_token_expiry (link w) = Some expiry
          ∧ now + 5 * 60 < expiry) →
     ∃ r w', _get_birbank_token E false w = (r, w')
             ∧ requests w' = requests w ++ [login_request_of w])
  ∧ (∀ tok,
       birbank_jwt_token (link w) = Some tok → tok ≠ "" →
       birbank_token_expiry (link w) = Some (now + (5 * 60 + 1)) →
       ∃ w', _get_birbank_token E false w = (Ok tok, w')
             ∧ requests w' = requests w)
  ∧ (∀ tok,
       birbank_jwt_token (link w) = Some tok →
       birbank_token_expiry (link w) = Some (now + (4 * 60 + 59)) →
       ∃ r w', _get_birbank_token E false w = (r, w')
               ∧ requests w' = requests w ++ [login_request_of w]).
Proof.
  intros now.
  assert (Hhit : ∀ tok expiry,
     birbank_jwt_token (link w) = Some tok → tok ≠ "" →
     birbank_token_expiry (link w) = Some expiry →
     now + 5 * 60 < expiry →
     ∃ w', _get_birbank_token E false w = (Ok tok, w')
           ∧ requests w' = requests w ∧ link w' = link w).
  { intros tok expiry Htok Hne Hexp Hlt. exists (tick w).
    rewrite get_token_cached.
    - rewrite Htok. done.
    - apply token_is_fresh_true. eauto 10. }
  assert (Hmiss : ¬ (∃ tok expiry,
          birbank_jwt_token (link w) = Some tok ∧ tok ≠ ""
          ∧ birbank_token_expiry (link w) = Some expiry
          ∧ now + 5 * 60 < expiry) →
     ∃ r w', _get_birbank_token E false w = (r, w')
             ∧ requests w' = requests w ++ [login_request_of w]).
  { intros Hnot.
    destruct (get_token_login E false w) as (r & w' & Hrun & Hreq & _).
    - simpl. destruct (token_is_fresh (link w) (clock E (ticks w))) eqn:Hf; [|done].
      apply token_is_fresh_true in Hf. contradiction.
    - eauto. }
  repeat split.
  - exact Hhit.
  - exact Hmiss.
  - intros tok Htok Hne Hexp.
    destruct (Hhit tok _ Htok Hne Hexp) as (w' & Hrun & Hreq & _); [lia|eauto].
  - intros tok Htok Hexp. apply Hmiss.
    intros (tok' & expiry & _ & _ & Hexp' & Hlt).
    rewrite Hexp in Hexp'. injection Hexp' as <-. lia.
Qed.

(** C4.  When the getter logs in (a refresh was forced, or the cached
    token is not fresh): if the body of the answer holds a truthy value at
    [responseData.jwttoken], that token is returned and the link holds it
    with an expiry of exactly now plus 50 minutes (no field of the answer
    enters the expiry).  Every other answer raises a [UserError] that
    starts with "Auth Error: " and leaves the link as it was: a failure
    of the transport, with its text; an HTTP error status, with the
    status; a body that is empty or no JSON, with the text of the decoding
    error; a body without a truthy token, with "No token returned.".  No
    other exception ever leaves the getter. *)
Theorem token_getter_login_outcome (force : bool) (w : world) :
  let now := clock E (ticks w) in
  let answer := remote E (requests w) (login_request_of w) in
  let token_at top inner tok :=
    answer = Body (Some (JObj top))
    ∧ assoc_last "responseData" top = Some (JObj inner)
    ∧ assoc_last "jwttoken" inner = Some tok
    ∧ truthy tok = true in
  let fails_with msg :=
    ∃ w', _get_birbank_token E force w
          = (Raise (UserError ("Auth Error: " +:+ msg)), w')
          ∧ link w' = link w in
  negb force && token_is_fresh (link w) now = false →
  (∀ top inner tok,
     token_at top inner tok →
     ∃ w', _get_birbank_token E force w = (Ok (fmt E tok), w')
           ∧ birbank_jwt_token (link w') = Some (fmt E tok)
           ∧ birbank_token_expiry (link w') = Some (now + 50 * 60))
  ∧ (¬ (∃ top inner tok, token_at top inner tok) → ∃ msg, fails_with msg)
  ∧ (∀ msg, answer = ConnectionFailed msg → fails_with msg)
  ∧ (∀ status msg text,
       answer = HttpError status msg text →
       fails_with ("Bank Error (" +:+ pretty status +:+ ")"))
  ∧ (answer = Body None → fails_with "Expecting value: line 1 column 1 (char 0)")
  ∧ (∀ msg, answer = NotJson msg → fails_with msg)
  ∧ (∀ top inner,
       answer = Body (Some (JObj top)) →
       default (JObj []) (assoc_last "responseData" top) = JObj inner →
       truthy (default JNull (assoc_last "jwttoken" inner)) = false →
       fails_with "No token returned.")
  ∧ (∀ e w', _get_birbank_token E force w = (Raise e, w') →
             is_UserError e = true ∧ link w' = link w).
Proof.
  intros now answer token_at fails_with Hmiss. subst now answer token_at fails_with.
  unfold _get_birbank_token, Datetime_now. munfold. simpl.
  rewrite Hmiss. unfold _get_birbank_base_url, send. munfold. simpl.
  fold (login_request_of w).
  destruct (remote E (requests w) (login_request_of w))
    as [msg|status msg text|[data|]|jmsg]; simpl.
  - split; [intros ? ? ? (? & _); discriminate|].
    split; [eauto|]. split; [intros msg' [= <-]; eauto|].
    split; [discriminate|]. split; [discriminate|]. split; [discriminate|].
    split; [discriminate|]. intros e w' [= <- <-]. done.
  - split; [intros ? ? ? (? & _); discriminate|].
    split; [eauto|]. split; [discriminate|].
    split; [intros ? ? ? [= <- <- <-]; eexists; split; [reflexivity|done]|].
    split; [discriminate|]. split; [discriminate|].
    split; [discriminate|]. intros e w' [= <- <-]. done.
  - split; [|split; [|split; [discriminate|split; [discriminate|
            split; [discriminate|split; [discriminate|split]]]]]].
    + intros top inner tok ([= ->] & Hrd & Htok & Htruthy). simpl.
      rewrite Hrd. simpl. rewrite Htok. simpl. rewrite Htruthy. simpl.
      unfold minutes. eauto.
    + intros Hnot.
      destruct data as [| | | | |l|top]; simpl; eauto.
      destruct (assoc_last "responseData" top) as [rd|] eqn:Hrd; simpl.
      * destruct rd as [| | | | |l|inner]; simpl; eauto.
        destruct (assoc_last "jwttoken" inner) as [tok|] eqn:Htok; simpl; eauto.
        destruct (truthy tok) eqn:Htruthy; simpl; eauto.
        exfalso. apply Hnot. eauto 10.
      * eauto.
    + intros top inner [= ->] Hrd Htok. simpl. rewrite Hrd. simpl.
      rewrite Htok. simpl. eauto.
    + intros e w'.
      destruct (dict_get "responseData" (JObj []) data) as [e0|rd]; simpl;
        [destruct e0 as [| [[]|] | | | | | |]; simpl; by intros [= <- <-]|].
      destruct (dict_get "jwttoken" JNull rd) as [e0|tok]; simpl;
        [destruct e0 as [| [[]|] | | | | | |]; simpl; by intros [= <- <-]|].
      destruct (truthy tok); simpl; [discriminate|by intros [= <- <-]].
  - split; [intros ? ? ? (? & _); discriminate|].
    split; [eauto|]. split; [discriminate|]. split; [discriminate|].
    split; [eauto|]. split; [discriminate|].
    split; [discriminate|]. intros e w' [= <- <-]. done.
  - split; [intros ? ? ? (? & _); discriminate|].
    split; [eauto|]. split; [discriminate|]. split; [discriminate|].
    split; [discriminate|]. split; [intros ? [= <-]; eauto|].
    split; [discriminate|]. intros e w' [= <- <-]. done.
Qed.

End TokenClaims.

Lemma token_getter_reuses_fresh_token_witness :
  (∃ w', _get_birbank_token Scenario.E0 false
           (Scenario.with_cached "abc" (1700000000 + 301) Scenario.w0) = (Ok "abc", w')
         ∧ requests w' = [])
  ∧ (∃ r w', _get_birbank_token Scenario.E0 false
               (Scenario.with_cached "abc" (1700000000 + 299) Scenario.w0) = (r, w')
             ∧ requests w' = [login_request_of Scenario.w0])
  ∧ (∃ r w', _get_birbank_token Scenario.E0 false Scenario.w0 = (r, w')
             ∧ requests w' = [login_request_of Scenario.w0]).
Proof.
  split; [|split].
  - destruct (token_getter_reuses_fresh_token Scenario.E0
               (Scenario.with_cached "abc" (1700000000 + 301) Scenario.w0))
      as (_ & _ & Hreuse & _).
    apply (Hreuse "abc"); [reflexivity | discriminate | reflexivity].
  - destruct (token_getter_reuses_fresh_token Scenario.E0
               (Scenario.with_cached "abc" (1700000000 + 299) Scenario.w0))
      as (_ & _ & _ & Hrefresh).
    apply (Hrefresh "abc"); reflexivity.
  - destruct (token_getter_reuses_fresh_token Scenario.E0 Scenario.w0)
      as (_ & Hlogin & _).
    apply Hlogin. intros (tok & expiry & Htok & _). discriminate Htok.
Defined.

Lemma token_getter_login_outcome_witness :
  (∃ w', _get_birbank_token Scenario.E0 true Scenario.w0 = (Ok "abc", w')
         ∧ birbank_jwt_token (link w') = Some "abc"
         ∧ birbank_token_expiry (link w') = Some (1700000000 + 50 * 60))
  ∧ (∃ w', _get_birbank_token Scenario.E_down true Scenario.w0
           = (Raise (UserError "Auth Error: Connection refused"), w')
           ∧ link w' = link Scenario.w0)
  ∧ (∃ w', _get_birbank_token Scenario.E_401 true Scenario.w0
           = (Raise (UserError "Auth Error: Bank Error (401)"), w')
           ∧ link w' = link Scenario.w0)
  ∧ (∃ w', _get_birbank_token Scenario.E_html true Scenario.w0
           = (Raise (UserError "Auth Error: Expecting value: line 1 column 1 (char 0)"),
              w')
           ∧ link w' = link Scenario.w0)
  ∧ (∃ w', _get_birbank_token Scenario.E_no_token true Scenario.w0
           = (Raise (UserError "Auth Error: No token returned."), w')
           ∧ link w' = link Scenario.w0).
Proof.
  split; [|split; [|split; [|split]]].
  - destruct (token_getter_login_outcome Scenario.E0 true Scenario.w0)
      as (Hok & _); [reflexivity|].
    apply (Hok [("responseData", JObj [("jwttoken", JStr "abc")])]
               [("jwttoken", JStr "abc")] (JStr "abc")).
    repeat split; reflexivity.
  - destruct (token_getter_login_outcome Scenario.E_down true Scenario.w0)
      as (_ & _ & Hdown & _); [reflexivity|].
    apply (Hdown "Connection refused"). reflexivity.
  - destruct (token_getter_login_outcome Scenario.E_401 true Scenario.w0)
      as (_ & _ & _ & Hhttp & _); [reflexivity|].
    apply (Hhttp 401 "401 Client Error" "Unauthorized"). reflexivity.
  - destruct (token_getter_login_outcome Scenario.E_html true Scenario.w0)
      as (_ & _ & _ & _ & _ & Hnot & _); [reflexivity|].
    apply (Hnot "Expecting value: line 1 column 1 (char 0)"). reflexivity.
  - destruct (token_getter_login_outcome Scenario.E_no_token true Scenario.w0)
      as (_ & _ & _ & _ & _ & _ & Hnone & _); [reflexivity|].
    apply (Hnone [("responseData", JObj [("jwttoken", JStr "")])]
                 [("jwttoken", JStr "")]); reflexivity.
Defined.

(** ** Ingestion of a batch *)

Section Ingestion.

Variable E : Externals.

Lemma same_but_accounts_refl (w : world) : same_but_accounts w w.
Proof. unfold same_but_accounts. by destruct w. Qed.

Lemma same_but_accounts_fields (w w' : world) :
  same_but_accounts w w' →
  link w' = link w ∧ journals w' = journals w
  ∧ statement_lines w' = statement_lines w ∧ requests w' = requests w
  ∧ logs w' = logs w ∧ ticks w' = ticks w.
Proof. unfold same_but_accounts. intros ->. done. Qed.

Lemma same_but_accounts_trans (w1 w2 w3 : world) :
  same_but_accounts w1 w2 → same_but_accounts w2 w3 → same_but_accounts w1 w3.
Proof.
  unfold same_but_accounts. intros H12 H23. rewrite H23 at 1. rewrite H12.
  reflexivity.
Qed.

Lemma compute_linked_journal_spec (record : OnlineAccount) (w : world) :
  ∃ w', _compute_linked_journal E record w
        = (Ok (linked_journal (journals w) record), w')
        ∧ same_but_accounts w w'.
Proof.
  unfold _compute_linked_journal, linked_journal, journal_search, account_write.
  munfold. simpl.
  destruct (List.find (journal_of_account (acc_id record)) (journals w)) as [j|];
    simpl.
  - destruct (has_journal_id E && negb (has_record (journal_id record))); simpl;
      eexists; (split; [reflexivity|]); unfold same_but_accounts; by destruct w.
  - destruct (truthy_char (account_number record)); simpl;
      [|eexists; split; [reflexivity|apply same_but_accounts_refl]].
    destruct (List.find (bank_journal_with_number (account_number record))
                (journals w)) as [j|]; simpl;
      [|eexists; split; [reflexivity|apply same_but_accounts_refl]].
    destruct (has_journal_id E && negb (has_record (journal_id record))); simpl;
      eexists; (split; [reflexivity|]); unfold same_but_accounts; by destruct w.
Qed.

Lemma resolve_journal_spec (self : OnlineAccount) (w : world) :
  ∃ w', same_but_accounts w w'
        ∧ resolve_journal E self w
          = (match journal_for E (journals w) self with
             | Some j => Ok j
             | None => Raise (UserError ("No Journal linked to account "
                                         +:+ fmt_char (acc_name self)
                                         +:+ ". Cannot save transactions."))
             end, w').
Proof.
  destruct (compute_linked_journal_spec self w) as (w' & Hrun & Hsame).
  exists w'. split; [done|].
  unfold resolve_journal, journal_for. munfold. rewrite Hrun.
  destruct (same_but_accounts_fields _ _ Hsame) as (_ & Hj & _).
  unfold journal_search.
  destruct (linked_journal (journals w) self) as [j|]; simpl; [done|].
  destruct (has_journal_id E); simpl.
  - destruct (journal_id self) as [j|]; simpl; [done|]. rewrite Hj.
    by destruct (List.find (journal_of_account (acc_id self)) (journals w)).
  - rewrite Hj.
    by destruct (List.find (journal_of_account (acc_id self)) (journals w)).
Qed.


Lemma elem_of_persisted_ids (journal : Z) (w : world) (i : string) :
  i ∈ persisted_ids journal w ↔
  i ≠ "" ∧ ∃ l, l ∈ statement_lines w ∧ sl_journal_id l = journal
                ∧ sl_online_transaction_identifier l = Some i.
Proof.
  unfold persisted_ids. rewrite elem_of_list_to_set, list_elem_of_omap. split.
  - intros (l & Hl & Hsome).
    destruct (sl_journal_id l =? journal) eqn:Hj; simpl in Hsome; [|done].
    destruct (truthy_char (sl_online_transaction_identifier l)) eqn:Ht; [|done].
    apply Z.eqb_eq in Hj. split; [|eauto].
    rewrite Hsome in Ht. simpl in Ht. intros ->. done.
  - intros (Hne & l & Hl & Hj & Hid). exists l. split; [done|].
    apply Z.eqb_eq in Hj. rewrite Hj, Hid. simpl.
    apply String.eqb_neq in Hne. by rewrite Hne.
Qed.

Lemma pretty_N_go_length (x : N) (s : string) :
  (String.length s ≤ String.length (pretty_N_go x s))%nat.
Proof.
  revert s. induction (N.lt_wf_0 x) as [x _ IH]; intros s.
  destruct (decide (x = 0)%N) as [->|Hx]; [by rewrite pretty_N_go_0|].
  rewrite pretty_N_go_step by lia.
  etrans; [|apply IH; apply N.div_lt; lia]. simpl. lia.
Qed.

Lemma pretty_N_nonempty (x : N) : pretty x ≠ "".
Proof.
  unfold pretty, pretty_N. destruct (decide (x = 0)%N); [done|].
  rewrite pretty_N_go_step by lia. intros Hempty.
  pose proof (pretty_N_go_length (x `div` 10)
                (String (pretty_N_char (x `mod` 10)) "")) as Hlen.
  rewrite Hempty in Hlen. simpl in Hlen. lia.
Qed.

(** [str(n)] of an [int] is never empty. *)
Lemma pretty_Z_nonempty (z : Z) : pretty z ≠ "".
Proof.
  destruct z as [|p|p]; [done| |done].
  apply (pretty_N_nonempty (Npos p)).
Qed.

(** [str(v)] of a truthy value is never empty. *)
Lemma fmt_nonempty (j : json) : truthy j = true → fmt E j ≠ "".
Proof.
  destruct j as [|[]|n|f|s|l|kvs]; simpl; try done.
  - intros _. apply pretty_Z_nonempty.
  - intros Hs ->. done.
Qed.

(** A [Char] column is truthy when the value written to it is. *)
Lemma char_of_json_truthy (j : json) : truthy_char (char_of_json E j) = truthy j.
Proof.
  assert (Hgen : truthy_char (if truthy j then Some (fmt E j) else None) = truthy j).
  { destruct (truthy j) eqn:Htruthy; [|done]. simpl.
    apply negb_true_iff, String.eqb_neq. by apply fmt_nonempty. }
  destruct j; try exact Hgen. done.
Qed.

Lemma char_of_json_Some (j : json) (i : string) :
  char_of_json E j = Some i → i ≠ "" → truthy j = true.
Proof.
  intros Hchar Hne. rewrite <- char_of_json_truthy, Hchar. simpl.
  by apply negb_true_iff, String.eqb_neq.
Qed.

Lemma elem_of_incoming_ids (txs : list Transaction) (j : json) :
  j ∈ incoming_ids txs ↔
  truthy j = true ∧ ∃ tx, tx ∈ txs ∧ online_transaction_identifier tx = j.
Proof.
  unfold incoming_ids.
  rewrite list_elem_of_In, List.filter_In, List.in_map_iff. split.
  - intros [(tx & Hid & Htx) Htruthy]. split; [done|]. exists tx.
    by rewrite list_elem_of_In.
  - intros (Htruthy & tx & Htx & Hid). split; [|done]. exists tx.
    by rewrite <- list_elem_of_In.
Qed.

Lemma elem_of_batch_ids (txs : list Transaction) (i : string) :
  i ∈ batch_ids E txs ↔
  i ≠ "" ∧ ∃ tx, tx ∈ txs ∧ char_of_json E (online_transaction_identifier tx) = Some i.
Proof.
  unfold batch_ids.
  rewrite elem_of_difference, elem_of_list_to_set, list_elem_of_omap,
    elem_of_singleton.
  naive_solver.
Qed.

(** The texts the search looks for are the non-empty ones of the batch. *)
Lemma elem_of_incoming_texts (txs : list Transaction) (i : string) :
  i ≠ "" →
  (Some i ∈ List.map (char_of_json E) (incoming_ids txs) ↔ i ∈ batch_ids E txs).
Proof.
  intros Hne. rewrite elem_of_batch_ids, list_elem_of_In, List.in_map_iff. split.
  - intros (j & Hchar & Hj). split; [done|].
    apply list_elem_of_In, elem_of_incoming_ids in Hj as (_ & tx & Htx & <-). eauto.
  - intros (_ & tx & Htx & Hchar). exists (online_transaction_identifier tx).
    split; [done|]. apply list_elem_of_In, elem_of_incoming_ids.
    split; [by eapply char_of_json_Some|eauto].
Qed.

(** [existing_ids] as lines 490-498 compute it from the line table. *)
Lemma elem_of_existing_ids (journal : Z) (txs : list Transaction)
    (table : list StatementLine) (i : string) :
  i ∈ mapped_ids
        (List.filter
           (λ l, (sl_journal_id l =? journal)
                 && match sl_online_transaction_identifier l with
                    | Some i => bool_decide
                                  (Some i ∈ List.map (char_of_json E) (incoming_ids txs))
                    | None => false
                    end) table)
  ↔ Some i ∈ List.map (char_of_json E) (incoming_ids txs)
    ∧ ∃ l, l ∈ table ∧ sl_journal_id l = journal
           ∧ sl_online_transaction_identifier l = Some i.
Proof.
  unfold mapped_ids. rewrite elem_of_list_to_set, list_elem_of_omap. split.
  - intros (l & Hl & Hid). apply list_elem_of_In, List.filter_In in Hl.
    destruct Hl as [Hl Hcond]. rewrite Hid in Hcond.
    apply andb_true_iff in Hcond as [Hj Hin].
    apply Z.eqb_eq in Hj. apply bool_decide_eq_true in Hin.
    split; [done|]. exists l. by rewrite list_elem_of_In.
  - intros (Hin & l & Hl & Hj & Hid). exists l. split; [|done].
    apply list_elem_of_In, List.filter_In. split; [by apply list_elem_of_In|].
    rewrite Hid. apply andb_true_iff. split; [by apply Z.eqb_eq|].
    by apply bool_decide_eq_true.
Qed.

(** The test of line 505 on a transaction of the batch: a [TypeError] for
    an identifier that cannot be hashed; else whether the identifier is a
    string that a line of the journal holds. *)
Lemma is_duplicate_spec (journal : Z) (txs : list Transaction) (w : world)
    (existing_ids : gset string) (tx : Transaction) :
  (∀ i, i ∈ existing_ids ↔
        Some i ∈ List.map (char_of_json E) (incoming_ids txs)
        ∧ ∃ l, l ∈ statement_lines w ∧ sl_journal_id l = journal
               ∧ sl_online_transaction_identifier l = Some i) →
  tx ∈ txs →
  is_duplicate existing_ids tx
  = if tx_unhashable tx
    then inl (TypeError ("unhashable type: '"
                         +:+ type_name (online_transaction_identifier tx) +:+ "'"))
    else inr (already_persisted journal w tx).
Proof.
  intros Hex Htx. unfold is_duplicate, already_persisted, tx_unhashable, py_in.
  destruct (online_transaction_identifier tx) as [|[]|n|f|i|[|x l]|[|kv kvs]] eqn:Hid;
    simpl; try done.
  - by destruct (n =? 0).
  - by destruct f.
  - destruct (String.eqb i "") eqn:Hempty; simpl; [done|].
    apply String.eqb_neq in Hempty. f_equal.
    apply bool_decide_ext. rewrite Hex, elem_of_persisted_ids.
    rewrite (elem_of_incoming_texts txs i Hempty), elem_of_batch_ids.
    split; [naive_solver|]. intros (_ & Hline). split; [|done]. split; [done|].
    exists tx. by rewrite Hid.
Qed.

Lemma unhashable_cons (tx : Transaction) (txs : list Transaction) :
  unhashable (tx :: txs)
  = if tx_unhashable tx
    then Some (TypeError ("unhashable type: '"
                          +:+ type_name (online_transaction_identifier tx) +:+ "'"))
    else unhashable txs.
Proof. unfold unhashable. simpl. by destruct (tx_unhashable tx). Qed.

Lemma unhashable_None (txs : list Transaction) :
  unhashable txs = None ↔ ∀ tx, tx ∈ txs → tx_unhashable tx = false.
Proof.
  induction txs as [|tx txs IH]; [split; [intros _ tx Htx; by apply elem_of_nil in Htx|done]|].
  rewrite unhashable_cons. destruct (tx_unhashable tx) eqn:Htx.
  - split; [done|]. intros Hall. rewrite Hall in Htx; [done|apply list_elem_of_here].
  - rewrite IH. split.
    + intros Hall tx' [-> | Hin]%elem_of_cons; [done|by apply Hall].
    + intros Hall tx' Hin. apply Hall. by apply list_elem_of_further.
Qed.

(** The loop of lines 500-520 on a batch. *)
Lemma to_create_spec (journal : Z) (existing_ids : gset string) (w : world)
    (txs : list Transaction) :
  (∀ tx, tx ∈ txs →
     is_duplicate existing_ids tx
     = if tx_unhashable tx
       then inl (TypeError ("unhashable type: '"
                            +:+ type_name (online_transaction_identifier tx) +:+ "'"))
       else inr (already_persisted journal w tx)) →
  to_create E journal existing_ids txs
  = match unhashable txs with
    | Some e => inl e
    | None => inr (List.map (line_vals E journal)
                     (List.filter (λ tx, negb (already_persisted journal w tx)) txs))
    end.
Proof.
  induction txs as [|tx txs IH]; intros Hdup; [done|].
  simpl. rewrite unhashable_cons, (Hdup tx) by apply list_elem_of_here.
  destruct (tx_unhashable tx); [done|].
  rewrite IH by (intros tx' Htx'; apply Hdup; by apply list_elem_of_further).
  destruct (unhashable txs); [done|].
  by destruct (already_persisted journal w tx).
Qed.

(** [_custom_create_lines] as a function of the tables it reads. *)
Lemma custom_create_lines_spec (self : OnlineAccount) (txs : list Transaction)
    (w : world) :
  let w1 := snd (resolve_journal E self w) in
    same_but_accounts w w1
    ∧ _custom_create_lines E self txs w
      = match journal_for E (journals w) self with
        | None => (Raise (UserError ("No Journal linked to account "
                                     +:+ fmt_char (acc_name self)
                                     +:+ ". Cannot save transactions.")), w1)
        | Some journal =>
            match unhashable txs with
            | Some e => (Raise e, w1)
            | None =>
                let vals_list :=
                  List.map (line_vals E journal)
                    (List.filter (λ tx, negb (already_persisted journal w tx)) txs) in
                match vals_list with
                | [] => (Ok [], w1)
                | _ =>
                    match create_guard E (statement_lines w) vals_list with
                    | Some e => (Raise e, w1)
                    | None =>
                        (Ok vals_list,
                         set_statement_lines (statement_lines w ++ vals_list) w1)
                    end
                end
            end
        end.
Proof.
  destruct (resolve_journal_spec self w) as (w1 & Hsame & Hres).
  rewrite Hres. simpl. split; [done|].
  unfold _custom_create_lines. munfold. rewrite Hres.
  destruct (journal_for E (journals w) self) as [journal|]; [|done].
  destruct (same_but_accounts_fields _ _ Hsame) as (_ & _ & Hlines & _).
  set (existing := match incoming_ids txs with
                   | [] => ∅
                   | _ => mapped_ids
                            (List.filter
                               (λ l, (sl_journal_id l =? journal)
                                     && match sl_online_transaction_identifier l with
                                        | Some i =>
                                            bool_decide
                                              (Some i ∈ List.map (char_of_json E)
                                                          (incoming_ids txs))
                                        | None => false
                                        end) (statement_lines w))
                   end : gset string).
  assert (Hex : ∀ i, i ∈ existing ↔
        Some i ∈ List.map (char_of_json E) (incoming_ids txs)
        ∧ ∃ l, l ∈ statement_lines w ∧ sl_journal_id l = journal
               ∧ sl_online_transaction_identifier l = Some i).
  { intros i. subst existing. destruct (incoming_ids txs) eqn:Hin.
    - split; [set_solver|]. intros [Hnil _]. by apply elem_of_nil in Hnil.
    - rewrite <- Hin. apply elem_of_existing_ids. }
  match goal with
  | |- context [let (_, _) := ?stage w1 in _] =>
      assert (Hstage : stage w1 = (Ok existing, w1))
  end.
  { subst existing. destruct (incoming_ids txs); [done|].
    unfold search_lines. by rewrite Hlines. }
  rewrite Hstage.
  rewrite (to_create_spec journal existing w txs)
    by (intros tx Htx; by apply (is_duplicate_spec journal txs w)).
  destruct (unhashable txs); [done|]. simpl.
  destruct (List.map (line_vals E journal)
              (List.filter (λ tx, negb (already_persisted journal w tx)) txs))
    as [|v vs] eqn:Hvals; [done|].
  unfold StatementLine_create. munfold. rewrite Hlines.
  by destruct (create_guard E (statement_lines w) (v :: vs)).
Qed.

(** What a successful run of [_custom_create_lines] did: the journal it
    resolved, the lines it created and the table it left. *)
Lemma custom_create_lines_ok (self : OnlineAccount) (txs : list Transaction)
    (w : world) (lines : list StatementLine) (w' : world) :
  _custom_create_lines E self txs w = (Ok lines, w') →
  ∃ journal w1,
    journal_for E (journals w) self = Some journal
    ∧ resolve_journal E self w = (Ok journal, w1)
    ∧ same_but_accounts w w1
    ∧ lines = List.map (line_vals E journal)
                (List.filter (λ tx, negb (already_persisted journal w tx)) txs)
    ∧ w' = set_statement_lines (statement_lines w ++ lines) w1.
Proof.
  intros Hrun.
  destruct (custom_create_lines_spec self txs w) as (Hsame & Hspec).
  destruct (resolve_journal_spec self w) as (w1 & _ & Hres).
  rewrite Hres in Hsame, Hspec. simpl in Hsame, Hspec.
  rewrite Hspec in Hrun.
  destruct (journal_for E (journals w) self) as [journal|]; [|discriminate].
  exists journal, w1. split; [done|]. split; [done|]. split; [done|].
  destruct (unhashable txs); [discriminate|].
  simpl in Hrun.
  destruct (List.map (line_vals E journal)
              (List.filter (λ tx, negb (already_persisted journal w tx)) txs))
    as [|v vs] eqn:Hvals.
  - injection Hrun as <- <-. split; [done|].
    rewrite app_nil_r.
    destruct (same_but_accounts_fields _ _ Hsame) as (_ & _ & Hlines & _).
    rewrite <- Hlines. by destruct w1.
  - destruct (create_guard E (statement_lines w) (v :: vs)); [discriminate|].
    by injection Hrun as <- <-.
Qed.

(** A run that succeeds met no identifier that cannot be hashed. *)
Lemma custom_create_lines_hashable (self : OnlineAccount) (txs : list Transaction)
    (w : world) (lines : list StatementLine) (w' : world) :
  _custom_create_lines E self txs w = (Ok lines, w') → unhashable txs = None.
Proof.
  destruct (custom_create_lines_spec self txs w) as (_ & ->).
  destruct (journal_for E (journals w) self); [|discriminate].
  by destruct (unhashable txs).
Qed.













End Ingestion.







(** ** Frames: what the calls to the bank leave alone *)

Section Keeps.

Context (P : relation world) `{!PreOrder P}.

Lemma keeps_ret {A} (a : A) : keeps P (ret a).
Proof. intros w r w' [= <- <-]. reflexivity. Qed.

Lemma keeps_raise {A} (e : exn) : keeps P (raise (A := A) e).
Proof. intros w r w' [= <- <-]. reflexivity. Qed.

Lemma keeps_lift {A} (r : exn + A) : keeps P (lift r).
Proof. destruct r; [apply keeps_raise | apply keeps_ret]. Qed.

Lemma keeps_get_link : keeps P get_link.
Proof. intros w r w' [= <- <-]. reflexivity. Qed.

Lemma keeps_bind {A B} (m : M A) (k : A → M B) :
  keeps P m → (∀ a, keeps P (k a)) → keeps P (bind m k).
Proof.
  intros Hm Hk w r w' Hrun. unfold bind in Hrun.
  destruct (m w) as [[a|e] w1] eqn:Hmw.
  - etrans; [by eapply Hm | by eapply Hk].
  - injection Hrun as <- <-. by eapply Hm.
Qed.

Lemma keeps_try_except {A} (body : M A) (handler : exn → M A) :
  keeps P body → (∀ e, keeps P (handler e)) → keeps P (try_except body handler).
Proof.
  intros Hm Hk w r w' Hrun. unfold try_except in Hrun.
  destruct (body w) as [[a|e] w1] eqn:Hmw.
  - injection Hrun as <- <-. by eapply Hm.
  - etrans; [by eapply Hm | by eapply Hk].
Qed.

Lemma keeps_mapM {A B} (f : A → M B) (l : list A) :
  (∀ x, keeps P (f x)) → keeps P (mapM f l).
Proof.
  intros Hf. induction l as [|x l IH]; simpl.
  - apply keeps_ret.
  - apply keeps_bind; [apply Hf|]. intros y.
    apply keeps_bind; [apply IH|]. intros ys. apply keeps_ret.
Qed.

End Keeps.

(** Decompose a computation along its binds, handlers and branches, after
    trying the facts already known about its parts. *)
Ltac frame_with known :=
  repeat first
    [ known
    | apply keeps_ret; exact _
    | apply keeps_raise; exact _
    | apply keeps_lift; exact _
    | apply keeps_get_link; exact _
    | apply keeps_bind; [exact _| |intros ?]
    | apply keeps_try_except; [exact _| |intros ?]
    | apply keeps_mapM; [exact _|intros ?]
    | match goal with
      | |- keeps _ (match ?x with _ => _ end) => destruct x
      | |- keeps _ (if ?b then _ else _) => destruct b
      end ].

Section Frames.

Variable E : Externals.

Global Instance tables_unchanged_preorder : PreOrder tables_unchanged.
Proof.
  split.
  - intros w. by repeat split.
  - intros w1 w2 w3 (Ha & Hj & Hs & Hl) (Ha' & Hj' & Hs' & Hl').
    repeat split; congruence.
Qed.

Lemma tables_unchanged_link (w w' : world) :
  tables_unchanged w w' →
  link_id (link w') = link_id (link w)
  ∧ birbank_env (link w') = birbank_env (link w)
  ∧ birbank_initial_sync_date (link w') = birbank_initial_sync_date (link w)
  ∧ state (link w') = state (link w)
  ∧ last_success_date (link w') = last_success_date (link w)
  ∧ last_error_message (link w') = last_error_message (link w).
Proof.
  intros (_ & _ & _ & Hl). unfold with_token in Hl.
  injection Hl as ? ? ? ? ? ? ? ?. done.
Qed.

Lemma keeps_log (level : log_level) (msg : string) :
  keeps tables_unchanged (log level msg).
Proof. intros w r w' [= <- <-]. by repeat split. Qed.

Lemma keeps_log_traceback (e : exn) : keeps tables_unchanged (log_traceback e).
Proof. intros w r w' [= <- <-]. by repeat split. Qed.

Lemma keeps_Datetime_now : keeps tables_unchanged (Datetime_now E).
Proof. intros w r w' [= <- <-]. by repeat split. Qed.

Lemma keeps_Date_today : keeps tables_unchanged (Date_today E).
Proof. intros w r w' [= <- <-]. by repeat split. Qed.

Lemma keeps_send (req : request) : keeps tables_unchanged (send E req).
Proof.
  intros w r w' Hrun. unfold send in Hrun.
  destruct (remote E (requests w) req); injection Hrun as <- <-; by repeat split.
Qed.

Lemma keeps_write_token (t : option string) (expiry : option Z) :
  keeps tables_unchanged (link_write (with_token t expiry)).
Proof. intros w r w' [= <- <-]. by repeat split. Qed.

Ltac frame_tables known :=
  frame_with ltac:(first
    [ known
    | apply keeps_log | apply keeps_log_traceback
    | apply keeps_Datetime_now | apply keeps_Date_today | apply keeps_send
    | apply keeps_write_token ]).

Ltac frame := frame_tables fail.

Lemma keeps_parse_error (e : exn) : keeps tables_unchanged (_parse_error e).
Proof. unfold _parse_error. frame. Qed.

Lemma keeps_base_url : keeps tables_unchanged _get_birbank_base_url.
Proof. unfold _get_birbank_base_url. frame. Qed.

Lemma keeps_raise_for_status (r : response) : keeps tables_unchanged (raise_for_status r).
Proof. unfold raise_for_status. frame. Qed.

Lemma keeps_resp_json (r : response) : keeps tables_unchanged (resp_json r).
Proof. unfold resp_json. frame. Qed.

Lemma keeps_get_birbank_token (force : bool) :
  keeps tables_unchanged (_get_birbank_token E force).
Proof.
  unfold _get_birbank_token.
  frame_tables ltac:(first [apply keeps_base_url | apply keeps_raise_for_status
                         | apply keeps_resp_json | apply keeps_parse_error]).
Qed.

Lemma keeps_transaction_of (st : json) : keeps tables_unchanged (transaction_of E st).
Proof. unfold transaction_of. frame. Qed.

Lemma keeps_account_data_of (acc : json) : keeps tables_unchanged (account_data_of E acc).
Proof. unfold account_data_of. frame. Qed.

Lemma keeps_fetch_odoo_fin_accounts : keeps tables_unchanged (_fetch_odoo_fin_accounts E).
Proof.
  unfold _fetch_odoo_fin_accounts.
  frame_tables ltac:(first [apply keeps_get_birbank_token | apply keeps_base_url
                         | apply keeps_raise_for_status | apply keeps_resp_json
                         | apply keeps_parse_error | apply keeps_account_data_of]).
Qed.

Lemma keeps_fetch_odoo_fin_transactions (a : OnlineAccount) (date_from date_to : option Z) :
  keeps tables_unchanged (_fetch_odoo_fin_transactions E a date_from date_to).
Proof.
  unfold _fetch_odoo_fin_transactions, fetch_transactions_try,
    fetch_transactions_except.
  frame_tables ltac:(first [apply keeps_get_birbank_token | apply keeps_base_url
                         | apply keeps_raise_for_status | apply keeps_resp_json
                         | apply keeps_parse_error | apply keeps_transaction_of]).
Qed.

Lemma keeps_retrieve_transactions (self : OnlineAccount) (date_scraped : option Z) :
  keeps tables_unchanged (_retrieve_transactions E self date_scraped).
Proof.
  unfold _retrieve_transactions.
  frame_tables ltac:(apply keeps_fetch_odoo_fin_transactions).
Qed.

(** The handler of [_fetch_odoo_fin_transactions] turns every exception
    into an empty list. *)
Lemma parse_error_returns (e : exn) (w : world) :
  ∃ msg w', _parse_error e w = (Ok msg, w').
Proof.
  unfold _parse_error. munfold.
  destruct e as [| [[status text]|] | | | | | |]; simpl; eauto.
Qed.

Lemma fetch_transactions_except_returns (a : OnlineAccount) (e : exn) (w : world) :
  ∃ w', fetch_transactions_except a e w = (Ok [], w').
Proof.
  unfold fetch_transactions_except, bind.
  destruct (parse_error_returns e w) as (msg & w1 & ->).
  unfold log, modify, ret. eauto.
Qed.

Lemma fetch_transactions_returns (a : OnlineAccount) (date_from date_to : option Z) :
  never_raises (_fetch_odoo_fin_transactions E a date_from date_to).
Proof.
  intros w. unfold _fetch_odoo_fin_transactions, try_except.
  destruct (fetch_transactions_try E a date_from date_to w) as [[txs|e] w1];
    [eauto|].
  destruct (fetch_transactions_except_returns a e w1) as (w' & ->). eauto.
Qed.

Lemma retrieve_transactions_returns (self : OnlineAccount) (date_scraped : option Z) :
  never_raises (_retrieve_transactions E self date_scraped).
Proof.
  intros w. unfold _retrieve_transactions, Date_today. munfold. simpl.
  match goal with |- context [_fetch_odoo_fin_transactions E self ?df ?dt ?w1] =>
    destruct (fetch_transactions_returns self df dt w1) as (txs & w2 & ->) end.
  eauto.
Qed.

End Frames.

(** ** Listing the transactions of an account *)

Section Listing.

Variable E : Externals.

(** C7.  [_fetch_odoo_fin_transactions] returns a list on every input and
    in every state; it never raises.  Whatever exception its [try] block
    ends with, the list is empty; so it is when the token cannot be
    obtained, when the statement request fails in transport, is answered
    with an HTTP error, or with a body that is empty, not JSON or not an
    object. *)
Theorem transaction_listing_never_raises
    (a : OnlineAccount) (date_from date_to : option Z) (w : world) :
  (∃ txs w', _fetch_odoo_fin_transactions E a date_from date_to w = (Ok txs, w'))
  ∧ (∀ e w1,
       fetch_transactions_try E a date_from date_to w = (Raise e, w1) →
       ∃ w', _fetch_odoo_fin_transactions E a date_from date_to w = (Ok [], w'))
  ∧ (∀ e w1,
       _get_birbank_token E false w = (Raise e, w1) →
       ∃ w', _fetch_odoo_fin_transactions E a date_from date_to w = (Ok [], w'))
  ∧ (∀ tok w1 n d1,
       _get_birbank_token E false w = (Ok tok, w1) →
       statement_account_number a = inr (Some n) → n ≠ "" →
       match date_from with
       | Some d => Some d
       | None => birbank_initial_sync_date (link w1)
       end = Some d1 →
       let d2 := match date_to with
                 | Some d => d
                 | None => clock E (ticks w1) `div` seconds_per_day
                 end in
       let req := statement_request_of E (link w1) tok n d1 d2 in
       let answer := remote E (requests w1) req in
       (∃ msg, answer = ConnectionFailed msg)
       ∨ (∃ status msg text, answer = HttpError status msg text)
       ∨ answer = Body None
       ∨ (∃ msg, answer = NotJson msg)
       ∨ (∃ data, answer = Body (Some data) ∧ ∀ kvs, data ≠ JObj kvs) →
       ∃ w', _fetch_odoo_fin_transactions E a date_from date_to w = (Ok [], w')
             ∧ requests w' = requests w1 ++ [req]).
Proof.
  split; [apply fetch_transactions_returns|]. split; [|split].
  - intros e w1 Htry. unfold _fetch_odoo_fin_transactions, try_except.
    rewrite Htry. apply fetch_transactions_except_returns.
  - intros e w1 Htok. unfold _fetch_odoo_fin_transactions, try_except.
    unfold fetch_transactions_try at 1. unfold bind at 1. rewrite Htok.
    apply fetch_transactions_except_returns.
  - intros tok w1 n d1 Htok Hnum Hne Hfrom d2 req answer Hanswer.
    assert (Htruthy : truthy_char (Some n) = true).
    { simpl. apply negb_true_iff, String.eqb_neq. done. }
    unfold _fetch_odoo_fin_transactions, fetch_transactions_try,
      fetch_transactions_except, try_except, bind.
    rewrite Htok. unfold _get_birbank_base_url, get_link, ret, bind, lift.
    rewrite Hnum. unfold ret.
    rewrite Htruthy. simpl. unfold strftime. rewrite Hfrom.
    subst answer req d2. unfold statement_request_of in *.
    destruct date_to as [d|]; simpl; unfold Date_today, send; simpl;
      destruct Hanswer
        as [[msg ->] | [(status & msg & text & ->)
                        | [-> | [[msg ->] | (data & -> & Hdata)]]]];
      simpl; munfold; simpl; eauto;
      (destruct data; simpl; eauto; by exfalso; eapply Hdata).
Qed.

End Listing.

Lemma transaction_listing_never_raises_witness :
  (∃ w', _fetch_odoo_fin_transactions Scenario.E_down Scenario.a1 None None Scenario.w0
         = (Ok [], w'))
  ∧ (∃ w', _fetch_odoo_fin_transactions Scenario.E_503 Scenario.a1 None (Some 19730)
             Scenario.w0 = (Ok [], w')
           ∧ length (requests w') = 2%nat).
Proof.
  split.
  - destruct (transaction_listing_never_raises Scenario.E_down Scenario.a1 None None
                Scenario.w0) as (_ & _ & Hauth & _).
    apply (Hauth (UserError "Auth Error: Connection refused")
                 (snd (_get_birbank_token Scenario.E_down false Scenario.w0))).
    vm_compute. reflexivity.
  - destruct (transaction_listing_never_raises Scenario.E_503 Scenario.a1 None
                (Some 19730) Scenario.w0) as (_ & _ & _ & Hhttp).
    destruct (Hhttp "abc" (snd (_get_birbank_token Scenario.E_503 false Scenario.w0))
                "AZ01" 19700) as (w' & Hrun & Hreq).
    + vm_compute. reflexivity.
    + reflexivity.
    + discriminate.
    + reflexivity.
    + right. left. vm_compute. eauto.
    + exists w'. split; [exact Hrun|]. rewrite Hreq. reflexivity.
Defined.

(** ** Synchronisation *)

Section Sync.

Variable E : Externals.

(** A failed run of [_custom_create_lines] changes account rows at most. *)
Lemma custom_create_lines_raise (self : OnlineAccount) (txs : list Transaction)
    (w : world) (e : exn) (w' : world) :
  _custom_create_lines E self txs w = (Raise e, w') → same_but_accounts w w'.
Proof.
  destruct (custom_create_lines_spec E self txs w) as (Hsame & ->).
  destruct (journal_for E (journals w) self) as [journal|];
    [|by intros [= _ <-]].
  destruct (unhashable txs); [by intros [= _ <-]|].
  simpl.
  destruct (List.map (line_vals E journal)
              (List.filter (λ tx, negb (already_persisted journal w tx)) txs))
    as [|v vs]; [discriminate|].
  destruct (create_guard E (statement_lines w) (v :: vs)); [|discriminate].
  by intros [= _ <-].
Qed.

Lemma sync_account_empty (target : option Z) (total : nat) (a : OnlineAccount)
    (w w1 : world) :
  _retrieve_transactions E a None w = (Ok [], w1) →
  sync_account E target total a w = (Ok total, w1).
Proof. intros Hget. unfold sync_account, bind. by rewrite Hget. Qed.

Lemma sync_account_created (target : option Z) (total : nat) (a : OnlineAccount)
    (txs : list Transaction) (lines : list StatementLine) (w w1 w2 : world) :
  _retrieve_transactions E a None w = (Ok txs, w1) → txs ≠ [] →
  _custom_create_lines E a txs w1 = (Ok lines, w2) →
  sync_account E target total a w = (Ok (total + length lines)%nat, w2).
Proof.
  intros Hget Hne Hput. unfold sync_account, bind. rewrite Hget.
  destruct txs; [done|]. unfold try_except. by rewrite Hput.
Qed.

Lemma sync_account_failed (target : option Z) (total : nat) (a : OnlineAccount)
    (txs : list Transaction) (e : exn) (w w1 w2 : world) :
  _retrieve_transactions E a None w = (Ok txs, w1) → txs ≠ [] →
  _custom_create_lines E a txs w1 = (Raise e, w2) →
  sync_account E target total a w
  = (if truthy_id target
     then Raise (UserError (write_error_message a e))
     else Ok total, logged (write_failed e) w2).
Proof.
  intros Hget Hne Hput. unfold sync_account, bind. rewrite Hget.
  destruct txs; [done|]. unfold try_except. rewrite Hput. munfold.
  unfold logged, write_failed, safe_str_exn. simpl.
  rewrite <- app_assoc. simpl. by destruct (truthy_id target).
Qed.

Lemma connect_spec (w : world) :
  (match state (link w) with
   | connected => ret tt
   | _ => link_write (with_state connected)
   end) w = (Ok tt, connect w).
Proof. unfold connect. munfold. by destruct (state (link w)). Qed.

(** An untargeted sync whose loop ends marks the link as synchronised. *)
Lemma action_untargeted (target : option Z) (w : world) (total : nat) (w_end : world) :
  truthy_id target = false →
  sync_accounts E target 0 (linked_accounts (connect w)) (connect w)
  = (Ok total, w_end) →
  action_fetch_transactions E target w
  = (Ok (sync_successful total), mark_success E w_end).
Proof.
  intros Htarget Hloop. unfold action_fetch_transactions, try_except, bind, get_link.
  rewrite connect_spec. unfold account_online_account_ids.
  fold (linked_accounts (connect w)).
  rewrite Htarget.
  assert (Hall : match target with
                 | Some t => linked_accounts (connect w)
                 | None => linked_accounts (connect w)
                 end = linked_accounts (connect w)) by by destruct target.
  rewrite Hall, Hloop. simpl. reflexivity.
Qed.


Lemma connect_statement_lines (w : world) :
  statement_lines (connect w) = statement_lines w.
Proof. unfold connect. by destruct (state (link w)). Qed.

(** C9, as the code has it.  In a sync without target over three accounts
    where persisting the batch of the second one fails, the batches of
    the first and the third are persisted, the notification reports
    success with the number of lines created for these two, and the link
    is marked as synchronised: its last-success timestamp is set to the
    time of the write, its last error is cleared and its status is
    [connected]. *)
Theorem partial_sync_reports_success_and_marks_link
    (w : world) (a1 a2 a3 : OnlineAccount) (t1 t2 t3 : list Transaction)
    (l1 l3 : list StatementLine) (e : exn) (w1 w2 w3 w4 w5 w6 : world) :
  linked_accounts (connect w) = [a1; a2; a3] →
  _retrieve_transactions E a1 None (connect w) = (Ok t1, w1) → t1 ≠ [] →
  _custom_create_lines E a1 t1 w1 = (Ok l1, w2) →
  _retrieve_transactions E a2 None w2 = (Ok t2, w3) → t2 ≠ [] →
  _custom_create_lines E a2 t2 w3 = (Raise e, w4) →
  _retrieve_transactions E a3 None (logged (write_failed e) w4) = (Ok t3, w5) →
  t3 ≠ [] →
  _custom_create_lines E a3 t3 w5 = (Ok l3, w6) →
  ∃ w',
    action_fetch_transactions E None w
    = (Ok (sync_successful (length l1 + length l3)), w')
    ∧ ntype (sync_successful (length l1 + length l3)) = "success"
    ∧ statement_lines w' = statement_lines w ++ l1 ++ l3
    ∧ last_success_date (link w') = Some (clock E (ticks w6))
    ∧ last_error_message (link w') = None
    ∧ state (link w') = connected.
Proof.
  intros Hall Hget1 Hne1 Hput1 Hget2 Hne2 Hput2 Hget3 Hne3 Hput3.
  exists (mark_success E w6). split; [|split; [done|split; [|done]]].
  - apply action_untargeted; [done|]. rewrite Hall. simpl. unfold bind.
    rewrite (sync_account_created _ _ _ _ _ _ _ _ Hget1 Hne1 Hput1).
    rewrite (sync_account_failed _ _ _ _ _ _ _ _ Hget2 Hne2 Hput2). simpl.
    rewrite (sync_account_created _ _ _ _ _ _ _ _ Hget3 Hne3 Hput3).
    reflexivity.
  - simpl.
    pose proof (connect_statement_lines w) as Hs0.
    destruct (keeps_retrieve_transactions E _ _ _ _ _ Hget1) as (_ & _ & Hs1 & _).
    destruct (custom_create_lines_ok E _ _ _ _ _ Hput1)
      as (j1 & w1' & _ & _ & _ & _ & Hw2).
    destruct (keeps_retrieve_transactions E _ _ _ _ _ Hget2) as (_ & _ & Hs3 & _).
    destruct (same_but_accounts_fields _ _ (custom_create_lines_raise _ _ _ _ _ Hput2))
      as (_ & _ & Hs4 & _).
    destruct (keeps_retrieve_transactions E _ _ _ _ _ Hget3) as (_ & _ & Hs5 & _).
    destruct (custom_create_lines_ok E _ _ _ _ _ Hput3)
      as (j3 & w5' & _ & _ & _ & _ & Hw6).
    rewrite Hw6. simpl. rewrite Hs5. simpl. rewrite Hs4, Hs3, Hw2. simpl.
    rewrite Hs1, Hs0. by rewrite <- app_assoc.
Qed.

(** C8, as the code has it.  Every exception that reaches the [except]
    clause of [action_fetch_transactions] sets the link's last error to
    its text and the status to [error], whether it is then raised again
    (a [UserError]) or turned into the notification "Sync Failed"; so
    does every exception the action raises.  Every failure of
    [action_initialize_connection] sets the last error and is raised as a
    [UserError].  The errors absorbed inside the sync loop leave the last
    error and the status of the link as they were: retrieving the
    transactions of an account never changes them, and neither does a
    failure to persist a batch in a sync without target. *)
Theorem surfaced_errors_are_recorded :
  (∀ e w, ∃ w',
     sync_crashed e w
     = (if is_UserError e then Raise e else Ok (sync_failed (str_exn e)), w')
     ∧ state (link w') = error
     ∧ last_error_message (link w') = Some (str_exn e))
  ∧ (∀ target w e w',
       action_fetch_transactions E target w = (Raise e, w') →
       state (link w') = error
       ∧ last_error_message (link w') = Some (str_exn e))
  ∧ (∀ w e w',
       action_initialize_connection E w = (Raise e, w') →
       ∃ msg, e = UserError ("Connection Failed: " +:+ msg)
              ∧ last_error_message (link w') = Some msg)
  ∧ (∀ a date_scraped w r w',
       _retrieve_transactions E a date_scraped w = (r, w') →
       state (link w') = state (link w)
       ∧ last_error_message (link w') = last_error_message (link w))
  ∧ (∀ target total a txs e w w1 w2,
       truthy_id target = false →
       _retrieve_transactions E a None w = (Ok txs, w1) → txs ≠ [] →
       _custom_create_lines E a txs w1 = (Raise e, w2) →
       ∃ w', sync_account E target total a w = (Ok total, w')
             ∧ Traceback e ∈ logs w'
             ∧ state (link w') = state (link w)
             ∧ last_error_message (link w') = last_error_message (link w)).
Proof.
  assert (Hcrash : ∀ e w,
     sync_crashed e w
     = (if is_UserError e then Raise e else Ok (sync_failed (str_exn e)),
        mark_error e w)).
  { intros e w. unfold sync_crashed. munfold. unfold safe_str_exn. simpl.
    by destruct (is_UserError e). }
  assert (Hget : ∀ a date_scraped w r w',
       _retrieve_transactions E a date_scraped w = (r, w') →
       state (link w') = state (link w)
       ∧ last_error_message (link w') = last_error_message (link w)).
  { intros a date_scraped w r w' Hrun.
    apply keeps_retrieve_transactions, tables_unchanged_link in Hrun.
    by destruct Hrun as (_ & _ & _ & ? & _ & ?). }
  split; [|split; [|split; [|split; [exact Hget|]]]].
  - intros e w. exists (mark_error e w). by rewrite Hcrash.
  - intros target w e w'. unfold action_fetch_transactions, try_except.
    match goal with
    | |- context [match ?body w with _ => _ end] =>
        destruct (body w) as [[n|e0] w1]
    end; [discriminate|].
    rewrite Hcrash. destruct (is_UserError e0); [|discriminate].
    by intros [= <- <-].
  - intros w e w'. unfold action_initialize_connection, try_except.
    match goal with
    | |- context [match ?body w with _ => _ end] =>
        destruct (body w) as [[n|e0] w1]
    end; [discriminate|].
    munfold. unfold safe_str_exn. simpl. intros [= <- <-]. eauto.
  - intros target total a txs e w w1 w2 Htarget Hrun Hne Hput.
    rewrite (sync_account_failed _ _ _ _ _ _ _ _ Hrun Hne Hput), Htarget.
    eexists. split; [reflexivity|].
    destruct (Hget _ _ _ _ _ Hrun) as [Hstate Herr].
    destruct (same_but_accounts_fields _ _ (custom_create_lines_raise _ _ _ _ _ Hput))
      as (Hlink & _).
    simpl. rewrite Hlink. split; [|done].
    rewrite elem_of_app. right. unfold write_failed.
    apply list_elem_of_further, list_elem_of_here.
Qed.

End Sync.


Lemma partial_sync_reports_success_and_marks_link_witness :
  ∃ w',
    action_fetch_transactions Scenario.E0 None Scenario.w0
    = (Ok (sync_successful (length Scenario.sync_l1 + length Scenario.sync_l3)), w')
    ∧ ntype (sync_successful (length Scenario.sync_l1 + length Scenario.sync_l3))
      = "success"
    ∧ statement_lines w'
      = statement_lines Scenario.w0 ++ Scenario.sync_l1 ++ Scenario.sync_l3
    ∧ last_success_date (link w')
      = Some (clock Scenario.E0 (ticks Scenario.sync_w6))
    ∧ last_error_message (link w') = None
    ∧ state (link w') = connected.
Proof.
  apply (partial_sync_reports_success_and_marks_link Scenario.E0 Scenario.w0
           Scenario.a1 Scenario.a2 Scenario.a3
           Scenario.sync_t1 Scenario.sync_t2 Scenario.sync_t3
           Scenario.sync_l1 Scenario.sync_l3 Scenario.no_journal_a2
           Scenario.sync_w1 Scenario.sync_w2 Scenario.sync_w3 Scenario.sync_w4
           Scenario.sync_w5 Scenario.sync_w6);
    first [by vm_compute | vm_compute; discriminate].
Defined.

(** C9 as the spec states it does not hold: in the sync of the scenario
    (three accounts, no target, the second one without journal) the
    notification reports success and the last-success timestamp of the
    link, empty before, is set. *)
Lemma partial_sync_updates_the_timestamp :
  length (linked_accounts Scenario.w0) = 3%nat
  ∧ Traceback Scenario.no_journal_a2
    ∈ logs (snd (action_fetch_transactions Scenario.E0 None Scenario.w0))
  ∧ fst (action_fetch_transactions Scenario.E0 None Scenario.w0)
    = Ok (sync_successful 2)
  ∧ last_success_date (link Scenario.w0) = None
  ∧ last_success_date
      (link (snd (action_fetch_transactions Scenario.E0 None Scenario.w0)))
    = Some 1700000006
  ∧ ¬ (last_success_date
         (link (snd (action_fetch_transactions Scenario.E0 None Scenario.w0)))
       = last_success_date (link Scenario.w0)).
Proof.
  split; [reflexivity|]. split.
  - vm_compute. apply list_elem_of_further, list_elem_of_here.
  - split; [by vm_compute|]. split; [reflexivity|]. split; [by vm_compute|].
    vm_compute. discriminate.
Qed.

Lemma surfaced_errors_are_recorded_witness :
  (state (link (snd (action_fetch_transactions Scenario.E0 (Some 2) Scenario.w0)))
   = error
   ∧ last_error_message
       (link (snd (action_fetch_transactions Scenario.E0 (Some 2) Scenario.w0)))
     = Some (write_error_message Scenario.a2 Scenario.no_journal_a2))
  ∧ (∃ msg,
       UserError "Connection Failed: Auth Error: Connection refused"
       = UserError ("Connection Failed: " +:+ msg)
       ∧ last_error_message
           (link (snd (action_initialize_connection Scenario.E_down Scenario.w0)))
         = Some msg).
Proof.
  split.
  - destruct (surfaced_errors_are_recorded Scenario.E0) as (_ & Hsync & _).
    apply (Hsync (Some 2) Scenario.w0
             (UserError (write_error_message Scenario.a2 Scenario.no_journal_a2))).
    by vm_compute.
  - destruct (surfaced_errors_are_recorded Scenario.E_down) as (_ & _ & Hinit & _).
    apply (Hinit Scenario.w0). by vm_compute.
Defined.

(** C8 as the spec states it does not hold.  In the sync of the scenario
    the failure to persist the batch of the second account is logged and
    nothing else: the link ends [connected] and without last error.  And
    when the bank cannot be reached, the failed initialization records
    its error but leaves the status of the link as it was, [draft]. *)
Lemma swallowed_error_is_not_recorded :
  ¬ (∀ e,
       Traceback e
       ∈ logs (snd (action_fetch_transactions Scenario.E0 None Scenario.w0)) →
       state (link (snd (action_fetch_transactions Scenario.E0 None Scenario.w0)))
       = error
       ∧ last_error_message
           (link (snd (action_fetch_transactions Scenario.E0 None Scenario.w0)))
         = Some (str_exn e))
  ∧ ¬ (∀ e,
         fst (action_initialize_connection Scenario.E_down Scenario.w0) = Raise e →
         state (link (snd (action_initialize_connection Scenario.E_down Scenario.w0)))
         = error).
Proof.
  split.
  - intros Hclaim.
    destruct (Hclaim Scenario.no_journal_a2) as [Hstate _].
    + vm_compute. apply list_elem_of_further, list_elem_of_here.
    + vm_compute in Hstate. discriminate.
  - intros Hclaim.
    specialize (Hclaim (UserError "Connection Failed: Auth Error: Connection refused")).
    vm_compute in Hclaim. specialize (Hclaim eq_refl). discriminate.
Qed.

(** ** Reconciliation of the accounts *)

Section Reconcile.

Variable E : Externals.

Lemma same_row_refl (a : OnlineAccount) : same_row a a.
Proof. done. Qed.

Lemma same_row_trans (a b c : OnlineAccount) :
  same_row a b → same_row b c → same_row a c.
Proof. intros [? ?] [? ?]. split; congruence. Qed.

Lemma same_rows_refl (l : list OnlineAccount) : Forall2 same_row l l.
Proof. induction l; constructor; [apply same_row_refl | done]. Qed.

Lemma same_rows_trans (l1 l2 l3 : list OnlineAccount) :
  Forall2 same_row l1 l2 → Forall2 same_row l2 l3 → Forall2 same_row l1 l3.
Proof.
  intros H12. revert l3. induction H12 as [|a b l1 l2 Hab _ IH]; intros l3 H23.
  - by inversion H23.
  - inversion H23 as [|b' c l2' l3' Hbc Hrest]; subst.
    constructor; [by eapply same_row_trans | by apply IH].
Qed.

Global Instance rows_kept_preorder : PreOrder rows_kept.
Proof.
  split.
  - intros w. split; [apply same_rows_refl | done].
  - intros w1 w2 w3 [H12 Hl12] [H23 Hl23].
    split; [by eapply same_rows_trans | congruence].
Qed.

(** A write that keeps the id and the identifier of the rows it touches. *)
Lemma same_rows_map (f : OnlineAccount → OnlineAccount) (l : list OnlineAccount) :
  (∀ a, a ∈ l → same_row a (f a)) → Forall2 same_row l (List.map f l).
Proof.
  induction l as [|a l IH]; intros Hf; simpl; constructor.
  - apply Hf. apply list_elem_of_here.
  - apply IH. intros b Hb. apply Hf. by apply list_elem_of_further.
Qed.

Lemma same_but_journal_rows_refl (l : list OnlineAccount) :
  Forall2 same_but_journal l l.
Proof. induction l; by constructor. Qed.

Global Instance rows_relinked_preorder : PreOrder rows_relinked.
Proof.
  split.
  - intros w. split; [apply same_but_journal_rows_refl | done].
  - intros w1 w2 w3 [H12 Hl12] [H23 Hl23]. split; [|congruence].
    revert H23. generalize (accounts w3).
    induction H12 as [|a b l1 l2 Hab _ IH]; intros l3 H23.
    + by inversion H23.
    + inversion H23 as [|b' c l2' l3' Hbc Hrest]; subst.
      constructor; [|by apply IH]. unfold same_but_journal in *. congruence.
Qed.

Lemma rows_relinked_kept (w w' : world) : rows_relinked w w' → rows_kept w w'.
Proof.
  intros [Hrows Hlink]. split; [|done].
  eapply Forall2_impl; [done|]. intros a a' Hsame.
  unfold same_but_journal, with_journal_id in Hsame.
  injection Hsame as ? ? ? ? ? ? ?. by split.
Qed.

Lemma keeps_write_journal_id (id : Z) (j : option Z) :
  keeps rows_relinked (account_write id (with_journal_id j)).
Proof.
  intros w r w' [= <- <-]. split; [|done]. simpl.
  induction (accounts w) as [|a l IH]; simpl; constructor; [|done].
  by destruct (acc_id a =? id).
Qed.

Lemma keeps_journal_write (id : Z) (f : Journal → Journal) :
  keeps rows_relinked (journal_write id f).
Proof. intros w r w' [= <- <-]. split; [apply same_but_journal_rows_refl | done]. Qed.

Lemma keeps_journal_search (domain : Journal → bool) :
  keeps rows_relinked (journal_search domain).
Proof. intros w r w' [= <- <-]. reflexivity. Qed.

Lemma keeps_browse_account (id : Z) : keeps rows_relinked (browse_account id).
Proof.
  intros w r w' Hrun. unfold browse_account in Hrun.
  destruct (List.find (λ a, acc_id a =? id) (accounts w));
    injection Hrun as <- <-; reflexivity.
Qed.

Ltac frame_rows known :=
  frame_with ltac:(first
    [ known
    | apply keeps_write_journal_id | apply keeps_journal_write
    | apply keeps_journal_search | apply keeps_browse_account ]).

Lemma keeps_compute_linked_journal (record : OnlineAccount) :
  keeps rows_relinked (_compute_linked_journal E record).
Proof. unfold _compute_linked_journal. frame_rows fail. Qed.

Lemma relinks_auto_link (online_acc : Z) (identifier : json) :
  keeps rows_relinked (auto_link E online_acc identifier).
Proof.
  unfold auto_link. frame_rows ltac:(apply keeps_compute_linked_journal).
Qed.

Lemma keeps_auto_link (online_acc : Z) (identifier : json) :
  keeps rows_kept (auto_link E online_acc identifier).
Proof.
  intros w r w' Hrun. by eapply rows_relinked_kept, relinks_auto_link.
Qed.





Lemma same_but_journal_refl (a : OnlineAccount) : same_but_journal a a.
Proof. done. Qed.





Lemma kept_row_weaken (ex : gmap string Z) (l l' : list AccountData)
    (a a' : OnlineAccount) :
  (∀ d, d ∈ l → d ∈ l') → kept_row ex l a a' → kept_row ex l' a a'.
Proof. intros Hsub [Hrow Hsame]. split; [done|]. intros Hnone. apply Hsame. auto. Qed.





Lemma grown_weaken_accounts (ex : gmap string Z) (l : list AccountData)
    (w1 w2 w1' w2' : world) :
  accounts w1' = accounts w1 → accounts w2' = accounts w2 →
  link_id (link w1') = link_id (link w1) → link_id (link w2') = link_id (link w2) →
  grown E ex l w1 w2 → grown E ex l w1' w2'.
Proof. unfold grown. intros -> -> -> ->. done. Qed.

























Lemma same_rows_count (i : string) (l l' : list OnlineAccount) :
  Forall2 same_row l l' →
  length (List.filter (has_this_identifier i) l')
  = length (List.filter (has_this_identifier i) l).
Proof.
  induction 1 as [|a b l l' [_ Hident] _ IH]; simpl; [done|].
  assert (has_this_identifier i b = has_this_identifier i a) as ->.
  { unfold has_this_identifier. by rewrite Hident. }
  destruct (has_this_identifier i a); simpl; by rewrite IH.
Qed.







End Reconcile.



(** * Further properties *)

(** ** The token getter and the headers *)

Section TokenExtras.

Variable E : Externals.

(** What a successful login leaves in the link. *)
Lemma get_token_login_ok (force : bool) (w : world) (tok : string) (w1 : world) :
  negb force && token_is_fresh (link w) (clock E (ticks w)) = false →
  _get_birbank_token E force w = (Ok tok, w1) →
  birbank_jwt_token (link w1) = Some tok
  ∧ birbank_token_expiry (link w1) = Some (clock E (ticks w) + minutes 50)
  ∧ ticks w1 = S (ticks w)
  ∧ requests w1 = requests w ++ [login_request_of w]
  ∧ ∃ j, tok = fmt E j ∧ truthy j = true.
Proof.
  intros Hmiss. unfold _get_birbank_token, Datetime_now. munfold. simpl.
  rewrite Hmiss. unfold _get_birbank_base_url, send. munfold. simpl.
  fold (login_request_of w).
  destruct (remote E (requests w) (login_request_of w))
    as [msg|status msg text|[data|]|jmsg]; simpl; try discriminate.
  destruct (dict_get "responseData" (JObj []) data) as [e|rd]; simpl;
    [destruct e as [| [[]|] | | | | | |]; simpl; discriminate|].
  destruct (dict_get "jwttoken" JNull rd) as [e|j]; simpl;
    [destruct e as [| [[]|] | | | | | |]; simpl; discriminate|].
  destruct (truthy j) eqn:Hj; simpl; [|discriminate].
  intros [= <- <-]. simpl. eauto 10.
Qed.

(** X1.  When the login is answered with an HTTP error, the getter raises a
    [UserError] whose message names the status and nothing else of the
    answer; the status and the body go to the error log, the cached token
    is left as it was, and the login is the one request sent. *)
Theorem login_http_error_is_reported (force : bool) (w : world)
    (status : Z) (msg text : string) :
  negb force && token_is_fresh (link w) (clock E (ticks w)) = false →
  remote E (requests w) (login_request_of w) = HttpError status msg text →
  ∃ w',
    _get_birbank_token E force w
    = (Raise (UserError ("Auth Error: Bank Error (" +:+ pretty status +:+ ")")), w')
    ∧ link w' = link w
    ∧ requests w' = requests w ++ [login_request_of w]
    ∧ logs w' = logs w ++ [Log ERROR ("Birbank API Error Status: " +:+ pretty status);
                           Log ERROR ("Birbank API Error Body: " +:+ text)].
Proof.
  intros Hmiss Hanswer. unfold _get_birbank_token, Datetime_now. munfold. simpl.
  rewrite Hmiss. unfold _get_birbank_base_url, send. munfold. simpl.
  fold (login_request_of w). rewrite Hanswer. simpl.
  eexists. split; [reflexivity|]. simpl.
  split; [done|]. split; [done|]. by rewrite <- app_assoc.
Qed.

(** X2.  A token the getter returns is never empty, so the headers built
    for it carry it as the bearer; without a token there is no
    [Authorization] header. *)
Theorem returned_token_is_sent_as_bearer (force : bool) (w : world)
    (tok : string) (w' : world) :
  _get_birbank_token E force w = (Ok tok, w') →
  tok ≠ ""
  ∧ ("Authorization", "Bearer " +:+ tok) ∈ _get_headers (Some tok)
  ∧ ∀ v, ("Authorization", v) ∉ _get_headers None.
Proof.
  intros Hrun.
  assert (Hne : tok ≠ "").
  { destruct (negb force && token_is_fresh (link w) (clock E (ticks w))) eqn:Hhit.
    - revert Hrun. unfold _get_birbank_token, Datetime_now. munfold. simpl.
      rewrite Hhit. intros [= <- <-].
      apply andb_true_iff in Hhit as [_ Hfresh].
      apply token_is_fresh_true in Hfresh as (t & expiry & -> & Hne & _). done.
    - destruct (get_token_login_ok _ _ _ _ Hhit Hrun) as (_ & _ & _ & _ & j & -> & Hj).
      by apply fmt_nonempty. }
  split; [done|]. split.
  - unfold _get_headers.
    assert (truthy_char (Some tok) = true) as ->.
    { simpl. by apply negb_true_iff, String.eqb_neq. }
    apply elem_of_app. right. apply list_elem_of_here.
  - intros v Hin. unfold _get_headers in Hin. simpl in Hin.
    repeat (apply elem_of_cons in Hin as [Hin|Hin]; [discriminate|]).
    by apply elem_of_nil in Hin.
Qed.

(** X3.  After a login, the next call without [force_refresh] that reads
    the clock less than 45 minutes after the login read it returns the
    same token without sending a request. *)
Theorem token_is_reused_after_login (force : bool) (w : world)
    (tok : string) (w1 : world) :
  negb force && token_is_fresh (link w) (clock E (ticks w)) = false →
  _get_birbank_token E force w = (Ok tok, w1) →
  clock E (ticks w1) < clock E (ticks w) + 45 * 60 →
  ∃ w2, _get_birbank_token E false w1 = (Ok tok, w2)
        ∧ requests w2 = requests w1
        ∧ link w2 = link w1.
Proof.
  intros Hmiss Hrun Hsoon.
  destruct (get_token_login_ok _ _ _ _ Hmiss Hrun)
    as (Htok & Hexp & _ & _ & j & -> & Hj).
  exists (tick w1). rewrite get_token_cached.
  - by rewrite Htok.
  - apply token_is_fresh_true. exists (fmt E j), (clock E (ticks w) + minutes 50).
    split; [done|]. split; [by apply fmt_nonempty|]. split; [done|].
    unfold minutes. lia.
Qed.

End TokenExtras.

Lemma login_http_error_is_reported_witness :
  ∃ w',
    _get_birbank_token
      {| remote := λ _ _, HttpError 401 "401 Client Error" "bad credentials";
         clock := clock Scenario.E0; py_repr := py_repr Scenario.E0;
         parse_float := parse_float Scenario.E0;
         strptime_b_d_Y := strptime_b_d_Y Scenario.E0;
         strftime_d_m_Y := strftime_d_m_Y Scenario.E0;
         has_journal_id := false; create_guard := create_guard Scenario.E0 |}
      true Scenario.w0
    = (Raise (UserError ("Auth Error: Bank Error (" +:+ pretty 401 +:+ ")")), w')
    ∧ link w' = link Scenario.w0
    ∧ requests w' = requests Scenario.w0 ++ [login_request_of Scenario.w0]
    ∧ logs w' = logs Scenario.w0
                ++ [Log ERROR ("Birbank API Error Status: " +:+ pretty 401);
                    Log ERROR ("Birbank API Error Body: " +:+ "bad credentials")].
Proof.
  apply (login_http_error_is_reported _ true Scenario.w0 401 "401 Client Error"
           "bad credentials"); reflexivity.
Defined.

Lemma returned_token_is_sent_as_bearer_witness :
  "abc" ≠ ""
  ∧ ("Authorization", "Bearer " +:+ "abc") ∈ _get_headers (Some "abc")
  ∧ ∀ v, ("Authorization", v) ∉ _get_headers None.
Proof.
  apply (returned_token_is_sent_as_bearer Scenario.E0 true Scenario.w0 "abc"
           (snd (_get_birbank_token Scenario.E0 true Scenario.w0))).
  by vm_compute.
Defined.

Lemma token_is_reused_after_login_witness :
  ∃ w2, _get_birbank_token Scenario.E0 false
          (snd (_get_birbank_token Scenario.E0 true Scenario.w0)) = (Ok "abc", w2)
        ∧ requests w2 = requests (snd (_get_birbank_token Scenario.E0 true Scenario.w0))
        ∧ link w2 = link (snd (_get_birbank_token Scenario.E0 true Scenario.w0)).
Proof.
  apply (token_is_reused_after_login Scenario.E0 true Scenario.w0).
  - reflexivity.
  - by vm_compute.
  - by vm_compute.
Defined.

(** ** Listing the accounts *)

Section AccountsExtras.

Variable E : Externals.

Lemma get_token_raises_UserError (force : bool) (w : world) (e : exn) (w' : world) :
  _get_birbank_token E force w = (Raise e, w') → is_UserError e = true.
Proof.
  unfold _get_birbank_token, Datetime_now. munfold. simpl.
  destruct (negb force && token_is_fresh (link w) (clock E (ticks w)));
    [discriminate|].
  unfold _get_birbank_base_url, send. munfold. simpl.
  destruct (remote E _ _) as [msg|status msg text|[data|]|jmsg]; simpl;
    try (by intros [= <- _]).
  destruct (dict_get "responseData" (JObj []) data) as [e0|rd]; simpl;
    [destruct e0 as [| [[]|] | | | | | |]; simpl; by intros [= <- _]|].
  destruct (dict_get "jwttoken" JNull rd) as [e0|tok]; simpl;
    [destruct e0 as [| [[]|] | | | | | |]; simpl; by intros [= <- _]|].
  destruct (truthy tok); simpl; [discriminate|by intros [= <- _]].
Qed.

(** The comprehension over [accountsList] reads no state and writes none. *)
Lemma account_data_of_spec (item : json) (w : world) :
  (∃ d, account_entry E item d ∧ account_data_of E item w = (Ok d, w))
  ∨ (bad_amount E "currAmt" item ∧ ∃ e, account_data_of E item w = (Raise e, w)).
Proof.
  unfold account_data_of, account_entry, bad_amount. munfold.
  destruct item as [| | | | | |kvs]; simpl; try (right; split; [left; done|eauto]).
  destruct (py_float E (default (JInt 0) (assoc_last "currAmt" kvs))) as [e|bal] eqn:Hbal.
  - right. split; [right; eauto|eauto].
  - left. eexists. split; [|reflexivity]. eauto.
Qed.

Lemma mapM_account_data_of (items : list json) (w : world) :
  (∃ l, Forall2 (account_entry E) items l
        ∧ mapM (account_data_of E) items w = (Ok l, w))
  ∨ ((∃ item, item ∈ items ∧ bad_amount E "currAmt" item)
     ∧ ∃ e, mapM (account_data_of E) items w = (Raise e, w)).
Proof.
  induction items as [|item items IH]; simpl.
  - left. exists []. split; [constructor|done].
  - unfold bind.
    destruct (account_data_of_spec item w) as [(d & Hd & ->) | (Hbad & e & ->)].
    + destruct IH as [(l & Hl & ->) | ((bad & Hin & Hbad) & e & ->)].
      * left. exists (d :: l). split; [by constructor|done].
      * right. split; [|eauto]. exists bad. split; [by apply list_elem_of_further|done].
    + right. split; [|eauto]. exists item. split; [apply list_elem_of_here|done].
Qed.

(** The run of [_fetch_odoo_fin_accounts] once the token is there and the
    answer holds a list. *)
Lemma fetch_accounts_listed (w : world) (tok : string) (w1 : world)
    (data rd listed : json) (items : list json) :
  _get_birbank_token E false w = (Ok tok, w1) →
  remote E (requests w1) (accounts_request_of (link w1) tok) = Body (Some data) →
  dict_get "responseData" (JObj []) data = inr rd →
  dict_get "accountsList" (JArr []) rd = inr listed →
  py_iter listed = inr items →
  (∃ l, Forall2 (account_entry E) items l
        ∧ _fetch_odoo_fin_accounts E w
          = (Ok l, sent (accounts_request_of (link w1) tok) w1))
  ∨ ((∃ item, item ∈ items ∧ bad_amount E "currAmt" item)
     ∧ ∃ msg w', _fetch_odoo_fin_accounts E w
                 = (Raise (UserError ("Fetch Error: " +:+ msg)), w')).
Proof.
  intros Htok Hanswer Hrd Hlisted Hitems.
  unfold _fetch_odoo_fin_accounts, try_except, bind. rewrite Htok.
  unfold _get_birbank_base_url, get_link, ret, bind, lift, send.
  fold (accounts_request_of (link w1) tok). rewrite Hanswer.
  fold (sent (accounts_request_of (link w1) tok) w1).
  unfold raise_for_status, resp_json, ret. rewrite Hrd, Hlisted, Hitems. unfold ret.
  destruct (mapM_account_data_of items (sent (accounts_request_of (link w1) tok) w1))
    as [(l & Hl & ->) | (Hbad & e & ->)].
  - left. eauto.
  - right. split; [done|]. unfold log, log_traceback, modify, raise.
    match goal with
    | |- context [_parse_error e ?w3] =>
        destruct (parse_error_returns e w3) as (msg & w' & ->)
    end.
    eauto.
Qed.

(** X4.  [_fetch_odoo_fin_accounts] ends in a list or in a [UserError],
    never in another exception, and whatever its outcome it leaves the
    account, journal and statement-line tables and the link, the cached
    token apart, as they were. *)
Theorem account_listing_outcome (w : world) (r : result (list AccountData)) (w' : world) :
  _fetch_odoo_fin_accounts E w = (r, w') →
  tables_unchanged w w'
  ∧ match r with
    | Ok _ => True
    | Raise e => is_UserError e = true
    end.
Proof.
  intros Hrun. split; [by eapply keeps_fetch_odoo_fin_accounts|].
  destruct r as [l|e]; [done|].
  revert Hrun. unfold _fetch_odoo_fin_accounts, bind at 1.
  destruct (_get_birbank_token E false w) as [[tok|e0] w1] eqn:Htok.
  - unfold _get_birbank_base_url, bind at 1, get_link, ret at 1, bind at 1.
    unfold try_except.
    match goal with
    | |- context [match ?body w1 with _ => _ end] =>
        destruct (body w1) as [[l|e1] w2]
    end; [discriminate|].
    unfold bind, log, log_traceback, modify.
    match goal with
    | |- context [_parse_error e1 ?w3] =>
        destruct (parse_error_returns e1 w3) as (msg & w4 & ->)
    end.
    by intros [= <- _].
  - intros [= <- _]. by eapply get_token_raises_UserError.
Qed.

(** X5.  An answer without [responseData], or whose [responseData] has no
    [accountsList], is an empty listing and not an error. *)
Theorem account_listing_without_list_is_empty (w : world) (tok : string)
    (w1 : world) (top : list (string * json)) :
  _get_birbank_token E false w = (Ok tok, w1) →
  remote E (requests w1) (accounts_request_of (link w1) tok)
  = Body (Some (JObj top)) →
  assoc_last "responseData" top = None
  ∨ (∃ inner, assoc_last "responseData" top = Some (JObj inner)
              ∧ assoc_last "accountsList" inner = None) →
  _fetch_odoo_fin_accounts E w
  = (Ok [], sent (accounts_request_of (link w1) tok) w1).
Proof.
  intros Htok Hanswer Hmissing.
  assert (∃ rd, dict_get "responseData" (JObj []) (JObj top) = inr rd
                ∧ dict_get "accountsList" (JArr []) rd = inr (JArr []))
    as (rd & Hrd & Hlisted).
  { destruct Hmissing as [Hnone | (inner & Hsome & Hnone)]; simpl.
    - rewrite Hnone. exists (JObj []). done.
    - rewrite Hsome. exists (JObj inner). simpl. by rewrite Hnone. }
  destruct (fetch_accounts_listed w tok w1 _ _ _ [] Htok Hanswer Hrd Hlisted eq_refl)
    as [(l & Hl & ->) | ((item & Hin & _) & _)].
  - by inversion Hl.
  - by apply elem_of_nil in Hin.
Qed.

(** X6.  The listing is all or nothing.  When every element of
    [accountsList] is an object whose [currAmt] (0 when absent) converts
    to a float, the result has one entry per element, in order, with the
    value of [ibanAcNo] as it came for identifier and the float nearest
    to the amount for balance.  When one element is not, the whole
    listing fails with a [UserError]; such is an element whose [currAmt]
    is null, or an integer beyond the range of a float. *)
Theorem account_listing_is_all_or_nothing (w : world) (tok : string) (w1 : world)
    (top inner : list (string * json)) (items : list json) :
  _get_birbank_token E false w = (Ok tok, w1) →
  remote E (requests w1) (accounts_request_of (link w1) tok)
  = Body (Some (JObj top)) →
  assoc_last "responseData" top = Some (JObj inner) →
  assoc_last "accountsList" inner = Some (JArr items) →
  ((∀ item, item ∈ items → ¬ bad_amount E "currAmt" item) →
   ∃ l, _fetch_odoo_fin_accounts E w
        = (Ok l, sent (accounts_request_of (link w1) tok) w1)
        ∧ Forall2 (account_entry E) items l)
  ∧ ((∃ item, item ∈ items ∧ bad_amount E "currAmt" item) →
     ∃ msg w', _fetch_odoo_fin_accounts E w
               = (Raise (UserError ("Fetch Error: " +:+ msg)), w'))
  ∧ (∀ kvs, assoc_last "currAmt" kvs = Some JNull → bad_amount E "currAmt" (JObj kvs))
  ∧ (∀ kvs n s, assoc_last "currAmt" kvs = Some (JInt n) →
                float_of_Z n = S754_infinity s →
                bad_amount E "currAmt" (JObj kvs)).
Proof.
  intros Htok Hanswer Hrd Hlisted.
  assert (Hrd' : dict_get "responseData" (JObj []) (JObj top) = inr (JObj inner))
    by (simpl; by rewrite Hrd).
  assert (Hlisted' : dict_get "accountsList" (JArr []) (JObj inner) = inr (JArr items))
    by (simpl; by rewrite Hlisted).
  assert (Hkinds :
    (∀ kvs, assoc_last "currAmt" kvs = Some JNull → bad_amount E "currAmt" (JObj kvs))
    ∧ (∀ kvs n s, assoc_last "currAmt" kvs = Some (JInt n) →
                  float_of_Z n = S754_infinity s →
                  bad_amount E "currAmt" (JObj kvs))).
  { split.
    - intros kvs Hamt. right. eexists kvs, _. split; [done|]. by rewrite Hamt.
    - intros kvs n s0 Hamt Hinf. right. eexists kvs, _. split; [done|].
      rewrite Hamt. simpl. by rewrite Hinf. }
  destruct (fetch_accounts_listed w tok w1 _ _ _ items Htok Hanswer Hrd' Hlisted' eq_refl)
    as [(l & Hl & Hrun) | ((item & Hin & Hbad) & msg & w' & Hrun)].
  - split; [eauto|]. split; [|done].
    intros (item & Hin & Hbad). exfalso.
    apply list_elem_of_lookup in Hin as [n Hn].
    destruct (Forall2_lookup_l _ _ _ n item Hl Hn)
      as (d & _ & kvs & bal & -> & Hbal & _).
    destruct Hbad as [Hnot | (kvs' & e & [= <-] & Hfail)]; [by eapply Hnot|].
    congruence.
  - split; [|split; [eauto|done]]. intros Hgood. exfalso. by eapply Hgood.
Qed.

End AccountsExtras.

Lemma account_listing_outcome_witness :
  tables_unchanged Scenario.w0 (snd (_fetch_odoo_fin_accounts Scenario.E_503 Scenario.w0))
  ∧ match fst (_fetch_odoo_fin_accounts Scenario.E_503 Scenario.w0) with
    | Ok _ => True
    | Raise e => is_UserError e = true
    end.
Proof.
  apply (account_listing_outcome Scenario.E_503 Scenario.w0).
  apply surjective_pairing.
Defined.

Lemma account_listing_without_list_is_empty_witness :
  _fetch_odoo_fin_accounts
    (Scenario.answering (Body (Some (JObj []))) (Body None)) Scenario.w0
  = (Ok [], sent (accounts_request_of (link Scenario.w0_logged_in) "abc")
              Scenario.w0_logged_in).
Proof.
  apply (account_listing_without_list_is_empty
           (Scenario.answering (Body (Some (JObj []))) (Body None))
           Scenario.w0 "abc" Scenario.w0_logged_in []).
  - by vm_compute.
  - reflexivity.
  - by left.
Defined.

Lemma account_listing_is_all_or_nothing_witness :
  (∃ l, _fetch_odoo_fin_accounts
          (Scenario.answering (Scenario.listing_of [Scenario.good_item]) (Body None))
          Scenario.w0
        = (Ok l, sent (accounts_request_of (link Scenario.w0_logged_in) "abc")
                   Scenario.w0_logged_in)
        ∧ Forall2 (account_entry
                     (Scenario.answering (Scenario.listing_of [Scenario.good_item])
                        (Body None)))
            [Scenario.good_item] l)
  ∧ (∃ msg w',
       _fetch_odoo_fin_accounts
         (Scenario.answering
            (Scenario.listing_of [Scenario.good_item; Scenario.huge_amount_item])
            (Body None))
         Scenario.w0
       = (Raise (UserError ("Fetch Error: " +:+ msg)), w')).
Proof.
  split.
  - destruct (account_listing_is_all_or_nothing
                (Scenario.answering (Scenario.listing_of [Scenario.good_item]) (Body None))
                Scenario.w0 "abc" Scenario.w0_logged_in
                [("responseData", JObj [("accountsList", JArr [Scenario.good_item])])]
                [("accountsList", JArr [Scenario.good_item])]
                [Scenario.good_item]) as (Hall & _ & _ & _);
      [by vm_compute | reflexivity | reflexivity | reflexivity |].
    apply Hall. intros item Hin.
    apply list_elem_of_singleton in Hin as ->.
    intros [Hnot | (kvs & e & [= <-] & Hfail)]; [by eapply Hnot | discriminate].
  - destruct (account_listing_is_all_or_nothing
                (Scenario.answering
                   (Scenario.listing_of [Scenario.good_item; Scenario.huge_amount_item])
                   (Body None))
                Scenario.w0 "abc" Scenario.w0_logged_in
                [("responseData",
                  JObj [("accountsList",
                         JArr [Scenario.good_item; Scenario.huge_amount_item])])]
                [("accountsList", JArr [Scenario.good_item; Scenario.huge_amount_item])]
                [Scenario.good_item; Scenario.huge_amount_item])
      as (_ & Hnone & _ & Hhuge);
      [by vm_compute | reflexivity | reflexivity | reflexivity |].
    apply Hnone. exists Scenario.huge_amount_item.
    split; [apply list_elem_of_further, list_elem_of_here|].
    apply (Hhuge _ (10 ^ 400) false); [reflexivity | by vm_compute].
Defined.

(** ** Listing the transactions: numbers, windows and entries *)

Section ListingExtras.

Variable E : Externals.

Lemma app_cons (a : ascii) (s1 s2 : string) :
  String a s1 +:+ s2 = String a (s1 +:+ s2).
Proof. reflexivity. Qed.

Lemma app_empty (s : string) : "" +:+ s = s.
Proof. reflexivity. Qed.

Lemma split_on_cons (c : ascii) (s : string) : ∃ h t, split_on c s = h :: t.
Proof.
  induction s as [|a s (h & t & IH)]; simpl; [eauto|].
  destruct (Ascii.eqb a c); [eauto|]. rewrite IH. eauto.
Qed.

Lemma split_on_app (c : ascii) (s1 s2 : string) :
  occurs c s1 = false →
  split_on c (s1 +:+ String c s2) = s1 :: split_on c s2.
Proof.
  induction s1 as [|a s1 IH]; [rewrite app_empty|rewrite app_cons]; simpl.
  - intros _. by rewrite Ascii.eqb_refl.
  - intros [Ha Hs]%orb_false_iff. rewrite Ha, (IH Hs). done.
Qed.

Lemma split_on_prefix (c : ascii) (s1 s2 h : string) (t : list string) :
  occurs c s1 = false →
  split_on c s2 = h :: t →
  split_on c (s1 +:+ s2) = (s1 +:+ h) :: t.
Proof.
  intros Hs1 Hs2. induction s1 as [|a s1 IH]; [done|].
  rewrite !app_cons. simpl in *. apply orb_false_iff in Hs1 as [Ha Hs1].
  by rewrite Ha, (IH Hs1).
Qed.

Lemma split_on_absent (c : ascii) (s : string) :
  occurs c s = false → split_on c s = [s].
Proof.
  induction s as [|a s IH]; simpl; [done|].
  intros [Ha Hs]%orb_false_iff. by rewrite Ha, (IH Hs).
Qed.

Lemma string_app_assoc (s1 s2 s3 : string) : (s1 +:+ s2) +:+ s3 = s1 +:+ (s2 +:+ s3).
Proof.
  induction s1 as [|a s1 IH]; [done|]. rewrite !app_cons. by rewrite IH.
Qed.

Lemma occurs_app (c : ascii) (s1 s2 : string) :
  occurs c (s1 +:+ s2) = occurs c s1 || occurs c s2.
Proof.
  induction s1 as [|a s1 IH]; [done|]. rewrite app_cons. simpl.
  by rewrite IH, orb_assoc.
Qed.

(** X7.  The account number is read back from the name: for an account
    without identifier whose name is [desc (iban) - ccy], as
    [_fetch_odoo_fin_accounts] builds it, the number sent to the bank is
    [iban], provided the description has no opening parenthesis and the
    IBAN no parenthesis at all. *)
Theorem account_number_is_read_back_from_the_name
    (a : OnlineAccount) (desc iban ccy : string) :
  truthy_char (online_identifier a) = false →
  acc_name a = Some (desc +:+ " (" +:+ iban +:+ ") - " +:+ ccy) →
  occurs "(" desc = false →
  occurs "(" iban = false →
  occurs ")" iban = false →
  statement_account_number a = inr (Some iban).
Proof.
  intros Hid Hname Hdesc Hiban1 Hiban2.
  unfold statement_account_number, number_in_parentheses. rewrite Hid, Hname.
  replace (desc +:+ " (" +:+ iban +:+ ") - " +:+ ccy)
    with ((desc +:+ " ") +:+ String "(" (iban +:+ ") - " +:+ ccy)).
  2:{ rewrite string_app_assoc. done. }
  rewrite split_on_app by (rewrite occurs_app, Hdesc; done).
  destruct (split_on_cons "(" (" - " +:+ ccy)) as (h & t & Hsplit).
  assert (Hrest : split_on "(" (") - " +:+ ccy) = String ")" h :: t).
  { by apply (split_on_prefix "(" ")"). }
  rewrite (split_on_prefix "(" iban _ _ _ Hiban1 Hrest).
  rewrite (split_on_app ")" iban h Hiban2). done.
Qed.

Lemma number_in_parentheses_errors (name : option string) (e : exn) :
  number_in_parentheses name = inl e →
  (∃ m, e = IndexError m) ∨ (∃ m, e = AttributeError m).
Proof.
  unfold number_in_parentheses. destruct name as [s|]; [|intros [= <-]; eauto].
  destruct (split_on "(" s) as [|? [|second ?]]; try (intros [= <-]; eauto).
  destruct (split_on_cons ")" second) as (h & t & ->). discriminate.
Qed.

Lemma statement_account_number_fallback (a : OnlineAccount) :
  truthy_char (online_identifier a) = false →
  (acc_name a = None ∨ ∃ s, acc_name a = Some s ∧ occurs "(" s = false) →
  statement_account_number a = inr (account_number a).
Proof.
  intros Hid Hname. unfold statement_account_number, number_in_parentheses.
  rewrite Hid. destruct Hname as [-> | (s & -> & Hs)]; [done|].
  by rewrite (split_on_absent _ _ Hs).
Qed.

Lemma strptime_errors (j : json) (e : exn) :
  strptime E j = inl e → (∃ m, e = ValueError m) ∨ (∃ m, e = TypeError m).
Proof.
  unfold strptime. destruct j as [| | | |s| |]; try (intros [= <-]; eauto).
  destruct (strptime_b_d_Y E s); [discriminate|intros [= <-]; eauto].
Qed.

Lemma clock_read_refl (w : world) : clock_read w w.
Proof. unfold clock_read. repeat split; lia. Qed.

Lemma clock_read_trans (w1 w2 w3 : world) :
  clock_read w1 w2 → clock_read w2 w3 → clock_read w1 w3.
Proof. unfold clock_read. intros (?&?&?&?&?&?&?) (?&?&?&?&?&?&?).
  repeat split; try congruence; lia. Qed.

Lemma clock_read_tick (w : world) : clock_read w (tick w).
Proof. unfold clock_read, tick. simpl. repeat split; lia. Qed.

Lemma transaction_entry_weaken (lo lo' : nat) (item : json) (tx : Transaction) :
  (lo ≤ lo')%nat → transaction_entry E lo' item tx → transaction_entry E lo item tx.
Proof.
  intros Hle (kvs & amount & ? & ? & ? & ? & ? & ? & Hdate).
  exists kvs, amount. repeat (split; [done|]).
  destruct (strptime E _); [|done].
  destruct Hdate as (n & ? & ?). exists n. split; [lia|done].
Qed.

(** The body of the loop over [statementList] reads the clock and nothing
    else, and writes nothing. *)
Lemma transaction_of_spec (item : json) (w : world) :
  (∃ tx w', transaction_entry E (ticks w) item tx
            ∧ transaction_of E item w = (Ok tx, w') ∧ clock_read w w')
  ∨ (bad_amount E "lcyAmount" item
     ∧ ∃ e w', transaction_of E item w = (Raise e, w') ∧ clock_read w w').
Proof.
  unfold transaction_of, transaction_entry, bad_amount. munfold.
  destruct item as [| | | | | |kvs]; simpl;
    try (right; split; [left; done|eauto using clock_read_refl]).
  destruct (strptime E (default JNull (assoc_last "trnDt" kvs))) as [e|d] eqn:Hd.
  - destruct (strptime_errors _ _ Hd) as [[m ->] | [m ->]]; unfold Date_today;
      (destruct (py_float E (default (JInt 0) (assoc_last "lcyAmount" kvs)))
         as [e|amount] eqn:Hamount; simpl;
       [right; split; [right; eauto|eauto using clock_read_tick]
       |left; eexists _, _; split; [|split; [reflexivity|apply clock_read_tick]];
        exists kvs, amount; simpl; repeat (split; [done|]); rewrite Hd; eauto]).
  - destruct (py_float E (default (JInt 0) (assoc_last "lcyAmount" kvs)))
      as [e|amount] eqn:Hamount; simpl.
    + right. split; [right; eauto|eauto using clock_read_refl].
    + left. eexists _, _. split; [|split; [reflexivity|apply clock_read_refl]].
      exists kvs, amount. simpl. repeat (split; [done|]). by rewrite Hd.
Qed.

Lemma mapM_transaction_of (items : list json) (w : world) :
  (∃ l w', Forall2 (transaction_entry E (ticks w)) items l
           ∧ mapM (transaction_of E) items w = (Ok l, w') ∧ clock_read w w')
  ∨ ((∃ item, item ∈ items ∧ bad_amount E "lcyAmount" item)
     ∧ ∃ e w', mapM (transaction_of E) items w = (Raise e, w') ∧ clock_read w w').
Proof.
  revert w. induction items as [|item items IH]; intros w; simpl.
  - left. exists [], w. split; [constructor|]. split; [done|apply clock_read_refl].
  - unfold bind.
    destruct (transaction_of_spec item w)
      as [(tx & w1 & Htx & -> & Hw1) | (Hbad & e & w1 & -> & Hw1)].
    + destruct (IH w1) as [(l & w2 & Hl & -> & Hw2) | ((bad & Hin & Hbad) & e & w2 & -> & Hw2)].
      * left. exists (tx :: l), w2. split; [|split; [done|by eapply clock_read_trans]].
        constructor; [done|].
        eapply Forall2_impl; [exact Hl|]. intros ? ?.
        apply transaction_entry_weaken. apply Hw1.
      * right. split; [|eauto using clock_read_trans].
        exists bad. split; [by apply list_elem_of_further|done].
    + right. split; [|eauto]. exists item. split; [apply list_elem_of_here|done].
Qed.

Lemma py_iter_len (j : json) (items : list json) :
  py_iter j = inr items → py_len j = inr tt.
Proof. by destruct j. Qed.

(** The run of the [try] block once the token is there, the account has a
    number, the window a start and the answer a list. *)
Lemma fetch_transactions_listed (a : OnlineAccount) (date_from date_to : option Z)
    (w : world) (tok : string) (w1 : world) (n : string) (d1 : Z)
    (data rd ops listed : json) (items : list json) :
  _get_birbank_token E false w = (Ok tok, w1) →
  statement_account_number a = inr (Some n) → n ≠ "" →
  match date_from with
  | Some d => Some d
  | None => birbank_initial_sync_date (link w1)
  end = Some d1 →
  let d2 := match date_to with
            | Some d => d
            | None => clock E (ticks w1) `div` seconds_per_day
            end in
  let req := statement_request_of E (link w1) tok n d1 d2 in
  remote E (requests w1) req = Body (Some data) →
  dict_get "responseData" (JObj []) data = inr rd →
  dict_get "operations" (JObj []) rd = inr ops →
  dict_get "statementList" (JArr []) ops = inr listed →
  py_iter listed = inr items →
  fetch_transactions_try E a date_from date_to w
  = mapM (transaction_of E) items
      (sent req (match date_to with Some _ => w1 | None => tick w1 end)).
Proof.
  intros Htok Hnum Hne Hfrom d2 req Hanswer Hrd Hops Hlisted Hitems.
  assert (Htruthy : truthy_char (Some n) = true).
  { simpl. apply negb_true_iff, String.eqb_neq. done. }
  unfold fetch_transactions_try, bind.
  rewrite Htok. unfold _get_birbank_base_url, get_link, ret, bind, lift.
  rewrite Hnum. unfold ret.
  rewrite Htruthy. simpl. unfold strftime. rewrite Hfrom.
  subst req d2. unfold statement_request_of in *.
  destruct date_to as [d|]; simpl; unfold Date_today, send; simpl;
    rewrite Hanswer; unfold raise_for_status, resp_json, ret;
    rewrite Hrd, Hops, Hlisted, (py_iter_len _ _ Hitems), Hitems; reflexivity.
Qed.

Global Instance quiet_preorder : PreOrder quiet.
Proof. split; unfold quiet; [done|]. intros w1 w2 w3. congruence. Qed.

Lemma bind_Ok {A B} (m : M A) (k : A → M B) (w : world) (a : A) (w1 : world) :
  m w = (Ok a, w1) → bind m k w = k a w1.
Proof. intros Hm. unfold bind. by rewrite Hm. Qed.

Lemma bind_Raise {A B} (m : M A) (k : A → M B) (w : world) (e : exn) (w1 : world) :
  m w = (Raise e, w1) → bind m k w = (Raise e, w1).
Proof. intros Hm. unfold bind. by rewrite Hm. Qed.

Lemma quiet_log (level : log_level) (msg : string) : keeps quiet (log level msg).
Proof. by intros w r w' [= <- <-]. Qed.

Lemma quiet_Date_today : keeps quiet (Date_today E).
Proof. by intros w r w' [= <- <-]. Qed.

Ltac frame_quiet known :=
  frame_with ltac:(first [known | apply quiet_log | apply quiet_Date_today]).

Lemma quiet_parse_error (e : exn) : keeps quiet (_parse_error e).
Proof. unfold _parse_error. frame_quiet fail. Qed.

Lemma quiet_transaction_of (st : json) : keeps quiet (transaction_of E st).
Proof. unfold transaction_of. frame_quiet fail. Qed.

(** The handler of [_fetch_odoo_fin_transactions]: an empty list, an error
    in the log, and no request. *)
Lemma fetch_transactions_except_spec (a : OnlineAccount) (e : exn) (w : world) :
  ∃ msg w',
    fetch_transactions_except a e w = (Ok [], w')
    ∧ quiet w w'
    ∧ Log ERROR ("Birbank Sync Error for " +:+ safe_str (acc_name a) +:+ ": " +:+ msg)
      ∈ logs w'.
Proof.
  unfold fetch_transactions_except.
  destruct (parse_error_returns e w) as (msg & w1 & Hmsg).
  rewrite (bind_Ok _ _ _ _ _ Hmsg). unfold log, modify, bind, ret. simpl.
  exists msg. eexists. split; [reflexivity|]. split.
  - unfold quiet. simpl. by eapply quiet_parse_error.
  - simpl. apply elem_of_app. right. apply list_elem_of_here.
Qed.

(** What [_fetch_odoo_fin_transactions] sends: with a token, an account
    number and a start of the window, one statement request, whatever the
    answer to it. *)
Lemma fetch_transactions_request (a : OnlineAccount) (date_from date_to : option Z)
    (w : world) (tok : string) (w1 : world) (n : string) (d1 : Z) :
  _get_birbank_token E false w = (Ok tok, w1) →
  statement_account_number a = inr (Some n) → n ≠ "" →
  match date_from with
  | Some d => Some d
  | None => birbank_initial_sync_date (link w1)
  end = Some d1 →
  let d2 := match date_to with
            | Some d => d
            | None => clock E (ticks w1) `div` seconds_per_day
            end in
  ∃ txs w', _fetch_odoo_fin_transactions E a date_from date_to w = (Ok txs, w')
            ∧ requests w' = requests w1 ++ [statement_request_of E (link w1) tok n d1 d2].
Proof.
  intros Htok Hnum Hne Hfrom d2.
  assert (Htruthy : truthy_char (Some n) = true).
  { simpl. apply negb_true_iff, String.eqb_neq. done. }
  unfold _fetch_odoo_fin_transactions, try_except, fetch_transactions_try.
  rewrite (bind_Ok _ _ _ _ _ Htok).
  unfold _get_birbank_base_url at 1, get_link at 1.
  rewrite (bind_Ok _ _ w1 _ w1) by reflexivity.
  rewrite (bind_Ok get_link _ w1 (link w1) w1) by reflexivity.
  set (w2 := match date_to with Some _ => w1 | None => tick w1 end).
  rewrite (bind_Ok _ _ w1 (Some d2) w2)
    by (subst w2 d2; by destruct date_to).
  rewrite Hnum. rewrite (bind_Ok _ _ w2 (Some n) w2) by reflexivity.
  rewrite Htruthy. change (negb true) with false. cbv iota.
  unfold strftime. rewrite Hfrom.
  rewrite (bind_Ok _ _ w2 _ w2) by reflexivity.
  rewrite (bind_Ok _ _ w2 _ w2) by reflexivity.
  simpl default. fold (statement_request_of E (link w1) tok n d1 d2).
  set (req := statement_request_of E (link w1) tok n d1 d2).
  assert (Hreq : requests w2 = requests w1) by (subst w2; by destruct date_to).
  destruct (send E req w2) as [[resp|e] w3] eqn:Hsend.
  - assert (Hw3 : requests w3 = requests w1 ++ [req]).
    { unfold send in Hsend. rewrite <- Hreq.
      destruct (remote E (requests w2) req); by simplify_eq. }
    rewrite (bind_Ok _ _ _ _ _ Hsend).
    match goal with
    | |- context [bind ?m ?k w3] =>
        assert (Hquiet : keeps quiet (bind m k))
          by (unfold raise_for_status, resp_json;
              frame_quiet ltac:(apply quiet_transaction_of));
        destruct (bind m k w3) as [[txs|e] w4] eqn:Hrest
    end.
    + exists txs, w4. split; [done|]. rewrite (Hquiet _ _ _ Hrest). done.
    + destruct (fetch_transactions_except_spec a e w4) as (msg & w' & -> & Hw' & _).
      exists [], w'. split; [done|]. rewrite Hw', (Hquiet _ _ _ Hrest). done.
  - assert (Hw3 : requests w3 = requests w1 ++ [req]).
    { unfold send in Hsend. rewrite <- Hreq.
      destruct (remote E (requests w2) req); by simplify_eq. }
    rewrite (bind_Raise _ _ _ _ _ Hsend).
    destruct (fetch_transactions_except_spec a e w3) as (msg & w' & -> & Hw' & _).
    exists [], w'. split; [done|]. rewrite Hw'. done.
Qed.

(** X8.  An account without identifier, without a parenthesis in its name
    and without account number is skipped: the listing is empty, a warning
    is logged and no statement request goes out. *)
Theorem account_without_number_is_skipped
    (a : OnlineAccount) (date_from date_to : option Z)
    (w : world) (tok : string) (w1 : world) :
  _get_birbank_token E false w = (Ok tok, w1) →
  truthy_char (online_identifier a) = false →
  (acc_name a = None ∨ ∃ s, acc_name a = Some s ∧ occurs "(" s = false) →
  truthy_char (account_number a) = false →
  ∃ w', _fetch_odoo_fin_transactions E a date_from date_to w = (Ok [], w')
        ∧ requests w' = requests w1
        ∧ logs w' = logs w1
                    ++ [Log WARNING ("Birbank: Skipping account " +:+ pretty (acc_id a)
                                     +:+ " - No Account Number found.")].
Proof.
  intros Htok Hid Hname Hnum.
  unfold _fetch_odoo_fin_transactions, try_except, fetch_transactions_try.
  rewrite (bind_Ok _ _ _ _ _ Htok).
  unfold _get_birbank_base_url at 1, get_link at 1.
  rewrite (bind_Ok _ _ w1 _ w1) by reflexivity.
  rewrite (bind_Ok get_link _ w1 (link w1) w1) by reflexivity.
  rewrite (statement_account_number_fallback a Hid Hname).
  destruct date_to as [d|]; unfold Date_today; munfold; simpl;
    rewrite Hnum; simpl; eauto.
Qed.

(** X9.  The listing of the transactions is all or nothing.  When every
    element of [statementList] is an object whose [lcyAmount] converts,
    the listing has one transaction per element, in order: for identifier
    the value of [trnRefNo] as it came, for reference [purpose] or else
    [trnRefNo], for amount the float nearest to [lcyAmount], for date the
    one [trnDt] parses to or else today.  One element that is not such an
    object empties the listing, and the error is logged, not raised; such
    is an element whose [lcyAmount] is null, or an integer beyond the
    range of a float. *)
Theorem transaction_listing_is_all_or_nothing
    (a : OnlineAccount) (date_from date_to : option Z)
    (w : world) (tok : string) (w1 : world) (n : string) (d1 : Z)
    (data rd ops listed : json) (items : list json) :
  _get_birbank_token E false w = (Ok tok, w1) →
  statement_account_number a = inr (Some n) → n ≠ "" →
  match date_from with
  | Some d => Some d
  | None => birbank_initial_sync_date (link w1)
  end = Some d1 →
  let d2 := match date_to with
            | Some d => d
            | None => clock E (ticks w1) `div` seconds_per_day
            end in
  let req := statement_request_of E (link w1) tok n d1 d2 in
  remote E (requests w1) req = Body (Some data) →
  dict_get "responseData" (JObj []) data = inr rd →
  dict_get "operations" (JObj []) rd = inr ops →
  dict_get "statementList" (JArr []) ops = inr listed →
  py_iter listed = inr items →
  ((∀ item, item ∈ items → ¬ bad_amount E "lcyAmount" item) →
   ∃ l w', _fetch_odoo_fin_transactions E a date_from date_to w = (Ok l, w')
           ∧ Forall2 (transaction_entry E (ticks w1)) items l
           ∧ logs w' = logs w1)
  ∧ ((∃ item, item ∈ items ∧ bad_amount E "lcyAmount" item) →
     ∃ msg w', _fetch_odoo_fin_transactions E a date_from date_to w = (Ok [], w')
               ∧ Log ERROR ("Birbank Sync Error for " +:+ safe_str (acc_name a)
                            +:+ ": " +:+ msg) ∈ logs w')
  ∧ (∀ kvs, assoc_last "lcyAmount" kvs = Some JNull →
            bad_amount E "lcyAmount" (JObj kvs))
  ∧ (∀ kvs z s, assoc_last "lcyAmount" kvs = Some (JInt z) →
                float_of_Z z = S754_infinity s →
                bad_amount E "lcyAmount" (JObj kvs)).
Proof.
  intros Htok Hnum Hne Hfrom d2 req Hanswer Hrd Hops Hlisted Hitems.
  assert (Hkinds :
    (∀ kvs, assoc_last "lcyAmount" kvs = Some JNull →
            bad_amount E "lcyAmount" (JObj kvs))
    ∧ (∀ kvs z s, assoc_last "lcyAmount" kvs = Some (JInt z) →
                  float_of_Z z = S754_infinity s →
                  bad_amount E "lcyAmount" (JObj kvs))).
  { split.
    - intros kvs Hamt. right. eexists kvs, _. split; [done|]. by rewrite Hamt.
    - intros kvs z s0 Hamt Hinf. right. eexists kvs, _. split; [done|].
      rewrite Hamt. simpl. by rewrite Hinf. }
  match goal with
  | |- ?all ∧ ?nothing ∧ _ =>
      cut (all ∧ nothing); [intros [? ?]; destruct Hkinds; done|]
  end.
  clear Hkinds.
  unfold _fetch_odoo_fin_transactions, try_except.
  rewrite (fetch_transactions_listed a date_from date_to w tok w1 n d1
             data rd ops listed items) by done.
  fold d2 req.
  set (w2 := sent req match date_to with Some _ => w1 | None => tick w1 end).
  assert (Hticks : (ticks w1 ≤ ticks w2)%nat).
  { subst w2. destruct date_to; simpl; lia. }
  assert (Hlogs : logs w2 = logs w1).
  { subst w2. by destruct date_to. }
  destruct (mapM_transaction_of items w2)
    as [(l & w3 & Hl & -> & Hw3) | ((bad & Hin & Hbad) & e & w3 & -> & Hw3)].
  - split.
    + intros _. exists l, w3. split; [done|]. split.
      * eapply Forall2_impl; [exact Hl|]. intros ? ?.
        by apply transaction_entry_weaken.
      * destruct Hw3 as (_ & _ & _ & _ & _ & -> & _). done.
    + intros (item & Hin & Hbad). exfalso.
      apply list_elem_of_lookup in Hin as [i Hi].
      destruct (Forall2_lookup_l _ _ _ i item Hl Hi)
        as (tx & _ & kvs & amount & -> & Hamount & _).
      destruct Hbad as [Hnot | (kvs' & e & [= <-] & Hfail)]; [by eapply Hnot|].
      congruence.
  - split.
    + intros Hgood. exfalso. by eapply Hgood.
    + intros _.
      destruct (fetch_transactions_except_spec a e w3) as (msg & w' & -> & _ & Hlog).
      eauto.
Qed.

(** X10.  Without a start of the window, no date scraped and no initial
    sync date on the link, the retrieval is empty and no statement request
    goes out: the requests are those of the token getter. *)
Theorem retrieval_without_start_date_requests_nothing
    (self : OnlineAccount) (w : world) :
  birbank_initial_sync_date (link w) = None →
  ∃ w', _retrieve_transactions E self None w = (Ok [], w')
        ∧ requests w' = requests (snd (_get_birbank_token E false (tick w))).
Proof.
  intros Hdate.
  unfold _retrieve_transactions.
  rewrite (bind_Ok get_link _ w (link w) w) by reflexivity.
  rewrite (bind_Ok (Date_today E) _ w _ (tick w)) by reflexivity.
  rewrite Hdate.
  unfold try_except at 1, _fetch_odoo_fin_transactions, try_except,
    fetch_transactions_try.
  destruct (_get_birbank_token E false (tick w)) as [[tok|e] w1] eqn:Htok.
  - assert (Hw1 : birbank_initial_sync_date (link w1) = None).
    { destruct (tables_unchanged_link _ _ (keeps_get_birbank_token E false _ _ _ Htok))
        as (_ & _ & -> & _). done. }
    rewrite (bind_Ok _ _ _ _ _ Htok).
    unfold _get_birbank_base_url at 1, get_link at 1.
    rewrite (bind_Ok _ _ w1 _ w1) by reflexivity.
    rewrite (bind_Ok get_link _ w1 (link w1) w1) by reflexivity.
    rewrite (bind_Ok _ _ w1 _ w1) by reflexivity.
    rewrite Hw1.
    destruct (statement_account_number self) as [e|num] eqn:Hnum.
    + rewrite (bind_Raise _ _ w1 e w1) by reflexivity.
      destruct (fetch_transactions_except_spec self e w1) as (msg & w' & -> & Hw' & _).
      eauto.
    + rewrite (bind_Ok _ _ w1 num w1) by reflexivity.
      destruct (truthy_char num);
        [change (negb true) with false | change (negb false) with true]; cbv iota.
      * unfold strftime. rewrite (bind_Raise _ _ w1 _ w1) by reflexivity.
        match goal with
        | |- context [fetch_transactions_except self ?e w1] =>
            destruct (fetch_transactions_except_spec self e w1)
              as (msg & w' & -> & Hw' & _)
        end.
        eauto.
      * unfold log, modify, bind, ret. simpl. eauto.
  - rewrite (bind_Raise _ _ _ _ _ Htok).
    destruct (fetch_transactions_except_spec self e w1) as (msg & w' & -> & Hw' & _).
    eauto.
Qed.

(** X11.  [_retrieve_transactions] asks for the window from the date
    scraped, or else the initial sync date of the link, to today: with a
    token and an account number, that one statement request goes out.
    Whatever the answer, a list is returned, and the tables are as
    before. *)
Theorem retrieval_requests_the_window_up_to_today
    (self : OnlineAccount) (date_scraped : option Z)
    (w : world) (tok : string) (w1 : world) (n : string) (d1 : Z) :
  _get_birbank_token E false (tick w) = (Ok tok, w1) →
  statement_account_number self = inr (Some n) → n ≠ "" →
  match date_scraped with
  | Some d => Some d
  | None => birbank_initial_sync_date (link w)
  end = Some d1 →
  ∃ txs w',
    _retrieve_transactions E self date_scraped w = (Ok txs, w')
    ∧ requests w'
      = requests w1
        ++ [statement_request_of E (link w1) tok n d1
              (clock E (ticks w) `div` seconds_per_day)]
    ∧ tables_unchanged w w'.
Proof.
  intros Htok Hnum Hne Hfrom.
  assert (Hkeeps := keeps_retrieve_transactions E self date_scraped w).
  unfold _retrieve_transactions in *.
  rewrite (bind_Ok get_link _ w (link w) w) in * by reflexivity.
  rewrite (bind_Ok (Date_today E) _ w _ (tick w)) in * by reflexivity.
  rewrite Hfrom in *. unfold try_except at 1. unfold try_except at 1 in Hkeeps.
  destruct (fetch_transactions_request self (Some d1)
              (Some (clock E (ticks w) `div` seconds_per_day)) (tick w)
              tok w1 n d1 Htok Hnum Hne eq_refl) as (txs & w' & Hrun & Hreq).
  rewrite Hrun in *. exists txs, w'. split; [done|]. split; [done|].
  by eapply Hkeeps.
Qed.

End ListingExtras.

Lemma account_without_number_is_skipped_witness :
  ∃ w', _fetch_odoo_fin_transactions Scenario.E0 Scenario.unnumbered None None Scenario.w0
        = (Ok [], w')
        ∧ requests w' = requests Scenario.w0_logged_in
        ∧ logs w' = logs Scenario.w0_logged_in
                    ++ [Log WARNING ("Birbank: Skipping account " +:+ pretty 4
                                     +:+ " - No Account Number found.")].
Proof.
  apply (account_without_number_is_skipped Scenario.E0 Scenario.unnumbered None None
           Scenario.w0 "abc" Scenario.w0_logged_in).
  - by vm_compute.
  - reflexivity.
  - right. exists "Cash". split; reflexivity.
  - reflexivity.
Defined.

Lemma account_number_is_read_back_from_the_name_witness :
  statement_account_number Scenario.renamed = inr (Some "AZ01").
Proof.
  apply (account_number_is_read_back_from_the_name Scenario.renamed "Main" "AZ01" "AZN");
    reflexivity.
Defined.

Lemma transaction_listing_is_all_or_nothing_witness :
  (∃ l w', _fetch_odoo_fin_transactions
             (Scenario.answering (Body None)
                (Scenario.statement_of [Scenario.good_operation]))
             Scenario.a1 None (Some 19730) Scenario.w0 = (Ok l, w')
           ∧ Forall2 (transaction_entry
                        (Scenario.answering (Body None)
                           (Scenario.statement_of [Scenario.good_operation]))
                        (ticks Scenario.w0_logged_in))
               [Scenario.good_operation] l
           ∧ logs w' = logs Scenario.w0_logged_in)
  ∧ (∃ msg w',
       _fetch_odoo_fin_transactions
         (Scenario.answering (Body None)
            (Scenario.statement_of [Scenario.good_operation; Scenario.huge_operation]))
         Scenario.a1 None (Some 19730) Scenario.w0 = (Ok [], w')
       ∧ Log ERROR ("Birbank Sync Error for " +:+ safe_str (acc_name Scenario.a1)
                    +:+ ": " +:+ msg) ∈ logs w').
Proof.
  split.
  - destruct (transaction_listing_is_all_or_nothing
                (Scenario.answering (Body None)
                   (Scenario.statement_of [Scenario.good_operation]))
                Scenario.a1 None (Some 19730) Scenario.w0 "abc" Scenario.w0_logged_in
                "AZ01" 19700
                (JObj [("responseData",
                        JObj [("operations",
                               JObj [("statementList",
                                      JArr [Scenario.good_operation])])])])
                (JObj [("operations",
                        JObj [("statementList", JArr [Scenario.good_operation])])])
                (JObj [("statementList", JArr [Scenario.good_operation])])
                (JArr [Scenario.good_operation])
                [Scenario.good_operation]) as (Hall & _ & _ & _);
      [by vm_compute | reflexivity | discriminate | reflexivity | reflexivity
      | reflexivity | reflexivity | reflexivity | reflexivity |].
    apply Hall. intros item Hin.
    apply list_elem_of_singleton in Hin as ->.
    intros [Hnot | (kvs & e & [= <-] & Hfail)]; [by eapply Hnot | discriminate].
  - destruct (transaction_listing_is_all_or_nothing
                (Scenario.answering (Body None)
                   (Scenario.statement_of [Scenario.good_operation; Scenario.huge_operation]))
                Scenario.a1 None (Some 19730) Scenario.w0 "abc" Scenario.w0_logged_in
                "AZ01" 19700
                (JObj [("responseData",
                        JObj [("operations",
                               JObj [("statementList",
                                      JArr [Scenario.good_operation;
                                            Scenario.huge_operation])])])])
                (JObj [("operations",
                        JObj [("statementList",
                               JArr [Scenario.good_operation; Scenario.huge_operation])])])
                (JObj [("statementList",
                        JArr [Scenario.good_operation; Scenario.huge_operation])])
                (JArr [Scenario.good_operation; Scenario.huge_operation])
                [Scenario.good_operation; Scenario.huge_operation])
      as (_ & Hnone & _ & Hhuge);
      [by vm_compute | reflexivity | discriminate | reflexivity | reflexivity
      | reflexivity | reflexivity | reflexivity | reflexivity |].
    apply Hnone. exists Scenario.huge_operation.
    split; [apply list_elem_of_further, list_elem_of_here|].
    apply (Hhuge _ (10 ^ 400) false); [reflexivity | by vm_compute].
Defined.

Lemma retrieval_without_start_date_requests_nothing_witness :
  ∃ w', _retrieve_transactions Scenario.E0 Scenario.a1 None Scenario.w0_undated
        = (Ok [], w')
        ∧ requests w'
          = requests (snd (_get_birbank_token Scenario.E0 false
                             (tick Scenario.w0_undated))).
Proof.
  apply (retrieval_without_start_date_requests_nothing Scenario.E0 Scenario.a1
           Scenario.w0_undated).
  reflexivity.
Defined.

Lemma retrieval_requests_the_window_up_to_today_witness :
  ∃ txs w',
    _retrieve_transactions Scenario.E0 Scenario.a1 (Some 19720) Scenario.w0 = (Ok txs, w')
    ∧ requests w'
      = requests (snd (_get_birbank_token Scenario.E0 false (tick Scenario.w0)))
        ++ [statement_request_of Scenario.E0
              (link (snd (_get_birbank_token Scenario.E0 false (tick Scenario.w0))))
              "abc" "AZ01" 19720
              (clock Scenario.E0 (ticks Scenario.w0) `div` seconds_per_day)]
    ∧ tables_unchanged Scenario.w0 w'.
Proof.
  apply (retrieval_requests_the_window_up_to_today Scenario.E0 Scenario.a1 (Some 19720)
           Scenario.w0 "abc"
           (snd (_get_birbank_token Scenario.E0 false (tick Scenario.w0))) "AZ01" 19720).
  - by vm_compute.
  - reflexivity.
  - discriminate.
  - reflexivity.
Defined.

(** ** The sync action: counts, marks and targets *)

Section SyncExtras.

Variable E : Externals.

Global Instance lines_appended_preorder : PreOrder lines_appended.
Proof.
  split.
  - intros w. split; [done|]. split; [exists []; by rewrite app_nil_r|].
    split; [apply same_but_journal_rows_refl|done].
  - intros w1 w2 w3 (Hj & (l1 & Hs) & Ha & Hl) (Hj' & (l2 & Hs') & Ha' & Hl').
    split; [congruence|]. split; [|split; [|congruence]].
    + exists (l1 ++ l2). by rewrite Hs', Hs, app_assoc.
    + eapply Forall2_trans; [|done..].
      unfold same_but_journal. intros; congruence.
Qed.

Lemma tables_unchanged_appended (w w' : world) :
  tables_unchanged w w' → lines_appended w w'.
Proof.
  intros (Ha & Hj & Hs & Hl). split; [done|].
  split; [exists []; by rewrite app_nil_r|].
  split; [rewrite Ha; apply same_but_journal_rows_refl|done].
Qed.

Lemma keeps_resolve_journal (self : OnlineAccount) :
  keeps rows_relinked (resolve_journal E self).
Proof.
  unfold resolve_journal.
  frame_with ltac:(first [apply keeps_compute_linked_journal
                         | apply keeps_journal_search]).
Qed.

(** What [_custom_create_lines] leaves, whatever its outcome. *)
Lemma custom_create_lines_appends (self : OnlineAccount) (txs : list Transaction)
    (w : world) (r : result (list StatementLine)) (w' : world) :
  _custom_create_lines E self txs w = (r, w') →
  lines_appended w w'
  ∧ requests w' = requests w
  ∧ statement_lines w'
    = statement_lines w ++ match r with Ok lines => lines | Raise _ => [] end.
Proof.
  destruct (custom_create_lines_spec E self txs w) as (Hsame & ->).
  destruct (resolve_journal E self w) as [r1 w1] eqn:Hres.
  apply keeps_resolve_journal in Hres as [Hrows Hlink]. simpl in *.
  destruct (same_but_accounts_fields _ _ Hsame) as (_ & Hj & Hs & Hr & _).
  assert (Hkept : lines_appended w w1).
  { split; [done|]. split; [exists []; by rewrite app_nil_r|]. split; [done|].
    by rewrite Hlink. }
  destruct (journal_for E (journals w) self) as [journal|];
    [|intros [= <- <-]; by rewrite app_nil_r].
  destruct (unhashable txs); [intros [= <- <-]; by rewrite app_nil_r|].
  simpl.
  destruct (List.map (line_vals E journal)
              (List.filter (λ tx, negb (already_persisted journal w tx)) txs))
    as [|v vs]; [intros [= <- <-]; by rewrite app_nil_r|].
  destruct (create_guard E (statement_lines w) (v :: vs));
    intros [= <- <-]; [by rewrite app_nil_r|].
  split; [|done]. split; [done|]. split; [by eexists|]. split; [done|].
  simpl. by rewrite Hlink.
Qed.

(** One turn of the loop of [action_fetch_transactions]. *)
Lemma sync_account_appends (target : option Z) (total : nat) (a : OnlineAccount)
    (w : world) (r : result nat) (w' : world) :
  sync_account E target total a w = (r, w') →
  lines_appended w w'
  ∧ match r with
    | Ok total' => ∃ added, statement_lines w' = statement_lines w ++ added
                            ∧ total' = (total + length added)%nat
    | Raise e => is_UserError e = true ∧ truthy_id target = true
                 ∧ statement_lines w' = statement_lines w
    end.
Proof.
  destruct (retrieve_transactions_returns E a None w) as (txs & w1 & Hget).
  apply keeps_retrieve_transactions in Hget as Hw1.
  destruct (decide (txs = [])) as [-> | Hne].
  - rewrite (sync_account_empty E _ _ _ _ _ Hget). intros [= <- <-].
    split; [by apply tables_unchanged_appended|].
    exists []. rewrite app_nil_r. split; [apply Hw1|simpl; lia].
  - destruct (_custom_create_lines E a txs w1) as [[lines|e] w2] eqn:Hput;
      destruct (custom_create_lines_appends _ _ _ _ _ Hput) as (Hw2 & _ & Hs2).
    + rewrite (sync_account_created E _ _ _ _ _ _ _ _ Hget Hne Hput).
      intros [= <- <-]. split.
      * etrans; [by apply tables_unchanged_appended|done].
      * exists lines. split; [|done]. rewrite Hs2.
        destruct Hw1 as (_ & _ & -> & _). done.
    + rewrite (sync_account_failed E _ _ _ _ _ _ _ _ Hget Hne Hput).
      assert (Hlog : lines_appended w (logged (write_failed e) w2)).
      { etrans; [by apply tables_unchanged_appended|].
        destruct Hw2 as (? & ? & ? & ?). by split. }
      assert (Hs : statement_lines w2 = statement_lines w).
      { rewrite Hs2, app_nil_r. apply Hw1. }
      destruct (truthy_id target); intros [= <- <-]; (split; [done|]).
      * done.
      * exists []. rewrite app_nil_r. simpl. split; [done|lia].
Qed.

Lemma sync_accounts_appends (target : option Z) (accs : list OnlineAccount)
    (total : nat) (w : world) (r : result nat) (w' : world) :
  sync_accounts E target total accs w = (r, w') →
  lines_appended w w'
  ∧ match r with
    | Ok total' => ∃ added, statement_lines w' = statement_lines w ++ added
                            ∧ total' = (total + length added)%nat
    | Raise e => is_UserError e = true ∧ truthy_id target = true
    end.
Proof.
  revert total w. induction accs as [|a accs IH]; intros total w; simpl.
  - intros [= <- <-]. split; [reflexivity|]. exists [].
    rewrite app_nil_r. split; [done|simpl; lia].
  - unfold bind.
    destruct (sync_account E target total a w) as [[total1|e] w1] eqn:Hstep;
      destruct (sync_account_appends _ _ _ _ _ _ Hstep) as [Hw1 Hr1].
    + intros Hrest. destruct (IH _ _ Hrest) as [Hw' Hr]. split; [by etrans|].
      destruct r as [total'|e]; [|done].
      destruct Hr1 as (l1 & Hs1 & ->), Hr as (l2 & Hs2 & ->).
      exists (l1 ++ l2). rewrite Hs2, Hs1, app_assoc, length_app.
      split; [done|lia].
    + intros [= <- <-]. split; [done|]. by destruct Hr1 as (? & ? & _).
Qed.

Lemma token_apart (l l' : Link) :
  with_token None None l' = with_token None None l →
  link_id l' = link_id l ∧ state l' = state l
  ∧ last_success_date l' = last_success_date l
  ∧ last_error_message l' = last_error_message l.
Proof. unfold with_token. intros [= ? ? ? ? ? ? ? ?]. done. Qed.

Lemma relinked_linked_accounts (k : Z) (l l' : list OnlineAccount) :
  Forall2 same_but_journal l l' →
  length (List.filter (λ a, account_online_link_id a =? k) l')
  = length (List.filter (λ a, account_online_link_id a =? k) l).
Proof.
  induction 1 as [|a a' l l' Hsame _ IH]; simpl; [done|].
  unfold same_but_journal, with_journal_id in Hsame.
  injection Hsame as _ _ _ _ _ _ ->.
  destruct (account_online_link_id a =? k); simpl; by rewrite IH.
Qed.

Lemma lines_appended_linked_accounts (w w' : world) :
  lines_appended w w' →
  length (linked_accounts w') = length (linked_accounts w).
Proof.
  intros (_ & _ & Hrows & Hlink). unfold linked_accounts.
  destruct (token_apart _ _ Hlink) as (-> & _).
  by apply relinked_linked_accounts.
Qed.

(** The accounts a sync goes through. *)
Lemma action_fetch_run (target : option Z) (w : world) (n : notification) (w' : world) :
  action_fetch_transactions E target w = (Ok n, w') →
  ∃ total w_end,
    sync_accounts E target 0
      (if truthy_id target
       then List.filter (λ a, acc_id a =? default 0 target) (linked_accounts (connect w))
       else linked_accounts (connect w))
      (connect w) = (Ok total, w_end)
    ∧ n = sync_successful total
    ∧ w' = if negb (truthy_id target) || (length (linked_accounts w_end) =? 1)%nat
           then mark_success E w_end else w_end.
Proof.
  unfold action_fetch_transactions, try_except, bind, get_link.
  rewrite connect_spec. unfold account_online_account_ids.
  fold (linked_accounts (connect w)).
  assert (Haccs : match target with
                  | Some t => if truthy_id target
                              then List.filter (λ a, acc_id a =? t)
                                     (linked_accounts (connect w))
                              else linked_accounts (connect w)
                  | None => linked_accounts (connect w)
                  end
                  = if truthy_id target
                    then List.filter (λ a, acc_id a =? default 0 target)
                           (linked_accounts (connect w))
                    else linked_accounts (connect w)) by by destruct target.
  rewrite Haccs.
  match goal with
  | |- context [sync_accounts E target 0 ?accs (connect w)] =>
      destruct (sync_accounts E target 0 accs (connect w)) as [[total|e] w_end] eqn:Hloop
  end.
  - fold (linked_accounts w_end).
    destruct (negb (truthy_id target) || (length (linked_accounts w_end) =? 1)%nat)
      eqn:Hcond;
      simpl; intros [= <- <-]; exists total, w_end; by rewrite Hcond.
  - destruct (sync_accounts_appends _ _ _ _ _ _ Hloop) as (_ & Huser & _).
    unfold sync_crashed. munfold. rewrite Huser. discriminate.
Qed.

(** X12.  A sync that returns reports the number of statement lines it
    added: the table is the one before followed by that many lines, the
    journals are untouched and the link is [connected].  The loop raises
    nothing but the [UserError] of a targeted sync, which is raised again,
    so the notification returned is the one of a success. *)
Theorem sync_reports_the_lines_it_added
    (target : option Z) (w : world) (n : notification) (w' : world) :
  action_fetch_transactions E target w = (Ok n, w') →
  ∃ added,
    n = sync_successful (length added)
    ∧ statement_lines w' = statement_lines w ++ added
    ∧ journals w' = journals w
    ∧ state (link w') = connected.
Proof.
  intros Hrun.
  destruct (action_fetch_run _ _ _ _ Hrun) as (total & w_end & Hloop & -> & ->).
  destruct (sync_accounts_appends _ _ _ _ _ _ Hloop)
    as ((Hj & _ & _ & Hlink) & added & Hs & ->).
  exists added. split; [done|].
  assert (Hstate : state (link w_end) = connected).
  { destruct (token_apart _ _ Hlink) as (_ & -> & _).
    unfold connect. destruct (state (link w)) eqn:Hst; simpl; done. }
  rewrite connect_statement_lines in Hs.
  assert (Hjournals : journals (connect w) = journals w).
  { unfold connect. by destruct (state (link w)). }
  destruct (negb (truthy_id target) || (length (linked_accounts w_end) =? 1)%nat);
    simpl; (split; [done|]); (split; [congruence|done]).
Qed.

(** X13.  A sync that returns marks the link as synchronised (last
    success set to the time of the write, last error cleared) when it had
    no target or the link has exactly one account; a sync of one account
    among several leaves both fields as they were. *)
Theorem link_is_marked_unless_one_of_several_is_targeted
    (target : option Z) (w : world) (n : notification) (w' : world) :
  action_fetch_transactions E target w = (Ok n, w') →
  if negb (truthy_id target) || (length (linked_accounts w) =? 1)%nat
  then last_error_message (link w') = None
       ∧ ∃ t, last_success_date (link w') = Some (clock E t)
  else last_error_message (link w') = last_error_message (link w)
       ∧ last_success_date (link w') = last_success_date (link w).
Proof.
  intros Hrun.
  destruct (action_fetch_run _ _ _ _ Hrun) as (total & w_end & Hloop & -> & ->).
  destruct (sync_accounts_appends _ _ _ _ _ _ Hloop) as (Happ & _).
  rewrite (lines_appended_linked_accounts _ _ Happ).
  assert (Hsame : linked_accounts (connect w) = linked_accounts w).
  { unfold connect. by destruct (state (link w)). }
  rewrite Hsame.
  destruct (negb (truthy_id target) || (length (linked_accounts w) =? 1)%nat);
    simpl; [eauto|].
  destruct Happ as (_ & _ & _ & Hlink).
  destruct (token_apart _ _ Hlink) as (_ & _ & -> & ->).
  unfold connect. by destruct (state (link w)).
Qed.

(** X14.  A sync aimed at an account that is not under the link does
    nothing and reports success with 0 new transactions; the link becomes
    [connected], and is marked as synchronised when it has exactly one
    account. *)
Theorem sync_of_an_unknown_target_reports_success (t : Z) (w : world) :
  t ≠ 0 →
  List.filter (λ a, acc_id a =? t) (linked_accounts w) = [] →
  action_fetch_transactions E (Some t) w
  = (Ok (sync_successful 0),
     if (length (linked_accounts w) =? 1)%nat
     then mark_success E (connect w) else connect w).
Proof.
  intros Ht Hnone.
  assert (Htruthy : truthy_id (Some t) = true).
  { simpl. by apply negb_true_iff, Z.eqb_neq. }
  assert (Hsame : linked_accounts (connect w) = linked_accounts w).
  { unfold connect. by destruct (state (link w)). }
  unfold action_fetch_transactions, try_except, bind, get_link.
  rewrite connect_spec. unfold account_online_account_ids.
  fold (linked_accounts (connect w)).
  rewrite Htruthy, Hsame, Hnone. simpl.
  fold (linked_accounts (connect w)). rewrite Hsame.
  by destruct (length (linked_accounts w) =? 1)%nat.
Qed.

Lemma sync_accounts_target_zero (accs : list OnlineAccount) (total : nat) (w : world) :
  sync_accounts E (Some 0) total accs w = sync_accounts E None total accs w.
Proof.
  revert total w. induction accs as [|a accs IH]; intros total w; [done|].
  simpl. unfold bind.
  change (sync_account E (Some 0) total a w) with (sync_account E None total a w).
  destruct (sync_account E None total a w) as [[total1|e] w1]; [apply IH|done].
Qed.

(** X15.  The target 0 is no target: a sync called with it is the sync of
    all the accounts of the link. *)
Theorem target_zero_is_no_target (w : world) :
  action_fetch_transactions E (Some 0) w = action_fetch_transactions E None w.
Proof.
  unfold action_fetch_transactions, try_except, bind, get_link.
  rewrite connect_spec. unfold account_online_account_ids.
  change (truthy_id (Some 0)) with false. cbv iota.
  by rewrite sync_accounts_target_zero.
Qed.

End SyncExtras.

Lemma sync_reports_the_lines_it_added_witness :
  ∃ added,
    sync_successful 2 = sync_successful (length added)
    ∧ statement_lines (snd (action_fetch_transactions Scenario.E0 None Scenario.w0))
      = statement_lines Scenario.w0 ++ added
    ∧ journals (snd (action_fetch_transactions Scenario.E0 None Scenario.w0))
      = journals Scenario.w0
    ∧ state (link (snd (action_fetch_transactions Scenario.E0 None Scenario.w0)))
      = connected.
Proof.
  apply (sync_reports_the_lines_it_added Scenario.E0 None Scenario.w0).
  by vm_compute.
Defined.

Lemma link_is_marked_unless_one_of_several_is_targeted_witness :
  last_error_message
    (link (snd (action_fetch_transactions Scenario.E0 (Some 1) Scenario.w0)))
  = last_error_message (link Scenario.w0)
  ∧ last_success_date
      (link (snd (action_fetch_transactions Scenario.E0 (Some 1) Scenario.w0)))
    = last_success_date (link Scenario.w0).
Proof.
  apply (link_is_marked_unless_one_of_several_is_targeted Scenario.E0 (Some 1)
           Scenario.w0 (sync_successful 1)).
  by vm_compute.
Defined.

Lemma sync_of_an_unknown_target_reports_success_witness :
  action_fetch_transactions Scenario.E0 (Some 99) Scenario.w0
  = (Ok (sync_successful 0), connect Scenario.w0).
Proof.
  apply (sync_of_an_unknown_target_reports_success Scenario.E0 99 Scenario.w0).
  - discriminate.
  - reflexivity.
Defined.

(** ** Journals: resolution, creation and the dashboard button *)

Section JournalExtras.

Variable E : Externals.

Lemma compute_linked_journal_run (record : OnlineAccount) (w : world) :
  _compute_linked_journal E record w
  = (Ok (linked_journal (journals w) record),
     match linked_journal (journals w) record with
     | Some j => backfilled E record (j_id j) w
     | None => w
     end).
Proof.
  unfold _compute_linked_journal, linked_journal, journal_search, account_write,
    backfilled.
  munfold. simpl.
  destruct (List.find (journal_of_account (acc_id record)) (journals w)) as [j|];
    simpl.
  - by destruct (has_journal_id E && negb (has_record (journal_id record))).
  - destruct (truthy_char (account_number record)); simpl; [|done].
    destruct (List.find (bank_journal_with_number (account_number record))
                (journals w)) as [j|]; simpl; [|done].
    by destruct (has_journal_id E && negb (has_record (journal_id record))).
Qed.

Lemma journals_backfilled (record : OnlineAccount) (j : Z) (w : world) :
  journals (backfilled E record j w) = journals w.
Proof. unfold backfilled. by destruct (_ && _). Qed.

(** X16.  The journal of an account is resolved in this order: the first
    journal that points to the account; else, when the account has a
    number, the first bank journal with that number; else the [journal_id]
    of the row, where the host has that field.  When all three are empty
    the search of lines 478-481 finds nothing either, and the resolution
    fails with a [UserError] in an unchanged state. *)
Theorem journal_is_resolved_in_order (self : OnlineAccount) (w : world) :
  (∀ j, List.find (journal_of_account (acc_id self)) (journals w) = Some j →
        resolve_journal E self w = (Ok (j_id j), backfilled E self (j_id j) w))
  ∧ (∀ j, List.find (journal_of_account (acc_id self)) (journals w) = None →
          truthy_char (account_number self) = true →
          List.find (bank_journal_with_number (account_number self)) (journals w)
          = Some j →
          resolve_journal E self w = (Ok (j_id j), backfilled E self (j_id j) w))
  ∧ (linked_journal (journals w) self = None →
     resolve_journal E self w
     = (match (if has_journal_id E then journal_id self else None) with
        | Some j => Ok j
        | None => Raise (UserError (no_journal_message self))
        end, w)).
Proof.
  split; [|split].
  - intros j Hfind. unfold resolve_journal, bind.
    rewrite compute_linked_journal_run. unfold linked_journal. by rewrite Hfind.
  - intros j Hnone Hnum Hfind. unfold resolve_journal, bind.
    rewrite compute_linked_journal_run. unfold linked_journal.
    by rewrite Hnone, Hnum, Hfind.
  - intros Hnone. unfold resolve_journal, bind.
    rewrite compute_linked_journal_run, Hnone. simpl.
    assert (Hfind : List.find (journal_of_account (acc_id self)) (journals w) = None).
    { unfold linked_journal in Hnone.
      by destruct (List.find (journal_of_account (acc_id self)) (journals w)). }
    unfold journal_search, ret, raise.
    destruct (has_journal_id E); simpl; [|by rewrite Hfind].
    destruct (journal_id self); simpl; [done|by rewrite Hfind].
Qed.

(** Why a run of [_custom_create_lines] fails. *)
Lemma custom_create_lines_raise_cause
    (self : OnlineAccount) (txs : list Transaction) (w : world) (e : exn) (w' : world) :
  _custom_create_lines E self txs w = (Raise e, w') →
  (journal_for E (journals w) self = None
   ∧ e = UserError (no_journal_message self))
  ∨ ∃ journal,
      journal_for E (journals w) self = Some journal
      ∧ (unhashable txs = Some e
         ∨ (unhashable txs = None
            ∧ create_guard E (statement_lines w)
                (List.map (line_vals E journal)
                   (List.filter (λ tx, negb (already_persisted journal w tx)) txs))
              = Some e)).
Proof.
  intros Hrun.
  destruct (custom_create_lines_spec E self txs w) as (_ & Hspec).
  rewrite Hspec in Hrun.
  destruct (journal_for E (journals w) self) as [journal|].
  - right. exists journal. split; [done|].
    destruct (unhashable txs) as [e0|]; [left; by injection Hrun as <- _|].
    right. split; [done|]. simpl in Hrun.
    destruct (List.map (line_vals E journal)
                (List.filter (λ tx, negb (already_persisted journal w tx)) txs))
      as [|v vs]; [discriminate|].
    destruct (create_guard E (statement_lines w) (v :: vs)); [|discriminate].
    by injection Hrun as <- _.
  - left. split; [done|]. by injection Hrun as <- _.
Qed.

(** X17.  A failed ingestion writes nothing: the statement lines, the
    journals and the link are as before.  It fails for one of three
    reasons: no journal resolves for the account, with the [UserError]
    that names the account; an identifier of the batch is a list or a
    dict, with the [TypeError] of the membership test; or the host rejects
    the lines to create, with the host's exception. *)
Theorem failed_ingestion_writes_nothing
    (self : OnlineAccount) (txs : list Transaction) (w : world) (e : exn) (w' : world) :
  _custom_create_lines E self txs w = (Raise e, w') →
  statement_lines w' = statement_lines w
  ∧ journals w' = journals w
  ∧ link w' = link w
  ∧ ((journal_for E (journals w) self = None
      ∧ e = UserError (no_journal_message self))
     ∨ ∃ journal,
         journal_for E (journals w) self = Some journal
         ∧ (unhashable txs = Some e
            ∨ (unhashable txs = None
               ∧ create_guard E (statement_lines w)
                   (List.map (line_vals E journal)
                      (List.filter (λ tx, negb (already_persisted journal w tx)) txs))
                 = Some e))).
Proof.
  intros Hrun.
  destruct (same_but_accounts_fields _ _ (custom_create_lines_raise E _ _ _ _ _ Hrun))
    as (Hl & Hj & Hs & _).
  split; [done|]. split; [done|]. split; [done|].
  by eapply custom_create_lines_raise_cause.
Qed.

Lemma find_snoc {A} (f : A → bool) (l : list A) (x : A) :
  List.find f l = None →
  List.find f (l ++ [x]) = if f x then Some x else None.
Proof.
  induction l as [|y l IH]; simpl; [done|].
  destruct (f y); [done|apply IH].
Qed.

Lemma fresh_journal_id_gt (l : list Journal) (j : Journal) :
  j ∈ l → j_id j < fresh_journal_id l.
Proof.
  unfold fresh_journal_id. induction l as [|k l IH]; intros Hj.
  - by apply elem_of_nil in Hj.
  - apply elem_of_cons in Hj as [-> | Hj]; simpl; [lia|].
    specialize (IH Hj). lia.
Qed.

(** The journal table after [action_create_journal] on an account without
    linked journal. *)
Lemma created_journal_is_linked (find_currency : string → option Z)
    (self : OnlineAccount) (w : world) :
  linked_journal (journals w) self = None →
  ∃ new,
    journals (snd (action_create_journal E find_currency self w))
    = journals w ++ [new]
    ∧ account_online_account_id new = Some (acc_id self)
    ∧ j_id new = fresh_journal_id (journals w).
Proof.
  intros Hnone. unfold action_create_journal, bind.
  rewrite compute_linked_journal_run, Hnone. simpl.
  unfold journal_create, account_write, modify, ret. simpl.
  destruct (has_journal_id E); simpl; eauto.
Qed.

(** X18.  [action_create_journal] does nothing for an account that has a
    linked journal.  For one that has none it appends one bank journal
    that points to the account, with an id above all others, and touches
    no statement line; from then on that journal is the linked journal of
    the account, so a second call creates nothing. *)
Theorem created_journal_is_the_linked_one
    (find_currency : string → option Z) (self : OnlineAccount) (w : world) :
  (∀ j, linked_journal (journals w) self = Some j →
        action_create_journal E find_currency self w
        = (Ok None, backfilled E self (j_id j) w))
  ∧ (linked_journal (journals w) self = None →
     ∃ new w',
       action_create_journal E find_currency self w = (Ok (Some journal_created), w')
       ∧ journals w' = journals w ++ [new]
       ∧ j_type new = "bank"
       ∧ account_online_account_id new = Some (acc_id self)
       ∧ (∀ j, j ∈ journals w → j_id j < j_id new)
       ∧ statement_lines w' = statement_lines w
       ∧ linked_journal (journals w') self = Some new
       ∧ ∀ self2, acc_id self2 = acc_id self →
           ∃ w'', action_create_journal E find_currency self2 w' = (Ok None, w'')
                  ∧ journals w'' = journals w').
Proof.
  split.
  - intros j Hj. unfold action_create_journal, bind.
    by rewrite compute_linked_journal_run, Hj.
  - intros Hnone.
    assert (Hfind : List.find (journal_of_account (acc_id self)) (journals w) = None).
    { unfold linked_journal in Hnone.
      by destruct (List.find (journal_of_account (acc_id self)) (journals w)). }
    set (new := {| j_id := fresh_journal_id (journals w); j_type := "bank";
                   bank_acc_number :=
                     if truthy_char (account_number self)
                     then account_number self else None;
                   account_online_account_id := Some (acc_id self) |}).
    assert (Hlinked : ∀ self2, acc_id self2 = acc_id self →
              linked_journal (journals w ++ [new]) self2 = Some new).
    { intros self2 Hid. unfold linked_journal. rewrite Hid, (find_snoc _ _ _ Hfind).
      unfold journal_of_account. simpl. by rewrite bool_decide_eq_true_2. }
    unfold action_create_journal, bind.
    rewrite compute_linked_journal_run, Hnone. simpl.
    unfold journal_create, journal_vals. simpl. fold new.
    destruct (has_journal_id E) eqn:Hhas; unfold account_write, modify, ret; simpl;
      (exists new; eexists; split; [reflexivity|]; simpl;
       split; [done|]; split; [done|]; split; [done|];
       split; [intros j Hj; by apply fresh_journal_id_gt|];
       split; [done|]; split; [by apply Hlinked|];
       intros self2 Hid; unfold action_create_journal, bind;
       rewrite compute_linked_journal_run; simpl; rewrite (Hlinked self2 Hid); simpl;
       eexists; split; [reflexivity|]; by rewrite journals_backfilled).
Qed.

(** X19.  [action_reset_connection] sets the status to [disconnected],
    which unlocks the initial sync date, and nothing else: the tables and
    the cached token stay, so a token that was fresh is still returned
    without a login. *)
Theorem reset_keeps_the_token_and_the_tables (w : world) :
  ∃ w', action_reset_connection w = (Ok tt, w')
        ∧ state (link w') = disconnected
        ∧ _compute_date_locked w' = false
        ∧ accounts w' = accounts w
        ∧ journals w' = journals w
        ∧ statement_lines w' = statement_lines w
        ∧ requests w' = requests w
        ∧ birbank_jwt_token (link w') = birbank_jwt_token (link w)
        ∧ (token_is_fresh (link w) (clock E (ticks w)) = true →
           _get_birbank_token E false w'
           = (Ok (default "" (birbank_jwt_token (link w))), tick w')).
Proof.
  eexists. split; [reflexivity|]. simpl. repeat (split; [done|]).
  intros Hfresh. by rewrite get_token_cached.
Qed.

(** A turn of the sync loop raises only when the lines of the account
    could not be written. *)
Lemma sync_account_raise (target : option Z) (total : nat) (a : OnlineAccount)
    (w : world) (e : exn) (w' : world) :
  sync_account E target total a w = (Raise e, w') →
  ∃ txs w1 e0 w2,
    _retrieve_transactions E a None w = (Ok txs, w1)
    ∧ _custom_create_lines E a txs w1 = (Raise e0, w2)
    ∧ e = UserError (write_error_message a e0).
Proof.
  destruct (retrieve_transactions_returns E a None w) as (txs & w1 & Hget).
  destruct (decide (txs = [])) as [-> | Hne].
  - by rewrite (sync_account_empty E _ _ _ _ _ Hget).
  - destruct (_custom_create_lines E a txs w1) as [[lines|e0] w2] eqn:Hput.
    + by rewrite (sync_account_created E _ _ _ _ _ _ _ _ Hget Hne Hput).
    + rewrite (sync_account_failed E _ _ _ _ _ _ _ _ Hget Hne Hput).
      destruct (truthy_id target); [|discriminate].
      intros [= <- <-]. eauto 10.
Qed.

Lemma sync_accounts_raise (target : option Z) (accs : list OnlineAccount)
    (total : nat) (w : world) (e : exn) (w' : world) :
  sync_accounts E target total accs w = (Raise e, w') →
  ∃ a w0 txs w1 e0 w2,
    a ∈ accs ∧ lines_appended w w0
    ∧ _retrieve_transactions E a None w0 = (Ok txs, w1)
    ∧ _custom_create_lines E a txs w1 = (Raise e0, w2)
    ∧ e = UserError (write_error_message a e0).
Proof.
  revert total w. induction accs as [|a accs IH]; intros total w; simpl;
    [discriminate|].
  unfold bind.
  destruct (sync_account E target total a w) as [[total1|e1] w1] eqn:Hstep.
  - intros Hrest.
    destruct (IH _ _ Hrest) as (a' & w0 & txs & w2 & e0 & w3 & Ha' & Hw0 & Hrun).
    exists a', w0, txs, w2, e0, w3. split; [by apply list_elem_of_further|].
    split; [|done]. etrans; [|done].
    by destruct (sync_account_appends E _ _ _ _ _ _ Hstep).
  - intros [= <- <-].
    destruct (sync_account_raise _ _ _ _ _ _ Hstep) as (txs & w2 & e0 & w3 & Hrun).
    exists a, w, txs, w2, e0, w3. split; [apply list_elem_of_here|].
    split; [reflexivity|done].
Qed.

(** A sync raises what its loop raised. *)
Lemma action_fetch_raise (target : option Z) (w : world) (e : exn) (w' : world) :
  action_fetch_transactions E target w = (Raise e, w') →
  ∃ w_end,
    sync_accounts E target 0
      (if truthy_id target
       then List.filter (λ a, acc_id a =? default 0 target) (linked_accounts (connect w))
       else linked_accounts (connect w))
      (connect w) = (Raise e, w_end).
Proof.
  unfold action_fetch_transactions, try_except, bind, get_link.
  rewrite connect_spec. unfold account_online_account_ids.
  fold (linked_accounts (connect w)).
  assert (Haccs : match target with
                  | Some t => if truthy_id target
                              then List.filter (λ a, acc_id a =? t)
                                     (linked_accounts (connect w))
                              else linked_accounts (connect w)
                  | None => linked_accounts (connect w)
                  end
                  = if truthy_id target
                    then List.filter (λ a, acc_id a =? default 0 target)
                           (linked_accounts (connect w))
                    else linked_accounts (connect w)) by by destruct target.
  rewrite Haccs.
  match goal with
  | |- context [sync_accounts E target 0 ?accs (connect w)] =>
      destruct (sync_accounts E target 0 accs (connect w)) as [[total|e1] w_end] eqn:Hloop
  end.
  - destruct (negb (truthy_id target) || _); simpl; discriminate.
  - unfold sync_crashed. munfold.
    destruct (is_UserError e1); [|discriminate].
    intros [= <- _]. eauto.
Qed.

(** X20.  The sync of the dashboard button is the sync of the account its
    journal points to.  What it returns is the notification of a success
    with the number of lines added; and it raises only when the host
    rejects the lines to create, or when an identifier the bank sent is a
    list or a dict: the journal is there, so the account never lacks
    one. *)
Theorem dashboard_sync_fails_only_on_rejected_lines {A}
    (super_manual_sync : M A) (elsewhere : Z → Z → M A) (inject : notification → A)
    (journal : Journal) (id : Z) (a : OnlineAccount)
    (w : world) (r : result A) (w' : world) :
  journal ∈ journals w →
  account_online_account_id journal = Some id →
  List.find (λ row, acc_id row =? id) (accounts w) = Some a →
  account_online_link_id a = link_id (link w) →
  manual_sync E super_manual_sync elsewhere inject journal w = (r, w') →
  match r with
  | Ok v => ∃ added, v = inject (sync_successful (length added))
                     ∧ statement_lines w' = statement_lines w ++ added
  | Raise e => ∃ a' e0,
                 acc_id a' = id
                 ∧ e = UserError (write_error_message a' e0)
                 ∧ ((∃ lines vals, create_guard E lines vals = Some e0)
                    ∨ ∃ txs, unhashable txs = Some e0)
  end.
Proof.
  intros Hj Hpoints Hrow Hlink.
  assert (Hid : acc_id a = id).
  { apply List.find_some in Hrow as [_ Heq]. by apply Z.eqb_eq. }
  unfold manual_sync. rewrite Hpoints. unfold browse_account, bind, get_link.
  rewrite Hrow, Hlink, Z.eqb_refl.
  destruct (action_fetch_transactions E (Some (acc_id a)) w) as [[n|e] w1] eqn:Hrun;
    intros [= <- <-].
  - destruct (action_fetch_run E _ _ _ _ Hrun) as (total & w_end & Hloop & -> & ->).
    destruct (sync_accounts_appends E _ _ _ _ _ _ Hloop) as (_ & added & Hs & ->).
    exists added. split; [done|].
    rewrite connect_statement_lines in Hs.
    by destruct (negb _ || _).
  - destruct (action_fetch_raise _ _ _ _ Hrun) as (w_end & Hloop).
    destruct (sync_accounts_raise _ _ _ _ _ _ Hloop)
      as (a' & w0 & txs & w2 & e0 & w3 & Ha' & Hw0 & Hget & Hput & ->).
    assert (Htarget : truthy_id (Some (acc_id a)) = true).
    { by destruct (sync_accounts_appends E _ _ _ _ _ _ Hloop) as (_ & _ & ?). }
    rewrite Htarget in Ha'. simpl in Ha'.
    apply list_elem_of_In, List.filter_In in Ha' as [_ Ha'].
    apply Z.eqb_eq in Ha'. rewrite Hid in Ha'.
    assert (Hjournals : journals w2 = journals w).
    { destruct (keeps_retrieve_transactions E _ _ _ _ _ Hget) as (_ & -> & _).
      destruct Hw0 as (-> & _).
      unfold connect. by destruct (state (link w)). }
    destruct (custom_create_lines_raise_cause _ _ _ _ _ Hput)
      as [[Hnone _] | (jn & _ & [Hhash | [_ Hguard]])].
    + exfalso. rewrite Hjournals in Hnone.
      unfold journal_for, linked_journal in Hnone. rewrite Ha' in Hnone.
      destruct (List.find (journal_of_account id) (journals w)) as [j0|] eqn:Hfind;
        [done|].
      apply list_elem_of_In in Hj.
      eapply (List.find_none _ _ Hfind) in Hj.
      unfold journal_of_account in Hj. by rewrite Hpoints, bool_decide_eq_true_2 in Hj.
    + eauto 10.
    + eauto 10.
Qed.

Lemma find_relinked (k id : Z) (x : option Z) (l : list OnlineAccount) :
  List.find (λ row, acc_id row =? k)
    (List.map (λ a, if acc_id a =? id then with_journal_id x a else a) l)
  = (λ a, if acc_id a =? id then with_journal_id x a else a)
    <$> List.find (λ row, acc_id row =? k) l.
Proof.
  induction l as [|a l IH]; simpl; [done|].
  destruct (acc_id a =? id) eqn:Hid; simpl; destruct (acc_id a =? k) eqn:Hk; simpl;
    rewrite ?Hid; done.
Qed.

Lemma journal_of_link_created (find_currency : string → option Z)
    (self : OnlineAccount) (w : world) (j : Journal) :
  journal_of_link (snd (action_create_journal E find_currency self w)) j
  = journal_of_link w j.
Proof.
  unfold action_create_journal, bind. rewrite compute_linked_journal_run.
  unfold journal_of_link.
  destruct (account_online_account_id j) as [a|]; [|done].
  assert (Hback : ∀ k w0,
    match List.find (λ row, acc_id row =? a) (accounts (backfilled E self k w0)) with
    | Some row => account_online_link_id row =? link_id (link (backfilled E self k w0))
    | None => false
    end
    = match List.find (λ row, acc_id row =? a) (accounts w0) with
      | Some row => account_online_link_id row =? link_id (link w0)
      | None => false
      end).
  { intros k w0. unfold backfilled. destruct (_ && _); [|done]. simpl.
    rewrite find_relinked.
    destruct (List.find (λ row, acc_id row =? a) (accounts w0)) as [row|]; [|done].
    simpl. by destruct (acc_id row =? acc_id self). }
  destruct (linked_journal (journals w) self) as [j0|]; simpl; [apply Hback|].
  unfold journal_create, account_write, modify, ret. simpl.
  destruct (has_journal_id E); simpl; [|done].
  rewrite find_relinked.
  destruct (List.find (λ row, acc_id row =? a) (accounts w)) as [row|]; [|done].
  simpl. by destruct (acc_id row =? acc_id self).
Qed.

(** X21.  The journal created for an account of the link is one more
    linked journal: the count of the link's journals goes up by one, and
    the journals shown are those shown before followed by the new one.
    The count is the number of journals shown. *)
Theorem creating_a_journal_raises_the_count
    (find_currency : string → option Z) (self row : OnlineAccount) (w : world) :
  linked_journal (journals w) self = None →
  List.find (λ r, acc_id r =? acc_id self) (accounts w) = Some row →
  account_online_link_id row = link_id (link w) →
  let w' := snd (action_create_journal E find_currency self w) in
  _compute_journal_count w' = S (_compute_journal_count w)
  ∧ action_view_journals w'
    = action_view_journals w ++ [fresh_journal_id (journals w)]
  ∧ length (action_view_journals w') = _compute_journal_count w'.
Proof.
  intros Hnone Hrow Hlink w'.
  assert (Hshown : action_view_journals w'
                   = action_view_journals w ++ [fresh_journal_id (journals w)]).
  { unfold action_view_journals.
    rewrite (List.filter_ext _ (journal_of_link w))
      by apply journal_of_link_created.
    destruct (created_journal_is_linked find_currency self w Hnone)
      as (new & Hjournals & Hnew & Hid).
    subst w'. rewrite Hjournals, List.filter_app, List.map_app. f_equal.
    simpl. unfold journal_of_link. rewrite Hnew, Hrow, Hlink, Z.eqb_refl.
    simpl. by rewrite Hid. }
  assert (Hlen : length (action_view_journals w') = _compute_journal_count w').
  { unfold action_view_journals, _compute_journal_count. by rewrite length_map. }
  split; [|done].
  rewrite <- Hlen, Hshown, length_app. simpl.
  unfold action_view_journals, _compute_journal_count. rewrite length_map. lia.
Qed.

End JournalExtras.

Lemma journal_is_resolved_in_order_witness :
  resolve_journal Scenario.E0 Scenario.a1 Scenario.w0
  = (Ok 10, backfilled Scenario.E0 Scenario.a1 10 Scenario.w0)
  ∧ resolve_journal Scenario.E0 (Scenario.account 7 "AZ03") Scenario.w0
    = (Ok 30, backfilled Scenario.E0 (Scenario.account 7 "AZ03") 30 Scenario.w0)
  ∧ resolve_journal Scenario.E0 Scenario.a2 Scenario.w0
    = (Raise (UserError (no_journal_message Scenario.a2)), Scenario.w0).
Proof.
  split; [|split].
  - destruct (journal_is_resolved_in_order Scenario.E0 Scenario.a1 Scenario.w0)
      as (Hfirst & _).
    apply (Hfirst (Scenario.bank_journal 10 "AZ01" 1)). reflexivity.
  - destruct (journal_is_resolved_in_order Scenario.E0 (Scenario.account 7 "AZ03")
                Scenario.w0) as (_ & Hsecond & _).
    apply (Hsecond (Scenario.bank_journal 30 "AZ03" 3)); reflexivity.
  - destruct (journal_is_resolved_in_order Scenario.E0 Scenario.a2 Scenario.w0)
      as (_ & _ & Hthird).
    apply Hthird. reflexivity.
Defined.

Lemma failed_ingestion_writes_nothing_witness :
  statement_lines (snd (_custom_create_lines Scenario.E0 Scenario.a2 Scenario.batch0
                          Scenario.w0))
  = statement_lines Scenario.w0
  ∧ journal_for Scenario.E0 (journals Scenario.w0) Scenario.a2 = None.
Proof.
  destruct (failed_ingestion_writes_nothing Scenario.E0 Scenario.a2 Scenario.batch0
              Scenario.w0 (UserError (no_journal_message Scenario.a2))
              (snd (_custom_create_lines Scenario.E0 Scenario.a2 Scenario.batch0
                      Scenario.w0)))
    as (Hlines & _ & _ & _); [by vm_compute|].
  split; [exact Hlines|reflexivity].
Defined.

Lemma created_journal_is_the_linked_one_witness :
  action_create_journal Scenario.E0 (λ _, None) Scenario.a1 Scenario.w0
  = (Ok None, backfilled Scenario.E0 Scenario.a1 10 Scenario.w0)
  ∧ ∃ new w',
      action_create_journal Scenario.E0 (λ _, None) Scenario.a2 Scenario.w0
      = (Ok (Some journal_created), w')
      ∧ journals w' = journals Scenario.w0 ++ [new]
      ∧ linked_journal (journals w') Scenario.a2 = Some new.
Proof.
  split.
  - destruct (created_journal_is_the_linked_one Scenario.E0 (λ _, None) Scenario.a1
                Scenario.w0) as (Hlinked & _).
    apply (Hlinked (Scenario.bank_journal 10 "AZ01" 1)). reflexivity.
  - destruct (created_journal_is_the_linked_one Scenario.E0 (λ _, None) Scenario.a2
                Scenario.w0) as (_ & Hcreate).
    destruct (Hcreate eq_refl)
      as (new & w' & Hrun & Hjournals & _ & _ & _ & _ & Hlinked & _).
    exists new, w'. split; [exact Hrun|]. split; [exact Hjournals|exact Hlinked].
Defined.

Lemma creating_a_journal_raises_the_count_witness :
  _compute_journal_count
    (snd (action_create_journal Scenario.E0 (λ _, None) Scenario.a2 Scenario.w0))
  = S (_compute_journal_count Scenario.w0)
  ∧ action_view_journals
      (snd (action_create_journal Scenario.E0 (λ _, None) Scenario.a2 Scenario.w0))
    = action_view_journals Scenario.w0 ++ [fresh_journal_id (journals Scenario.w0)]
  ∧ length (action_view_journals
              (snd (action_create_journal Scenario.E0 (λ _, None) Scenario.a2
                      Scenario.w0)))
    = _compute_journal_count
        (snd (action_create_journal Scenario.E0 (λ _, None) Scenario.a2 Scenario.w0)).
Proof.
  apply (creating_a_journal_raises_the_count Scenario.E0 (λ _, None) Scenario.a2
           Scenario.a2 Scenario.w0); reflexivity.
Defined.

Lemma reset_keeps_the_token_and_the_tables_witness :
  ∃ w', action_reset_connection (Scenario.with_cached "tok" 1700003000 Scenario.w0)
        = (Ok tt, w')
        ∧ _get_birbank_token Scenario.E0 false w' = (Ok "tok", tick w').
Proof.
  destruct (reset_keeps_the_token_and_the_tables Scenario.E0
              (Scenario.with_cached "tok" 1700003000 Scenario.w0))
    as (w' & Hrun & _ & _ & _ & _ & _ & _ & _ & Htoken).
  exists w'. split; [exact Hrun|]. apply Htoken. by vm_compute.
Defined.

Lemma dashboard_sync_fails_only_on_rejected_lines_witness :
  ∃ added,
    sync_successful 1 = sync_successful (length added)
    ∧ statement_lines
        (snd (manual_sync Scenario.E0 (ret connection_successful)
                (λ _ _, ret connection_successful) id
                (Scenario.bank_journal 10 "AZ01" 1) Scenario.w0))
      = statement_lines Scenario.w0 ++ added.
Proof.
  apply (dashboard_sync_fails_only_on_rejected_lines Scenario.E0
           (ret connection_successful) (λ _ _, ret connection_successful) id
           (Scenario.bank_journal 10 "AZ01" 1) 1 Scenario.a1 Scenario.w0
           (Ok (sync_successful 1))).
  - apply list_elem_of_here.
  - reflexivity.
  - reflexivity.
  - reflexivity.
  - by vm_compute.
Defined.

(** ** The initialization: marks and rows *)

Section InitExtras.

Variable E : Externals.

Global Instance unmarked_preorder : PreOrder unmarked.
Proof.
  split.
  - intros w. by repeat split.
  - intros w1 w2 w3 (Hs & Hr & Hst & Hd) (Hs' & Hr' & Hst' & Hd').
    repeat split; try congruence. by etrans.
Qed.

Lemma unmarked_modify (f : world → world) :
  (∀ w, unmarked w (f w)) → keeps unmarked (modify f).
Proof. intros Hf w r w' [= <- <-]. apply Hf. Qed.

Lemma unmarked_log (level : log_level) (msg : string) : keeps unmarked (log level msg).
Proof. apply unmarked_modify. intros w. by repeat split. Qed.

Lemma unmarked_log_traceback (e : exn) : keeps unmarked (log_traceback e).
Proof. apply unmarked_modify. intros w. by repeat split. Qed.

Lemma unmarked_Datetime_now : keeps unmarked (Datetime_now E).
Proof. intros w r w' [= <- <-]. by repeat split. Qed.

Lemma unmarked_send (req : request) : keeps unmarked (send E req).
Proof.
  intros w r w' Hrun. unfold send in Hrun.
  destruct (remote E (requests w) req); injection Hrun as <- <-;
    (split; [done|]; split; [by apply prefix_app_r|done]).
Qed.

Lemma unmarked_write_token (t : option string) (expiry : option Z) :
  keeps unmarked (link_write (with_token t expiry)).
Proof. apply unmarked_modify. intros w. by repeat split. Qed.

Lemma unmarked_write_error (m : option string) :
  keeps unmarked (link_write (with_last_error_message m)).
Proof. apply unmarked_modify. intros w. by repeat split. Qed.

Lemma unmarked_account_write (id : Z) (f : OnlineAccount → OnlineAccount) :
  keeps unmarked (account_write id f).
Proof. apply unmarked_modify. intros w. by repeat split. Qed.

Lemma unmarked_account_create (vals : Z → OnlineAccount) :
  keeps unmarked (account_create vals).
Proof. intros w r w' [= <- <-]. by repeat split. Qed.

Lemma unmarked_journal_write (id : Z) (f : Journal → Journal) :
  keeps unmarked (journal_write id f).
Proof. apply unmarked_modify. intros w. by repeat split. Qed.

Lemma unmarked_journal_search (domain : Journal → bool) :
  keeps unmarked (journal_search domain).
Proof. intros w r w' [= <- <-]. reflexivity. Qed.

Lemma unmarked_browse_account (id : Z) : keeps unmarked (browse_account id).
Proof.
  intros w r w' Hrun. unfold browse_account in Hrun.
  destruct (List.find (λ a, acc_id a =? id) (accounts w));
    injection Hrun as <- <-; reflexivity.
Qed.

Lemma unmarked_account_ids : keeps unmarked account_online_account_ids.
Proof. intros w r w' [= <- <-]. reflexivity. Qed.

Ltac frame_unmarked :=
  frame_with ltac:(first
    [ apply unmarked_log | apply unmarked_log_traceback
    | apply unmarked_Datetime_now | apply unmarked_send
    | apply unmarked_write_token | apply unmarked_write_error
    | apply unmarked_account_write
    | apply unmarked_account_create | apply unmarked_journal_write
    | apply unmarked_journal_search | apply unmarked_browse_account
    | apply unmarked_account_ids ]).

Lemma unmarked_get_birbank_token (force : bool) :
  keeps unmarked (_get_birbank_token E force).
Proof.
  unfold _get_birbank_token, _get_birbank_base_url, raise_for_status, resp_json,
    _parse_error.
  frame_unmarked.
Qed.

Lemma unmarked_fetch_odoo_fin_accounts : keeps unmarked (_fetch_odoo_fin_accounts E).
Proof.
  unfold _fetch_odoo_fin_accounts, _get_birbank_base_url, raise_for_status,
    resp_json, _parse_error, account_data_of.
  frame_with ltac:(first
    [ apply unmarked_get_birbank_token
    | apply unmarked_log | apply unmarked_log_traceback
    | apply unmarked_send ]).
Qed.

Lemma unmarked_upsert_accounts (ex : gmap string Z) (l : list AccountData) :
  keeps unmarked (upsert_accounts E ex l).
Proof.
  induction l as [|d l IH]; simpl; [apply keeps_ret; exact _|].
  apply keeps_bind; [exact _| |intros ?; apply IH].
  unfold upsert_account, auto_link, _compute_linked_journal.
  frame_unmarked.
Qed.

(** X22.  The initialization always logs in first, whatever token is
    cached, and writes no statement line.  It marks the link only on
    success: status [connected], last error cleared, last success set to
    the time of the write.  When it fails, the status and the last success
    of the link are as before. *)
Theorem initialization_marks_the_link_only_on_success
    (w : world) (r : result notification) (w' : world) :
  action_initialize_connection E w = (r, w') →
  statement_lines w' = statement_lines w
  ∧ (∃ rest, requests w' = requests w ++ login_request_of w :: rest)
  ∧ match r with
    | Ok n => n = connection_successful
              ∧ state (link w') = connected
              ∧ last_error_message (link w') = None
              ∧ ∃ t, last_success_date (link w') = Some (clock E t)
    | Raise e => state (link w') = state (link w)
                 ∧ last_success_date (link w') = last_success_date (link w)
    end.
Proof.
  intros Hrun.
  destruct (get_token_login E true w eq_refl) as (rt & wa & Htok & Hreq & _).
  apply unmarked_get_birbank_token in Htok as Hwa.
  assert (Hgoal : ∀ wz,
    unmarked wa wz →
    statement_lines wz = statement_lines w
    ∧ (∃ rest, requests wz = requests w ++ login_request_of w :: rest)
    ∧ state (link wz) = state (link w)
    ∧ last_success_date (link wz) = last_success_date (link w)).
  { intros wz Hwz. destruct (transitivity Hwa Hwz) as (Hs & _ & Hst & Hd).
    split; [done|]. split; [|done].
    destruct Hwz as (_ & [k Hk] & _). exists k.
    by rewrite Hk, Hreq, <- app_assoc. }
  assert (Hhandler : ∀ e wz,
    unmarked wa wz →
    (log_traceback e ;;;
     link_write (with_last_error_message (Some (safe_str_exn e))) ;;;
     raise (UserError ("Connection Failed: " +:+ safe_str_exn e))) wz = (r, w') →
    statement_lines w' = statement_lines w
    ∧ (∃ rest, requests w' = requests w ++ login_request_of w :: rest)
    ∧ match r with
      | Ok n => n = connection_successful
                ∧ state (link w') = connected
                ∧ last_error_message (link w') = None
                ∧ ∃ t, last_success_date (link w') = Some (clock E t)
      | Raise e => state (link w') = state (link w)
                   ∧ last_success_date (link w') = last_success_date (link w)
      end).
  { intros e wz Hwz. munfold. intros [= <- <-].
    destruct (Hgoal wz Hwz) as (? & ? & ? & ?). done. }
  unfold action_initialize_connection, try_except in Hrun.
  destruct rt as [tok|e].
  2:{ rewrite (bind_Raise _ _ _ _ _ Htok) in Hrun.
      by apply (Hhandler e wa). }
  rewrite (bind_Ok _ _ _ _ _ Htok) in Hrun.
  destruct (_fetch_odoo_fin_accounts E wa) as [[l|e] wb] eqn:Hfetch;
    apply unmarked_fetch_odoo_fin_accounts in Hfetch as Hwb.
  2:{ rewrite (bind_Raise _ _ _ _ _ Hfetch) in Hrun.
      by apply (Hhandler e wb). }
  rewrite (bind_Ok _ _ _ _ _ Hfetch) in Hrun.
  rewrite (bind_Ok account_online_account_ids _ wb _ wb) in Hrun by reflexivity.
  match type of Hrun with
  | context [upsert_accounts E ?ex l] =>
      destruct (upsert_accounts E ex l wb) as [[[]|e] wc] eqn:Hloop;
      apply unmarked_upsert_accounts in Hloop as Hwc
  end.
  2:{ rewrite (bind_Raise _ _ _ _ _ Hloop) in Hrun.
      apply (Hhandler e wc); [by etrans|done]. }
  rewrite (bind_Ok _ _ _ _ _ Hloop) in Hrun.
  unfold Datetime_now, link_write, modify, bind, ret in Hrun.
  injection Hrun as <- <-. simpl.
  destruct (Hgoal wc) as (? & ? & _); [by etrans|].
  split; [done|]. split; [done|]. eauto.
Qed.

(** A turn of the loop for an identifier the dict does not hold creates
    one row with it. *)
Lemma upsert_account_creates (ex : gmap string Z) (d : AccountData) (i : string)
    (w : world) (r : result unit) (w' : world) :
  ad_online_identifier d = JStr i → i ≠ "" → ex !! i = None →
  upsert_account E ex d w = (r, w') →
  length (List.filter (has_this_identifier i) (accounts w'))
  = S (length (List.filter (has_this_identifier i) (accounts w))).
Proof.
  intros Hd Hne Hex. unfold upsert_account. rewrite Hd.
  assert (truthy (JStr i) = true) as ->.
  { simpl. by apply negb_true_iff, String.eqb_neq. }
  simpl. unfold bind, get_link. rewrite Hex. simpl. unfold account_create.
  intros Hrest. apply keeps_auto_link in Hrest as [Hrows _].
  rewrite (same_rows_count i _ _ Hrows). simpl.
  rewrite List.filter_app, length_app. simpl.
  unfold has_this_identifier at 2. simpl. rewrite Hd. simpl.
  rewrite bool_decide_eq_true_2 by done.
  simpl. lia.
Qed.

(** X23.  The dict of the existing accounts is built once, before the
    loop: a listing that holds twice an identifier the link does not know
    creates two rows with it. *)
Theorem new_identifier_listed_twice_makes_two_rows
    (ex : gmap string Z) (d1 d2 : AccountData) (i : string) (w w' : world) :
  ad_online_identifier d1 = JStr i →
  ad_online_identifier d2 = JStr i →
  i ≠ "" →
  ex !! i = None →
  upsert_accounts E ex [d1; d2] w = (Ok tt, w') →
  length (List.filter (has_this_identifier i) (accounts w'))
  = S (S (length (List.filter (has_this_identifier i) (accounts w)))).
Proof.
  intros Hd1 Hd2 Hne Hex. simpl. unfold bind.
  destruct (upsert_account E ex d1 w) as [[[]|e] w1] eqn:H1; [|discriminate].
  destruct (upsert_account E ex d2 w1) as [[[]|e] w2] eqn:H2; [|discriminate].
  intros [= <-].
  rewrite (upsert_account_creates _ _ _ _ _ _ Hd2 Hne Hex H2).
  by rewrite (upsert_account_creates _ _ _ _ _ _ Hd1 Hne Hex H1).
Qed.

End InitExtras.

Lemma initialization_marks_the_link_only_on_success_witness :
  statement_lines (snd (action_initialize_connection Scenario.E0 Scenario.w0))
  = statement_lines Scenario.w0
  ∧ (∃ rest, requests (snd (action_initialize_connection Scenario.E0 Scenario.w0))
             = requests Scenario.w0 ++ login_request_of Scenario.w0 :: rest)
  ∧ connection_successful = connection_successful
  ∧ state (link (snd (action_initialize_connection Scenario.E0 Scenario.w0)))
    = connected
  ∧ last_error_message (link (snd (action_initialize_connection Scenario.E0 Scenario.w0)))
    = None
  ∧ ∃ t, last_success_date
           (link (snd (action_initialize_connection Scenario.E0 Scenario.w0)))
         = Some (clock Scenario.E0 t).
Proof.
  apply (initialization_marks_the_link_only_on_success Scenario.E0 Scenario.w0
           (Ok connection_successful)).
  by vm_compute.
Defined.

Lemma new_identifier_listed_twice_makes_two_rows_witness :
  length (List.filter (has_this_identifier "AZ09")
            (accounts (snd (upsert_accounts Scenario.E0
                              (existing_accounts_of (linked_accounts Scenario.w0))
                              [Scenario.fetched_az09; Scenario.fetched_az09]
                              Scenario.w0))))
  = S (S (length (List.filter (has_this_identifier "AZ09") (accounts Scenario.w0)))).
Proof.
  apply (new_identifier_listed_twice_makes_two_rows Scenario.E0
           (existing_accounts_of (linked_accounts Scenario.w0))
           Scenario.fetched_az09 Scenario.fetched_az09 "AZ09" Scenario.w0).
  - reflexivity.
  - reflexivity.
  - discriminate.
  - by vm_compute.
  - by vm_compute.
Defined.

(** ** The sync without target absorbs every failure *)

Section UntargetedSync.

Variable E : Externals.

(** X24.  A sync without target never raises and never reports a
    failure: whatever the bank answers and whatever the host rejects, it
    returns the notification of a success, and leaves the link
    [connected] with no last error. *)
Theorem untargeted_sync_never_raises (target : option Z) (w : world) :
  truthy_id target = false →
  ∃ total w',
    action_fetch_transactions E target w = (Ok (sync_successful total), w')
    ∧ state (link w') = connected
    ∧ last_error_message (link w') = None.
Proof.
  intros Htarget.
  destruct (action_fetch_transactions E target w) as [[n|e] w'] eqn:Hrun.
  - destruct (action_fetch_run E _ _ _ _ Hrun) as (total & w_end & _ & -> & ->).
    exists total. eexists. split; [reflexivity|].
    rewrite Htarget. simpl. done.
  - exfalso. destruct (action_fetch_raise E _ _ _ _ Hrun) as (w_end & Hloop).
    destruct (sync_accounts_appends E _ _ _ _ _ _ Hloop) as (_ & _ & Htruthy).
    congruence.
Qed.

End UntargetedSync.

Lemma untargeted_sync_never_raises_witness :
  ∃ total w',
    action_fetch_transactions Scenario.E_down None Scenario.w0
    = (Ok (sync_successful total), w')
    ∧ state (link w') = connected
    ∧ last_error_message (link w') = None.
Proof.
  apply (untargeted_sync_never_raises Scenario.E_down None Scenario.w0).
  reflexivity.
Defined.
